(** * OpenHouseDesk: follow-up campaign eligibility and dispatch

    A shallow embedding of
    - [replaceTemplateVariables], [sendEmail], [sendSMS], [logFollowUp] and
      [serve] of [supabase/functions/send-follow-up/index.ts],
    - the SQL function [get_eligible_visitors] and the policies of row
      level security of [database-enhanced-forms.sql],
    - the template validation of [src/lib/validations.ts] and the send
      dialog of [src/app/admin/dashboard/AdminDashboard.tsx],
    together with the properties the specification states about them.

    The database is a value: its tables are lists of rows and its queries
    are answered.  What lies outside the repository is carried by the
    environment of the dispatch: the two providers, the outcome of an
    insert into the log, and the input function of the type uuid, through
    which the texts of a request become values ([Uuid] gives the one of
    PostgreSQL for the sample runs). *)

From Stdlib Require Import String Ascii List Bool Arith Lia Permutation.
Import ListNotations.
Local Open Scope list_scope.
Local Open Scope string_scope.

(* ===================================================================== *)
(** * JavaScript values used by the edge function *)
(* ===================================================================== *)

Module Js.

(* A string read from a JSON row or from the request is an [option string]:
   [None] stands for [null] and [undefined]. *)

(** [x || ''] on a string-or-null value. *)
Definition or_empty (x : option string) : string :=
  match x with
  | Some s => s
  | None => ""
  end.

(** Truthiness of a string-or-null value: non-null and non-empty. *)
Definition truthy (x : option string) : bool :=
  match x with
  | Some "" => false
  | Some _ => true
  | None => false
  end.

(** [a || b] on string-or-null values. *)
Definition or_else (a b : option string) : option string :=
  if truthy a then a else b.

(** A value interpolated into a template literal: [`${x}`]. *)
Definition interpolate (x : option string) : string :=
  match x with
  | Some s => s
  | None => "undefined"
  end.

(** [s.startsWith(p)]. *)
Fixpoint starts_with (p s : string) : bool :=
  match p with
  | "" => true
  | String a p' =>
      match s with
      | "" => false
      | String b s' => Ascii.eqb a b && starts_with p' s'
      end
  end.

(** [s.slice(n)]. *)
Fixpoint drop (n : nat) (s : string) : string :=
  match n with
  | O => s
  | S n' =>
      match s with
      | "" => ""
      | String _ s' => drop n' s'
      end
  end.

(** [s.includes(p)]: some suffix of [s] starts with [p]. *)
Fixpoint includes (p s : string) : bool :=
  starts_with p s ||
  match s with
  | "" => false
  | String _ s' => includes p s'
  end.

(** The expansion of a replacement string by [String.prototype.replace]
    for a pattern without capture groups: [$$] is a dollar sign, [$&] the
    matched text, [$`] the text before the match and [$'] the text after
    it; a dollar sign followed by anything else stands for itself. *)
Fixpoint GetSubstitution (matched before after replacement : string) : string :=
  match replacement with
  | "" => ""
  | String c tl =>
      if Ascii.eqb c "$" then
        match tl with
        | "" => String c ""
        | String d rest =>
            if Ascii.eqb d "$" then String "$" (GetSubstitution matched before after rest)
            else if Ascii.eqb d "&" then matched ++ GetSubstitution matched before after rest
            else if Ascii.eqb d "`" then before ++ GetSubstitution matched before after rest
            else if Ascii.eqb d "'" then after ++ GetSubstitution matched before after rest
            else String c (GetSubstitution matched before after tl)
        end
      else String c (GetSubstitution matched before after tl)
  end.

(** [s.replace(new RegExp(pat, 'g'), v)] for a pattern [pat] that matches
    exactly the non-empty literal text [pat]: one left-to-right scan of [s],
    matches do not overlap, and the text put in place of a match is not
    scanned again.  [skip] counts the characters of the current match that
    are still to be consumed and [before] is the part of [s] already
    scanned. *)
Fixpoint replace_scan (pat v : string) (skip : nat) (before s : string) : string :=
  match s with
  | "" => ""
  | String c s' =>
      match skip with
      | S k => replace_scan pat v k (before ++ String c "") s'
      | O =>
          if starts_with pat s then
            GetSubstitution pat before (drop (String.length pat) s) v
              ++ replace_scan pat v (String.length pat - 1) (before ++ String c "") s'
          else String c (replace_scan pat v 0 (before ++ String c "") s')
      end
  end.

Definition replace_all (pat v s : string) : string :=
  replace_scan pat v 0 "" s.

(** [html.replace(/<[^>]*>/g, '')]: a [<] starts a match when a [>]
    follows somewhere, and the match ends at the first such [>]. *)
Fixpoint strip_tags_scan (in_tag : bool) (s : string) : string :=
  match s with
  | "" => ""
  | String c s' =>
      if in_tag then strip_tags_scan (negb (Ascii.eqb c ">")) s'
      else if Ascii.eqb c "<" && includes ">" s' then strip_tags_scan true s'
      else String c (strip_tags_scan false s')
  end.

Definition strip_tags (s : string) : string := strip_tags_scan false s.

End Js.

(* ===================================================================== *)
(** * The template renderer *)
(* ===================================================================== *)

Module Template.

(** [Record<string, string>] as the list [Object.entries] yields, in
    insertion order; a value may be [null] or [undefined] at run time. *)
Definition Variables := list (string * option string).

(** A letter, a digit or an underscore. *)
Definition word_char (c : ascii) : bool :=
  let n := nat_of_ascii c in
  (Nat.leb 48 n && Nat.leb n 57) || (Nat.leb 65 n && Nat.leb n 90)
  || (Nat.leb 97 n && Nat.leb n 122) || Nat.eqb n 95.

Definition digit_char (c : ascii) : bool :=
  let n := nat_of_ascii c in Nat.leb 48 n && Nat.leb n 57.

Fixpoint all_chars (f : ascii -> bool) (s : string) : bool :=
  match s with
  | "" => true
  | String c s' => f c && all_chars f s'
  end.

Fixpoint some_char (f : ascii -> bool) (s : string) : bool :=
  match s with
  | "" => false
  | String c s' => f c || some_char f s'
  end.

(** The keys for which this file says what [new RegExp(`{{${key}}}`, 'g')]
    matches: those made of letters, digits and underscores that are not
    all digits.  The source of the expression is then the text [{{key}}]
    with no character that stands for anything but itself: a brace that
    does not open a quantifier is an ordinary character, and [{key}] is a
    quantifier only when [key] is a number.  All keys built by [serve] are
    of this kind.  Other keys are outside the fragment: a key of digits
    makes a quantifier, a key with a meta-character another expression or
    a syntax error. *)
Definition word_key (key : string) : bool :=
  all_chars word_char key && some_char (fun c => negb (digit_char c)) key.

(** The text the expression of a word key matches. *)
Definition placeholder (key : string) : string := "{{" ++ key ++ "}}".

(** One iteration of the loop of [replaceTemplateVariables]. *)
Definition replace_entry (result : string) (entry : string * option string) : string :=
  let (key, value) := entry in
  Js.replace_all (placeholder key) (Js.or_empty value) result.

(** [replaceTemplateVariables], index.ts lines 62-69, for a mapping whose
    keys are word keys. *)
Definition replaceTemplateVariables (template : string) (variables : Variables) : string :=
  fold_left replace_entry variables template.

End Template.

(* ===================================================================== *)
(** * SQL: three-valued logic and outer joins *)
(* ===================================================================== *)

Module Sql.

(** A boolean SQL expression evaluates to true, false or unknown ([None]). *)
Definition tri := option bool.

Definition tand (a b : tri) : tri :=
  match a, b with
  | Some false, _ | _, Some false => Some false
  | Some true, Some true => Some true
  | _, _ => None
  end.

Definition tor (a b : tri) : tri :=
  match a, b with
  | Some true, _ | _, Some true => Some true
  | Some false, Some false => Some false
  | _, _ => None
  end.

Definition tnot (a : tri) : tri := option_map negb a.

(** [a = b] on nullable text (and on UUIDs, kept as text). *)
Definition eq (a b : option string) : tri :=
  match a, b with
  | Some x, Some y => Some (String.eqb x y)
  | _, _ => None
  end.

(** [a IN ('x', 'y', ...)] for a list of literals. *)
Definition in_list (a : option string) (l : list string) : tri :=
  option_map (fun x => existsb (String.eqb x) l) a.

Definition not_in_list (a : option string) (l : list string) : tri :=
  tnot (in_list a l).

(** [a IS NULL] is never unknown. *)
Definition is_null {A} (a : option A) : tri :=
  match a with
  | None => Some true
  | Some _ => Some false
  end.

Definition is_not_null {A} (a : option A) : tri := tnot (is_null a).

(** [COALESCE(a, d)]. *)
Definition coalesce {A} (a : option A) (d : A) : A :=
  match a with
  | Some x => x
  | None => d
  end.

(** A [WHERE], [ON] or [WHEN] condition selects only when it is true. *)
Definition holds (a : tri) : bool :=
  match a with
  | Some true => true
  | _ => false
  end.

(** The rows a [LEFT JOIN] pairs with one left row: every right row the
    [ON] condition holds for, or one all-null row when there is none. *)
Definition left_join {R} (on : R -> tri) (table : list R) : list (option R) :=
  match filter (fun r => holds (on r)) table with
  | [] => [None]
  | rows => map Some rows
  end.

(** A column of the nullable side of an outer join. *)
Definition col {R A} (r : option R) (f : R -> option A) : option A :=
  match r with
  | Some x => f x
  | None => None
  end.

(** [EXISTS (SELECT 1 FROM table WHERE cond)]. *)
Definition exists_row {R} (cond : R -> tri) (table : list R) : tri :=
  Some (existsb (fun r => holds (cond r)) table).

End Sql.

(* ===================================================================== *)
(** * The tables read and written by the follow-up system *)
(* ===================================================================== *)

Module Db.

(** A value of the type uuid, as the database prints it.  The texts a
    request carries become such values through the input function of the
    type, [Dispatch.uuid_in]. *)
Definition uuid := string.

(** [visitors] (database-setup.sql, database-properties-setup.sql).  [email]
    and [phone] are declared NOT NULL; they are kept nullable here because
    the edge function tests them for truthiness, so that every result below
    also covers a row without one of them. *)
Record Visitor := {
  v_id : uuid;
  v_name : string;
  v_email : option string;
  v_phone : option string;
  v_visit_date : string;
  v_property_id : option uuid
}.

(** [properties]. *)
Record Property := {
  p_id : uuid;
  p_name : string;
  p_address : string
}.

(** [feedback]. *)
Record Feedback := {
  f_id : uuid;
  f_visitor_id : option uuid;
  f_interested : option bool
}.

(** [follow_up_campaigns]. *)
Record Campaign := {
  c_id : uuid;
  c_property_id : option uuid;
  c_admin_id : option uuid;
  c_message_type : string;
  c_trigger_condition : string;
  c_email_subject : option string;
  c_email_template : option string;
  c_email_from_name : option string;
  c_sms_template : option string
}.

(** [unsubscribes]. *)
Record Unsubscribe := {
  u_id : uuid;
  u_email : option string;
  u_phone : option string;
  u_unsubscribe_type : string
}.

(** [follow_up_logs]; [id], [sent_at] and [metadata] take their defaults. *)
Record FollowUpLog := {
  fl_visitor_id : uuid;
  fl_campaign_id : option uuid;
  fl_property_id : option uuid;
  fl_admin_id : option uuid;
  fl_message_type : string;
  fl_recipient_email : option string;
  fl_recipient_phone : option string;
  fl_subject : option string;
  fl_message_content : string;
  fl_status : option string;
  fl_external_id : option string;
  fl_error_message : option string
}.

(** A row of [admins] as the edge function reads it (interface [Admin]). *)
Record Admin := {
  a_id : uuid;
  a_name : option string;
  a_email : option string;
  a_phone : option string
}.

Record Database := {
  visitors : list Visitor;
  properties : list Property;
  feedback : list Feedback;
  follow_up_campaigns : list Campaign;
  unsubscribes : list Unsubscribe;
  follow_up_logs : list FollowUpLog;
  admins : list Admin
}.

Definition with_logs (db : Database) (logs : list FollowUpLog) : Database :=
  {| visitors := visitors db;
     properties := properties db;
     feedback := feedback db;
     follow_up_campaigns := follow_up_campaigns db;
     unsubscribes := unsubscribes db;
     follow_up_logs := logs;
     admins := admins db |}.

Definition with_unsubscribes (db : Database) (us : list Unsubscribe) : Database :=
  {| visitors := visitors db;
     properties := properties db;
     feedback := feedback db;
     follow_up_campaigns := follow_up_campaigns db;
     unsubscribes := us;
     follow_up_logs := follow_up_logs db;
     admins := admins db |}.

(** [.single()]: the row when the query yields exactly one. *)
Definition single {R} (rows : list R) : option R :=
  match rows with
  | [r] => Some r
  | _ => None
  end.

End Db.

(* ===================================================================== *)
(** * The uuid type of PostgreSQL *)
(* ===================================================================== *)

Module Uuid.
Import Db.

(** [isxdigit]. *)
Definition is_hex (c : ascii) : bool :=
  let n := nat_of_ascii c in
  (Nat.leb 48 n && Nat.leb n 57) || (Nat.leb 65 n && Nat.leb n 70)
  || (Nat.leb 97 n && Nat.leb n 102).

(** A digit as the output function prints it. *)
Definition lower (c : ascii) : ascii :=
  let n := nat_of_ascii c in
  if Nat.leb 65 n && Nat.leb n 70 then ascii_of_nat (n + 32) else c.

(** The input function reads sixteen bytes of two hexadecimal digits
    each; a hyphen may follow every second byte but the last.  [i] is the
    number of bytes read so far; the result is the digits and the rest of
    the text. *)
Fixpoint bytes (todo i : nat) (s : string) : option (string * string) :=
  match todo with
  | O => Some ("", s)
  | S todo' =>
      match s with
      | String a (String b rest) =>
          if is_hex a && is_hex b then
            let rest' :=
              match rest with
              | String d rest2 =>
                  if Ascii.eqb d "-" && Nat.odd i && Nat.ltb i 15 then rest2 else rest
              | "" => rest
              end in
            match bytes todo' (S i) rest' with
            | Some (digits, tail) =>
                Some (String (lower a) (String (lower b) digits), tail)
            | None => None
            end
          else None
      | _ => None
      end
  end.

(** The output form: 8-4-4-4-12. *)
Definition canonical (digits : string) : uuid :=
  substring 0 8 digits ++ "-" ++ substring 8 4 digits ++ "-" ++ substring 12 4 digits
  ++ "-" ++ substring 16 4 digits ++ "-" ++ substring 20 12 digits.

(** The value a text stands for, if it is the text of a uuid: digits in
    either case, the hyphens optional, braces around the whole allowed. *)
Definition uuid_in (s : string) : option uuid :=
  let braces := Js.starts_with "{" s in
  match bytes 16 0 (if braces then Js.drop 1 s else s) with
  | Some (digits, tail) =>
      if String.eqb tail (if braces then "}" else "") then Some (canonical digits)
      else None
  | None => None
  end.

(** The message of the error for texts that are no uuid. *)
Definition invalid (bad : list string) : string :=
  let quote := String (ascii_of_nat 34) "" in
  "invalid input syntax for type uuid: " ++ quote ++ hd "" bad ++ quote.

End Uuid.

(* ===================================================================== *)
(** * The eligibility resolver: [get_eligible_visitors] *)
(* ===================================================================== *)

Module Resolver.
Import Db.

(** A row of the result table; interface [VisitorData] of index.ts. *)
Record VisitorData := {
  visitor_id : uuid;
  visitor_name : string;
  visitor_email : option string;
  visitor_phone : option string;
  property_id : option uuid;
  property_name : option string;
  property_address : option string;
  visit_date : string;
  interested : bool;
  has_feedback : bool
}.

(** A row of the join [v, p, f, c, u] before the [WHERE]. *)
Record Joined := {
  j_v : Visitor;
  j_p : option Property;
  j_f : option Feedback;
  j_c : option Campaign;
  j_u : option Unsubscribe
}.

(** [ON v.property_id = p.id]. *)
Definition on_property (v : Visitor) (p : Property) : Sql.tri :=
  Sql.eq (v_property_id v) (Some (p_id p)).

(** [ON v.id = f.visitor_id]. *)
Definition on_feedback (v : Visitor) (f : Feedback) : Sql.tri :=
  Sql.eq (Some (v_id v)) (f_visitor_id f).

(** [ON c.id = campaign_id_param]. *)
Definition on_campaign (campaign_id_param : uuid) (c : Campaign) : Sql.tri :=
  Sql.eq (Some (c_id c)) (Some campaign_id_param).

(** [ON (u.email = v.email AND u.unsubscribe_type IN ('email', 'both')) OR
        (u.phone = v.phone AND u.unsubscribe_type IN ('sms', 'both'))]. *)
Definition on_unsubscribe (v : Visitor) (u : Unsubscribe) : Sql.tri :=
  Sql.tor
    (Sql.tand (Sql.eq (u_email u) (v_email v))
              (Sql.in_list (Some (u_unsubscribe_type u)) ["email"; "both"]))
    (Sql.tand (Sql.eq (u_phone u) (v_phone v))
              (Sql.in_list (Some (u_unsubscribe_type u)) ["sms"; "both"])).

(** The [FROM] clause with its four [LEFT JOIN]s. *)
Definition joined_rows (db : Database) (campaign_id_param : uuid) : list Joined :=
  flat_map (fun v =>
    flat_map (fun p =>
      flat_map (fun f =>
        flat_map (fun c =>
          map (fun u => {| j_v := v; j_p := p; j_f := f; j_c := c; j_u := u |})
              (Sql.left_join (on_unsubscribe v) (unsubscribes db)))
          (Sql.left_join (on_campaign campaign_id_param) (follow_up_campaigns db)))
        (Sql.left_join (on_feedback v) (feedback db)))
      (Sql.left_join (on_property v) (properties db)))
    (visitors db).

(** [property_id_param IS NULL OR v.property_id = property_id_param]. *)
Definition property_filter (property_id_param : option uuid) (r : Joined) : Sql.tri :=
  Sql.tor (Sql.is_null property_id_param)
          (Sql.eq (v_property_id (j_v r)) property_id_param).

(** [c.property_id IS NULL OR v.property_id = c.property_id]. *)
Definition campaign_property_filter (r : Joined) : Sql.tri :=
  Sql.tor (Sql.is_null (Sql.col (j_c r) c_property_id))
          (Sql.eq (v_property_id (j_v r)) (Sql.col (j_c r) c_property_id)).

(** [u.id IS NULL]. *)
Definition not_unsubscribed (r : Joined) : Sql.tri :=
  Sql.is_null (Sql.col (j_u r) (fun u => Some (u_id u))).

(** The [CASE] on [c.trigger_condition]. *)
Definition trigger_filter (r : Joined) : Sql.tri :=
  let trigger := Sql.col (j_c r) (fun c => Some (c_trigger_condition c)) in
  let f_interested' := Sql.col (j_f r) f_interested in
  let f_id' := Sql.col (j_f r) (fun f => Some (f_id f)) in
  if Sql.holds (Sql.eq trigger (Some "interested")) then
    Some (Bool.eqb (Sql.coalesce f_interested' false) true)
  else if Sql.holds (Sql.eq trigger (Some "no_feedback")) then
    Sql.is_null f_id'
  else if Sql.holds (Sql.eq trigger (Some "all")) then Some true
  else if Sql.holds (Sql.eq trigger (Some "manual")) then Some true
  else Some false.

(** [fl.visitor_id = v.id AND fl.campaign_id = campaign_id_param AND
     fl.status NOT IN ('failed')]. *)
Definition log_blocks (visitor : uuid) (campaign_id_param : uuid) (fl : FollowUpLog) : Sql.tri :=
  Sql.tand
    (Sql.tand (Sql.eq (Some (fl_visitor_id fl)) (Some visitor))
              (Sql.eq (fl_campaign_id fl) (Some campaign_id_param)))
    (Sql.not_in_list (fl_status fl) ["failed"]).

(** [NOT EXISTS (SELECT 1 FROM follow_up_logs fl WHERE ...)]. *)
Definition not_already_sent (db : Database) (campaign_id_param : uuid) (r : Joined) : Sql.tri :=
  Sql.tnot (Sql.exists_row (log_blocks (v_id (j_v r)) campaign_id_param)
                           (follow_up_logs db)).

(** The whole [WHERE] clause. *)
Definition where_clause (db : Database) (campaign_id_param : uuid)
    (property_id_param : option uuid) (r : Joined) : Sql.tri :=
  Sql.tand (property_filter property_id_param r)
    (Sql.tand (campaign_property_filter r)
      (Sql.tand (not_unsubscribed r)
        (Sql.tand (trigger_filter r)
                  (not_already_sent db campaign_id_param r)))).

(** The [SELECT] list. *)
Definition select (r : Joined) : VisitorData :=
  {| visitor_id := v_id (j_v r);
     visitor_name := v_name (j_v r);
     visitor_email := v_email (j_v r);
     visitor_phone := v_phone (j_v r);
     property_id := v_property_id (j_v r);
     property_name := Sql.col (j_p r) (fun p => Some (p_name p));
     property_address := Sql.col (j_p r) (fun p => Some (p_address p));
     visit_date := v_visit_date (j_v r);
     interested := Sql.coalesce (Sql.col (j_f r) f_interested) false;
     has_feedback := Sql.holds (Sql.is_not_null (Sql.col (j_f r) (fun f => Some (f_id f)))) |}.

(** [get_eligible_visitors(campaign_id_param, property_id_param)],
    database-enhanced-forms.sql lines 339-399. *)
Definition get_eligible_visitors (db : Database) (campaign_id_param : uuid)
    (property_id_param : option uuid) : list VisitorData :=
  map select
    (filter (fun r => Sql.holds (where_clause db campaign_id_param property_id_param r))
            (joined_rows db campaign_id_param)).

Definition ids (rows : list VisitorData) : list uuid := map visitor_id rows.

End Resolver.

(* ===================================================================== *)
(** * The dispatch orchestrator: [serve] of send-follow-up/index.ts *)
(* ===================================================================== *)

Module Dispatch.
Import Db Resolver.

(** What [sendEmail] and [sendSMS] resolve to. *)
Record SendResult := {
  success : bool;
  messageId : option string;
  error : option string
}.

(** A call of one of the two transports, with its arguments. *)
Inductive Outbound :=
| Email (to subject htmlContent textContent : string) (fromName : option string)
| Sms (to message : string).

(** The world outside the function: the two providers (Resend, Twilio),
    the outcome of an insert into [follow_up_logs] ([true] when supabase
    returns no error), each of which may change the world; and the database
    reading the texts of a request as uuid values: [uuid_in] is the value a
    text stands for, if any, and [invalid_uuid] the message of the error
    the database answers with when texts of a call stand for none. *)
Record Env := {
  World : Type;
  sendEmail : World -> string -> string -> string -> string -> option string
              -> SendResult * World;
  sendSMS : World -> string -> string -> SendResult * World;
  insert_follow_up_log : World -> FollowUpLog -> bool * World;
  uuid_in : string -> option uuid;
  invalid_uuid : list string -> string
}.

Record State (E : Env) := {
  st_db : Database;
  st_world : World E;
  st_outbox : list Outbound
}.
Arguments st_db {E} _.
Arguments st_world {E} _.
Arguments st_outbox {E} _.

(** Interface [SendFollowUpRequest]. *)
Record Request := {
  campaignId : option string;
  visitorIds : option (list string);
  propertyId : option string;
  messageType : option string
}.

(** The local [results] of [serve]. *)
Record Results := {
  sent : nat;
  failed : nat;
  errors : list string
}.

(** The three responses to a POST: status 200 with no eligible visitor,
    status 200 with the counters, status 500 with the error message. *)
Inductive Response :=
| NoEligibleVisitors
| Processed (results : Results) (visitorsProcessed : nat)
| ServerError (message : string).

(** Computations of the function body: a state monad over [State E]. *)
Definition M (E : Env) (A : Type) : Type := State E -> A * State E.

Definition ret {E A} (a : A) : M E A := fun s => (a, s).

Definition bind {E A B} (m : M E A) (k : A -> M E B) : M E B :=
  fun s => let (a, s') := m s in k a s'.

Notation "x <- m ;; k" := (bind m (fun x => k))
  (at level 61, m at next level, right associativity).

Definition read_db {E} : M E Database := fun s => (st_db s, s).

(** [await sendEmail(...)], recorded in the outbox. *)
Definition call_sendEmail {E} (to subject html text : string) (fromName : option string)
    : M E SendResult :=
  fun s =>
    let (r, w) := sendEmail E (st_world s) to subject html text fromName in
    (r, {| st_db := st_db s;
           st_world := w;
           st_outbox := (st_outbox s ++ [Email to subject html text fromName])%list |}).

(** [await sendSMS(...)], recorded in the outbox. *)
Definition call_sendSMS {E} (to message : string) : M E SendResult :=
  fun s =>
    let (r, w) := sendSMS E (st_world s) to message in
    (r, {| st_db := st_db s;
           st_world := w;
           st_outbox := (st_outbox s ++ [Sms to message])%list |}).

(** The object [logFollowUp] inserts, lines 199-212. *)
Definition log_row (visitorId campaignId : uuid) (propertyId adminId : option uuid)
    (messageType : string) (recipientEmail recipientPhone subject : option string)
    (messageContent status : string) (externalId errorMessage : option string)
    : FollowUpLog :=
  {| fl_visitor_id := visitorId;
     fl_campaign_id := Some campaignId;
     fl_property_id := propertyId;
     fl_admin_id := adminId;
     fl_message_type := messageType;
     fl_recipient_email := recipientEmail;
     fl_recipient_phone := recipientPhone;
     fl_subject := subject;
     fl_message_content := messageContent;
     fl_status := Some status;
     fl_external_id := externalId;
     fl_error_message := errorMessage |}.

(** [supabase.from('follow_up_logs').insert(row)]: the row is appended
    unless the insert returns an error. *)
Definition insert_log {E} (row : FollowUpLog) : M E bool :=
  fun s =>
    let (ok, w) := insert_follow_up_log E (st_world s) row in
    (ok, {| st_db := if ok
                     then with_logs (st_db s) (follow_up_logs (st_db s) ++ [row])%list
                     else st_db s;
            st_world := w;
            st_outbox := st_outbox s |}).

(** [logFollowUp], index.ts lines 182-217: an error of the insert is
    printed to the console, nothing else. *)
Definition logFollowUp {E} (visitorId campaignId : uuid) (propertyId adminId : option uuid)
    (messageType : string) (recipientEmail recipientPhone subject : option string)
    (messageContent status : string) (externalId errorMessage : option string)
    : M E unit :=
  ok <- insert_log (log_row visitorId campaignId propertyId adminId messageType
                      recipientEmail recipientPhone subject messageContent status
                      externalId errorMessage) ;;
  if ok then ret tt else ret tt.

(** Lines 336-346 and 380-390: the property id written to the log. *)
Definition actualPropertyId {E} (visitor : VisitorData) : M E (option uuid) :=
  let fallback :=
    match property_id visitor with
    | None => true
    | Some pid => Nat.ltb (String.length pid) 30
    end in
  if fallback then
    db <- read_db ;;
    match single (filter (fun v => String.eqb (v_id v) (visitor_id visitor)) (visitors db)) with
    | Some v => ret (Js.or_else (v_property_id v) None)
    | None => ret None
    end
  else ret (property_id visitor).

(** Lines 310-317. *)
Definition templateVariables (visitor : VisitorData) (admin : Admin) : Template.Variables :=
  [ ("visitor_name", Some (visitor_name visitor));
    ("property_name", property_name visitor);
    ("property_address", property_address visitor);
    ("admin_name", a_name admin);
    ("admin_email", a_email admin);
    ("admin_phone", a_phone admin) ].

(** Line 319: [messageType || campaign.message_type]. *)
Definition effectiveMessageType (req : Request) (campaign : Campaign) : string :=
  if Js.truthy (messageType req) then Js.or_empty (messageType req)
  else c_message_type campaign.

(** Lines 364-369 and 408-413: [results.sent++], or [results.failed++] and
    one more line in [results.errors]. *)
Definition count (r : SendResult) (label to : string) (results : Results) : Results :=
  if success r then
    {| sent := S (sent results); failed := failed results; errors := errors results |}
  else
    let line := label ++ to ++ ": " ++ Js.interpolate (error r) in
    {| sent := sent results;
       failed := S (failed results);
       errors := (errors results ++ [line])%list |}.

(** Lines 321-371: the email channel for one visitor. *)
Definition send_email {E} (campaignId : uuid) (campaign : Campaign) (effective : string)
    (vars : Template.Variables) (visitor : VisitorData) (results : Results) : M E Results :=
  if String.eqb effective "email" || String.eqb effective "both" then
    if Js.truthy (visitor_email visitor) then
      let to := Js.or_empty (visitor_email visitor) in
      let subject :=
        Template.replaceTemplateVariables (Js.or_empty (c_email_subject campaign)) vars in
      let htmlContent :=
        Template.replaceTemplateVariables (Js.or_empty (c_email_template campaign)) vars in
      let textContent := Js.strip_tags htmlContent in
      emailResult <- call_sendEmail to subject htmlContent textContent
                       (c_email_from_name campaign) ;;
      pid <- actualPropertyId visitor ;;
      _ <- logFollowUp (visitor_id visitor) campaignId pid (c_admin_id campaign)
             "email" (visitor_email visitor) None (Some subject) htmlContent
             (if success emailResult then "sent" else "failed")
             (Js.or_else (messageId emailResult) None)
             (Js.or_else (error emailResult) None) ;;
      ret (count emailResult "Email to " to results)
    else ret results
  else ret results.

(** Lines 373-415: the SMS channel for one visitor. *)
Definition send_sms {E} (campaignId : uuid) (campaign : Campaign) (effective : string)
    (vars : Template.Variables) (visitor : VisitorData) (results : Results) : M E Results :=
  if String.eqb effective "sms" || String.eqb effective "both" then
    if Js.truthy (visitor_phone visitor) && Js.truthy (c_sms_template campaign) then
      let to := Js.or_empty (visitor_phone visitor) in
      let smsContent :=
        Template.replaceTemplateVariables (Js.or_empty (c_sms_template campaign)) vars in
      smsResult <- call_sendSMS to smsContent ;;
      pid <- actualPropertyId visitor ;;
      _ <- logFollowUp (visitor_id visitor) campaignId pid (c_admin_id campaign)
             "sms" None (visitor_phone visitor) None smsContent
             (if success smsResult then "sent" else "failed")
             (Js.or_else (messageId smsResult) None)
             (Js.or_else (error smsResult) None) ;;
      ret (count smsResult "SMS to " to results)
    else ret results
  else ret results.

(** The body of the loop of lines 309-416. *)
Definition process_visitor {E} (req : Request) (campaignId : uuid) (campaign : Campaign)
    (admin : Admin) (results : Results) (visitor : VisitorData) : M E Results :=
  let vars := templateVariables visitor admin in
  let effective := effectiveMessageType req campaign in
  results1 <- send_email campaignId campaign effective vars visitor results ;;
  send_sms campaignId campaign effective vars visitor results1.

(** [for (const visitor of visitors) ...]. *)
Fixpoint process_visitors {E} (req : Request) (campaignId : uuid) (campaign : Campaign)
    (admin : Admin) (results : Results) (visitors : list VisitorData) : M E Results :=
  match visitors with
  | [] => ret results
  | visitor :: rest =>
      results' <- process_visitor req campaignId campaign admin results visitor ;;
      process_visitors req campaignId campaign admin results' rest
  end.

(** The texts the [rpc] call of lines 259-283 hands to the database as
    uuid values: [property_id_param] when the request has a [propertyId],
    and the list of [.in('visitor_id', visitorIds)] when the request has a
    non-empty [visitorIds]. *)
Definition listed (req : Request) : list string :=
  match visitorIds req with
  | Some (id :: more) => id :: more
  | _ => []
  end.

Definition cast_texts (req : Request) : list string :=
  (match propertyId req with
   | Some p => [p]
   | None => []
   end ++ listed req)%list.

(** The texts that are no uuid, and the values of those that are. *)
Definition not_uuids (E : Env) (texts : list string) : list string :=
  filter (fun t => match uuid_in E t with Some _ => false | None => true end) texts.

Definition uuids (E : Env) (texts : list string) : list uuid :=
  flat_map (fun t => match uuid_in E t with Some u => [u] | None => [] end) texts.

(** [property_id_param]: NULL when the request has no [propertyId]. *)
Definition property_param (E : Env) (req : Request) : option uuid :=
  match propertyId req with
  | Some p => uuid_in E p
  | None => None
  end.

(** [.in('visitor_id', visitorIds)] keeps the rows whose id is one of the
    listed values; without a non-empty list all rows are kept. *)
Definition narrowed (E : Env) (req : Request) (eligible : list VisitorData)
    : list VisitorData :=
  match listed req with
  | [] => eligible
  | ids => filter (fun r => existsb (String.eqb (visitor_id r)) (uuids E ids)) eligible
  end.

(** Lines 259-283: the visitors of this run, or the error of the call,
    which [if (error) throw error] passes on. *)
Definition select_visitors (E : Env) (req : Request) (campaignId : uuid) (db : Database)
    : string + list VisitorData :=
  match not_uuids E (cast_texts req) with
  | [] => inr (narrowed E req (get_eligible_visitors db campaignId (property_param E req)))
  | bad => inl (invalid_uuid E bad)
  end.

(** The handler for a POST request, lines 225-445.  [.eq('id', campaignId)]
    compares uuid values: a text that stands for none makes the query fail,
    which is [campaignError]. *)
Definition serve {E} (req : Request) : M E Response :=
  if negb (Js.truthy (campaignId req)) then ret (ServerError "Campaign ID is required")
  else
    db <- read_db ;;
    match uuid_in E (Js.or_empty (campaignId req)) with
    | None => ret (ServerError "Campaign not found")
    | Some campaignId =>
        match single (filter (fun c => String.eqb (c_id c) campaignId)
                        (follow_up_campaigns db)) with
        | None => ret (ServerError "Campaign not found")
        | Some campaign =>
            match
              match c_admin_id campaign with
              | Some admin_id =>
                  single (filter (fun a => String.eqb (a_id a) admin_id) (admins db))
              | None => None
              end
            with
            | None => ret (ServerError "Admin not found")
            | Some admin =>
                match select_visitors E req campaignId db with
                | inl message => ret (ServerError message)
                | inr [] => ret NoEligibleVisitors
                | inr visitors =>
                    results <- process_visitors req campaignId campaign admin
                                 {| sent := 0; failed := 0; errors := [] |} visitors ;;
                    ret (Processed results (List.length visitors))
                end
            end
        end
    end.

End Dispatch.

(* ===================================================================== *)
(** * The vocabulary of the specification *)
(* ===================================================================== *)

Module Spec.
Import Db Resolver Dispatch.

(** A replacement value without a dollar sign. *)
Definition plain (v : string) : bool := negb (Js.includes "$" v).

(** No placeholder of a key of the mapping occurs in [t]. *)
Definition no_placeholder_of (m : Template.Variables) (t : string) : Prop :=
  forall key value, In (key, value) m ->
    Js.includes (Template.placeholder key) t = false.

(** A Delivery Log entry for (visitor, campaign) whose status is set and is
    not [failed]. *)
Definition non_failed_entry (visitor campaign : uuid) (fl : FollowUpLog) : Prop :=
  fl_visitor_id fl = visitor /\
  fl_campaign_id fl = Some campaign /\
  exists status, fl_status fl = Some status /\ status <> "failed".

Definition has_non_failed_entry (db : Database) (visitor campaign : uuid) : Prop :=
  exists fl, In fl (follow_up_logs db) /\ non_failed_entry visitor campaign fl.

(** An Unsubscribe entry of type email/both for this email address, or of
    type sms/both for this phone number. *)
Definition unsubscribe_matches (email phone : option string) (u : Unsubscribe) : Prop :=
  (exists e, u_email u = Some e /\ email = Some e /\
             (u_unsubscribe_type u = "email" \/ u_unsubscribe_type u = "both")) \/
  (exists p, u_phone u = Some p /\ phone = Some p /\
             (u_unsubscribe_type u = "sms" \/ u_unsubscribe_type u = "both")).

Definition unsubscribed (db : Database) (email phone : option string) : Prop :=
  exists u, In u (unsubscribes db) /\ unsubscribe_matches email phone u.

(** The visitor is within the property filter of the call and within the
    target property of the campaign. *)
Definition property_scoped (property_id_param : option uuid) (c : Campaign)
    (v : Visitor) : Prop :=
  (property_id_param = None \/
   exists p, property_id_param = Some p /\ v_property_id v = Some p) /\
  (c_property_id c = None \/
   exists p, c_property_id c = Some p /\ v_property_id v = Some p).

(** A feedback record of the visitor exists with [interested = true]. *)
Definition interested_feedback (db : Database) (v : Visitor) : Prop :=
  exists f, In f (feedback db) /\ f_visitor_id f = Some (v_id v) /\
            f_interested f = Some true.

(** The visitor has no feedback record. *)
Definition no_feedback (db : Database) (v : Visitor) : Prop :=
  forall f, In f (feedback db) -> f_visitor_id f <> Some (v_id v).

(** What the trigger condition of the campaign asks of a visitor. *)
Definition trigger_selects (db : Database) (c : Campaign) (v : Visitor) : Prop :=
  (c_trigger_condition c = "interested" /\ interested_feedback db v) \/
  (c_trigger_condition c = "no_feedback" /\ no_feedback db v) \/
  c_trigger_condition c = "all" \/
  c_trigger_condition c = "manual".

(** One of the four trigger conditions of the schema. *)
Definition known_trigger (t : string) : Prop :=
  t = "interested" \/ t = "no_feedback" \/ t = "all" \/ t = "manual".

(** The database as the resolver sees it before unsubscribe suppression
    and duplicate suppression have anything to act on. *)
Definition before_suppression (db : Database) : Database :=
  with_logs (with_unsubscribes db []) [].



(** A text of the list stands for the uuid. *)
Definition named_in (E : Env) (S : list string) (visitor : uuid) : Prop :=
  exists t, In t S /\ uuid_in E t = Some visitor.


(** The request names the campaign: its [campaignId] is there and stands
    for the uuid. *)
Definition names_campaign (E : Env) (req : Request) (campaign : uuid) : Prop :=
  Js.truthy (campaignId req) = true /\
  uuid_in E (Js.or_empty (campaignId req)) = Some campaign.

(** Every text the request gives as a property id or a visitor id is the
    text of a uuid. *)
Definition well_formed (E : Env) (req : Request) : Prop :=
  not_uuids E (cast_texts req) = [].

(** The rows of a run of a well-formed request. *)
Definition rows_of_run (E : Env) (req : Request) (campaign : uuid) (db : Database)
    : list VisitorData :=
  narrowed E req (get_eligible_visitors db campaign (property_param E req)).

(** The message type of a run: the override of the request if given,
    else the message type the campaign is configured with. *)
Definition run_type (req : Request) (c : Campaign) (t : string) : Prop :=
  (Js.truthy (messageType req) = false /\ t = c_message_type c) \/
  (messageType req = Some t /\ t <> "").

(** The same campaign with another message type, and the database in which
    every campaign has been given that message type. *)
Definition with_message_type (t : string) (c : Campaign) : Campaign :=
  {| c_id := c_id c;
     c_property_id := c_property_id c;
     c_admin_id := c_admin_id c;
     c_message_type := t;
     c_trigger_condition := c_trigger_condition c;
     c_email_subject := c_email_subject c;
     c_email_template := c_email_template c;
     c_email_from_name := c_email_from_name c;
     c_sms_template := c_sms_template c |}.

Definition retyped (t : string) (db : Database) : Database :=
  {| visitors := visitors db;
     properties := properties db;
     feedback := feedback db;
     follow_up_campaigns := map (with_message_type t) (follow_up_campaigns db);
     unsubscribes := unsubscribes db;
     follow_up_logs := follow_up_logs db;
     admins := admins db |}.

Definition retyped_row (t : string) (r : Joined) : Joined :=
  {| j_v := j_v r;
     j_p := j_p r;
     j_f := j_f r;
     j_c := option_map (with_message_type t) (j_c r);
     j_u := j_u r |}.

(** The campaign with this id. *)
Definition campaign_of (db : Database) (campaign : uuid) (c : Campaign) : Prop :=
  filter (fun c' => String.eqb (c_id c') campaign) (follow_up_campaigns db) = [c].


(** The message type of the run requires the channel. *)
Definition requires_email (effective : string) : bool :=
  String.eqb effective "email" || String.eqb effective "both".

Definition requires_sms (effective : string) : bool :=
  String.eqb effective "sms" || String.eqb effective "both".

(** The email and the text message the run makes for a visitor. *)
Definition email_for (c : Campaign) (admin : Admin) (row : VisitorData) : Outbound :=
  let vars := templateVariables row admin in
  let html := Template.replaceTemplateVariables (Js.or_empty (c_email_template c)) vars in
  Email (Js.or_empty (visitor_email row))
    (Template.replaceTemplateVariables (Js.or_empty (c_email_subject c)) vars)
    html (Js.strip_tags html) (c_email_from_name c).

Definition sms_for (c : Campaign) (admin : Admin) (row : VisitorData) : Outbound :=
  Sms (Js.or_empty (visitor_phone row))
    (Template.replaceTemplateVariables (Js.or_empty (c_sms_template c))
       (templateVariables row admin)).

(** The transport call goes to the address or number of this visitor. *)
Definition addressed (msg : Outbound) (row : VisitorData) : Prop :=
  match msg with
  | Email to _ _ _ _ =>
      Js.truthy (visitor_email row) = true /\ to = Js.or_empty (visitor_email row)
  | Sms to _ =>
      Js.truthy (visitor_phone row) = true /\ to = Js.or_empty (visitor_phone row)
  end.

(** The admin who owns the campaign. *)
Definition admin_of (db : Database) (c : Campaign) (admin : Admin) : Prop :=
  exists aid, c_admin_id c = Some aid /\
              filter (fun a => String.eqb (a_id a) aid) (admins db) = [admin].

End Spec.

(* ===================================================================== *)
(** * Sample data *)
(* ===================================================================== *)

Module Sample.
Import Db Resolver Dispatch.

Definition delivered : SendResult :=
  {| success := true; messageId := Some "msg_1"; error := None |}.

(** Providers that accept every message; [logs_ok] tells whether inserts
    into [follow_up_logs] succeed. *)
Definition env (logs_ok : bool) : Env :=
  {| World := unit;
     sendEmail := fun w _ _ _ _ _ => (delivered, w);
     sendSMS := fun w _ _ => (delivered, w);
     insert_follow_up_log := fun w _ => (logs_ok, w);
     uuid_in := Uuid.uuid_in;
     invalid_uuid := Uuid.invalid |}.


Definition admin_id : uuid := "0a000000-0000-4000-8000-000000000001".
Definition maple_id : uuid := "0b000000-0000-4000-8000-000000000001".
Definition jane_id : uuid := "0c000000-0000-4000-8000-000000000001".
Definition bob_id : uuid := "0c000000-0000-4000-8000-000000000002".
Definition cy_id : uuid := "0c000000-0000-4000-8000-000000000003".
Definition campaign_id : uuid := "0d000000-0000-4000-8000-000000000001".

Definition alex : Admin :=
  {| a_id := admin_id;
     a_name := Some "Alex Agent";
     a_email := Some "alex@agency.example";
     a_phone := Some "555-0100" |}.

Definition maple : Property :=
  {| p_id := maple_id; p_name := "Maple House"; p_address := "12 Maple Street" |}.

Definition visitor (id : uuid) (name : string) (email phone : option string) : Visitor :=
  {| v_id := id;
     v_name := name;
     v_email := email;
     v_phone := phone;
     v_visit_date := "2024-05-04T10:00:00+00:00";
     v_property_id := Some maple_id |}.

Definition jane : Visitor :=
  visitor jane_id "Jane" (Some "jane@example.com") (Some "555-0101").
Definition bob : Visitor :=
  visitor bob_id "Bob" (Some "bob@example.com") (Some "").
Definition cy : Visitor :=
  visitor cy_id "Cy" (Some "cy@example.com") (Some "555-0103").

Definition jane_feedback : Feedback :=
  {| f_id := "0e000000-0000-4000-8000-000000000001";
     f_visitor_id := Some jane_id;
     f_interested := Some true |}.

Definition cy_feedback : Feedback :=
  {| f_id := "0e000000-0000-4000-8000-000000000003";
     f_visitor_id := Some cy_id;
     f_interested := Some false |}.

Definition campaign (message_type trigger : string)
    (subject template sms : option string) : Campaign :=
  {| c_id := campaign_id;
     c_property_id := None;
     c_admin_id := Some admin_id;
     c_message_type := message_type;
     c_trigger_condition := trigger;
     c_email_subject := subject;
     c_email_template := template;
     c_email_from_name := Some "Open House Team";
     c_sms_template := sms |}.

Definition welcome (message_type trigger : string) : Campaign :=
  campaign message_type trigger (Some "Thanks, {{visitor_name}}!")
    (Some "<p>Hi {{visitor_name}}, thanks for visiting {{property_name}}.</p>")
    (Some "Hi {{visitor_name}}! - {{admin_name}}").

Definition database (people : list Visitor) (c : Campaign) (us : list Unsubscribe)
    (logs : list FollowUpLog) : Database :=
  {| visitors := people;
     properties := [maple];
     feedback := [jane_feedback; cy_feedback];
     follow_up_campaigns := [c];
     unsubscribes := us;
     follow_up_logs := logs;
     admins := [alex] |}.

Definition start (logs_ok : bool) (db : Database) : State (env logs_ok) :=
  {| st_db := db; st_world := (tt : World (env logs_ok)); st_outbox := [] |}.


Definition request (ids : option (list string)) : Request :=
  {| campaignId := Some campaign_id;
     visitorIds := ids;
     propertyId := None;
     messageType := None |}.

Definition jane_email_only : Unsubscribe :=
  {| u_id := "0f000000-0000-4000-8000-000000000001";
     u_email := Some "jane@example.com";
     u_phone := None;
     u_unsubscribe_type := "email" |}.

(** The result row of a visitor of Maple House without feedback. *)
Definition row (v : Visitor) : VisitorData :=
  select {| j_v := v; j_p := Some maple; j_f := None; j_c := None; j_u := None |}.

Definition log_entry (who : uuid) (channel status : string) : FollowUpLog :=
  log_row who campaign_id (Some maple_id) (Some admin_id) channel None None None
    "" status None None.

End Sample.

(* ===================================================================== *)
(** * The two transports: [sendEmail] and [sendSMS] of index.ts *)
(* ===================================================================== *)

Module Transport.
Import Dispatch.

(** [Deno.env.get] for the four secrets the transports read. *)
Record Secrets := {
  RESEND_API_KEY : option string;
  TWILIO_ACCOUNT_SID : option string;
  TWILIO_AUTH_TOKEN : option string;
  TWILIO_PHONE_NUMBER : option string
}.

(** The fields the transports read in the JSON body of a response. *)
Record ResponseData := {
  d_id : option string;
  d_sid : option string;
  d_message : option string;
  d_error : option string
}.

(** The two HTTP requests.  The [Authorization] header of the first is
    [Bearer key]; that of the second is [Basic] with the base-64 form of
    [sid:token], kept here as the pair. *)
Inductive HttpRequest :=
| ResendEmail (key from to subject html text : string)
| TwilioMessage (accountSid authToken From To Body : string).

(** What [await fetch(...)] followed by [await response.json()] comes to:
    an exception with its message, or [response.ok] and the parsed body,
    [None] when the body is the JSON value [null]. *)
Inductive FetchOutcome :=
| Threw (message : option string)
| Responded (ok : bool) (data : option ResponseData).

(** The message of the [TypeError] thrown when a property of [null] is
    read. *)
Definition null_read (property : string) : string :=
  "Cannot read properties of null (reading '" ++ property ++ "')".

Record Network := {
  Net : Type;
  fetch : Net -> HttpRequest -> FetchOutcome * Net
}.

Definition failure (message : option string) : SendResult :=
  {| success := false; messageId := None; error := message |}.

(** [`${fromName}`] for the value [serve] passes, a string or [null]: the
    default of the parameter stands in for [undefined] only. *)
Definition from_name (fromName : option string) : string :=
  match fromName with
  | Some name => name
  | None => "null"
  end.

(** [sendEmail], index.ts lines 72-118. *)
Definition sendEmail (secrets : Secrets) (N : Network) (w : Net N)
    (to subject htmlContent textContent : string) (fromName : option string)
    : SendResult * Net N :=
  if negb (Js.truthy (RESEND_API_KEY secrets)) then
    (failure (Some "RESEND_API_KEY not configured"), w)
  else
    let request :=
      ResendEmail (Js.or_empty (RESEND_API_KEY secrets))
        (from_name fromName ++ " <noreply@resend.dev>")
        to subject htmlContent textContent in
    let (outcome, w') := fetch N w request in
    match outcome with
    | Threw message => (failure message, w')
    | Responded true (Some data) =>
        ({| success := true; messageId := d_id data; error := None |}, w')
    | Responded true None => (failure (Some (null_read "id")), w')
    | Responded false (Some data) =>
        (failure (Js.or_else (Js.or_else (d_message data) (d_error data))
                    (Some "Failed to send email")), w')
    | Responded false None => (failure (Some (null_read "message")), w')
    end.

(** A decimal digit, [\d]. *)
Definition is_digit (c : ascii) : bool :=
  Nat.leb 48 (nat_of_ascii c) && Nat.leb (nat_of_ascii c) 57.

(** [to.replace(/\D/g, '')]. *)
Fixpoint digits_only (s : string) : string :=
  match s with
  | "" => ""
  | String c s' => if is_digit c then String c (digits_only s') else digits_only s'
  end.

(** Lines 134-142: the number handed to Twilio. *)
Definition formattedPhone (to : string) : string :=
  let digits := digits_only to in
  if Nat.eqb (String.length digits) 10 then "+1" ++ digits
  else if Nat.eqb (String.length digits) 11 && Js.starts_with "1" digits then "+" ++ digits
  else if negb (Js.starts_with "+" digits) then "+" ++ digits
  else digits.

(** [sendSMS], index.ts lines 121-179. *)
Definition sendSMS (secrets : Secrets) (N : Network) (w : Net N) (to message : string)
    : SendResult * Net N :=
  if negb (Js.truthy (TWILIO_ACCOUNT_SID secrets))
     || negb (Js.truthy (TWILIO_AUTH_TOKEN secrets))
     || negb (Js.truthy (TWILIO_PHONE_NUMBER secrets)) then
    (failure (Some "Twilio credentials not configured"), w)
  else
    let request :=
      TwilioMessage (Js.or_empty (TWILIO_ACCOUNT_SID secrets))
        (Js.or_empty (TWILIO_AUTH_TOKEN secrets))
        (Js.or_empty (TWILIO_PHONE_NUMBER secrets))
        (formattedPhone to) message in
    let (outcome, w') := fetch N w request in
    match outcome with
    | Threw message => (failure message, w')
    | Responded true (Some data) =>
        ({| success := true; messageId := d_sid data; error := None |}, w')
    | Responded true None => (failure (Some (null_read "sid")), w')
    | Responded false (Some data) =>
        (failure (Js.or_else (d_message data) (Some "Failed to send SMS")), w')
    | Responded false None => (failure (Some (null_read "message")), w')
    end.

(** The world of the deployed function: the two transports over one
    network, the outcome of the inserts into [follow_up_logs], and the
    uuid type of the database. *)
Definition env (secrets : Secrets) (N : Network)
    (insert : Net N -> Db.FollowUpLog -> bool * Net N) : Env :=
  {| World := Net N;
     Dispatch.sendEmail := sendEmail secrets N;
     Dispatch.sendSMS := sendSMS secrets N;
     insert_follow_up_log := insert;
     uuid_in := Uuid.uuid_in;
     invalid_uuid := Uuid.invalid |}.

End Transport.

(* ===================================================================== *)
(** * Template validation: src/lib/validations.ts *)
(* ===================================================================== *)

Module Validations.

(* Strings are sequences of code units below 256; among these the white
   space of JavaScript is TAB, LF, VT, FF, CR, SPACE and NBSP. *)
Definition is_space (c : ascii) : bool :=
  let n := nat_of_ascii c in
  (Nat.leb 9 n && Nat.leb n 13) || Nat.eqb n 32 || Nat.eqb n 160.

Fixpoint trimStart (s : string) : string :=
  match s with
  | "" => ""
  | String c s' => if is_space c then trimStart s' else s
  end.

Fixpoint trimEnd (s : string) : string :=
  match s with
  | "" => ""
  | String c s' =>
      let rest := trimEnd s' in
      if is_space c && String.eqb rest "" then "" else String c rest
  end.

(** [s.trim()]. *)
Definition trim (s : string) : string := trimEnd (trimStart s).

(** The longest prefix without a closing brace: what [[^}]+] takes. *)
Fixpoint until_close (s : string) : string :=
  match s with
  | "" => ""
  | String c s' => if Ascii.eqb c "}" then "" else String c (until_close s')
  end.

(** A match of [/\{\{([^}]+)\}\}/] at the start of [s]: the captured
    group and the length of the whole match. *)
Definition match_at (s : string) : option (string * nat) :=
  if Js.starts_with "{{" s then
    let name := until_close (Js.drop 2 s) in
    if negb (String.eqb name "")
       && Js.starts_with "}}" (Js.drop (String.length name) (Js.drop 2 s))
    then Some (name, String.length name + 4)
    else None
  else None.

(** [if (!variables.includes(variable)) variables.push(variable)]. *)
Definition push_new (variables : list string) (variable : string) : list string :=
  if existsb (String.eqb variable) variables then variables
  else (variables ++ [variable])%list.

(** The [while ((match = regex.exec(template)) !== null)] loop: [skip]
    counts the characters of the last match still to be passed. *)
Fixpoint exec_loop (skip : nat) (s : string) (variables : list string) : list string :=
  match s with
  | "" => variables
  | String _ s' =>
      match skip with
      | S k => exec_loop k s' variables
      | O =>
          match match_at s with
          | Some (name, len) => exec_loop (len - 1) s' (push_new variables (trim name))
          | None => exec_loop 0 s' variables
          end
      end
  end.

(** [extractTemplateVariables], lines 177-190. *)
Definition extractTemplateVariables (template : string) : list string :=
  exec_loop 0 template [].

(** Lines 193-208. *)
Definition AVAILABLE_TEMPLATE_VARIABLES : list string :=
  [ "visitor_name"; "visitor_email"; "visitor_phone"; "property_name";
    "property_address"; "property_type"; "property_price"; "admin_name";
    "admin_email"; "admin_phone"; "visit_date"; "feedback_rating";
    "feedback_comments"; "interested" ].

Record Validation := {
  isValid : bool;
  invalidVariables : list string;
  validVariables : list string
}.

(** The body of the [forEach] of [validateTemplateVariables]. *)
Definition classify (acc : list string * list string) (variable : string)
    : list string * list string :=
  let (valid, invalid) := acc in
  if existsb (String.eqb variable) AVAILABLE_TEMPLATE_VARIABLES
  then ((valid ++ [variable])%list, invalid)
  else (valid, (invalid ++ [variable])%list).

(** [validateTemplateVariables], lines 231-253. *)
Definition validateTemplateVariables (template : string) : Validation :=
  let (valid, invalid) :=
    fold_left classify (extractTemplateVariables template) ([], []) in
  {| isValid := Nat.eqb (List.length invalid) 0;
     invalidVariables := invalid;
     validVariables := valid |}.

(** Lines 256-262. *)
Definition requiresEmailTemplate (messageType : string) : bool :=
  String.eqb messageType "email" || String.eqb messageType "both".

Definition requiresSMSTemplate (messageType : string) : bool :=
  String.eqb messageType "sms" || String.eqb messageType "both".

(** [CampaignFormData], the output type of [campaignSchema]; an optional
    field that is left out is [None]. *)
Record CampaignFormData := {
  name : string;
  description : option string;
  property_id : option string;
  message_type : string;
  trigger_condition : string;
  delay_hours : nat;
  email_subject : option string;
  email_template : option string;
  email_from_name : string;
  sms_template : option string;
  status : string
}.

Record Issue := {
  issue_message : string;
  issue_path : string
}.

(** [!x || x.trim() === '']. *)
Definition blank (x : option string) : bool :=
  negb (Js.truthy x) || String.eqb (trim (Js.or_empty x)) "".

Definition when (b : bool) (issue : Issue) : list Issue :=
  if b then [issue] else [].

(** The issues raised for the variables of one template. *)
Definition variable_issues (x : option string) (label path : string) : list Issue :=
  if Js.truthy x then
    let v := validateTemplateVariables (Js.or_empty x) in
    when (negb (isValid v))
      {| issue_message := label ++ String.concat ", " (invalidVariables v);
         issue_path := path |}
  else [].

(** The callback of [campaignSchema.superRefine], lines 265-317: the
    issues it adds, in order. *)
Definition conditional_issues (data : CampaignFormData) : list Issue :=
  ((if requiresEmailTemplate (message_type data) then
      when (blank (email_subject data))
        {| issue_message := "Email subject is required for email campaigns";
           issue_path := "email_subject" |}
      ++ when (blank (email_template data))
        {| issue_message := "Email template is required for email campaigns";
           issue_path := "email_template" |}
    else [])
   ++ (if requiresSMSTemplate (message_type data) then
         when (blank (sms_template data))
           {| issue_message := "SMS template is required for SMS campaigns";
              issue_path := "sms_template" |}
       else [])
   ++ variable_issues (email_template data)
        "Invalid template variables in email: " "email_template"
   ++ variable_issues (sms_template data)
        "Invalid template variables in SMS: " "sms_template")%list.

End Validations.

(* ===================================================================== *)
(** * The follow-up tab of the dashboard: AdminDashboard.tsx *)
(* ===================================================================== *)

Module Dashboard.
Import Db Resolver Dispatch.

(** [insertTemplateVariable]: the new value of the form field. *)
Definition insertTemplateVariable (currentValue : option string) (variable : string)
    : string :=
  Js.or_empty currentValue ++ Template.placeholder variable.

(** [onSubmitCampaign] for a new campaign: the row the insert of
    [{...data, admin_id}] creates, with the id the table generates. *)
Definition onSubmitCampaign (id admin_id : uuid) (data : Validations.CampaignFormData)
    : Campaign :=
  {| c_id := id;
     c_property_id := Validations.property_id data;
     c_admin_id := Some admin_id;
     c_message_type := Validations.message_type data;
     c_trigger_condition := Validations.trigger_condition data;
     c_email_subject := Validations.email_subject data;
     c_email_template := Validations.email_template data;
     c_email_from_name := Some (Validations.email_from_name data);
     c_sms_template := Validations.sms_template data |}.

(** What the signed-in user of the dashboard reads.  The dashboard calls
    [get_eligible_visitors] with the key of the browser and the token of
    the user, and the function is not declared [SECURITY DEFINER]: the
    policies of database-enhanced-forms.sql, lines 192-248, apply inside
    it.  A campaign and a log entry are read when their [admin_id] is the
    id of an admin record of the user; an unsubscribe is read when its
    [visitor_id], a column the resolver does not read, is a visitor of a
    property of such an admin.  Visitors, feedback forms and properties
    are read by every signed-in user. *)
Record Session := {
  own_admins : list uuid;
  own_unsubscribe : Unsubscribe -> bool
}.

(** [admin_id IN (SELECT id FROM admins WHERE user_id = auth.uid())]. *)
Definition own (S : Session) (admin_id : option uuid) : bool :=
  match admin_id with
  | Some a => existsb (String.eqb a) (own_admins S)
  | None => false
  end.

(** The tables as the policies show them to the user. *)
Definition readable (S : Session) (db : Database) : Database :=
  {| visitors := visitors db;
     properties := properties db;
     feedback := feedback db;
     follow_up_campaigns := filter (fun c => own S (c_admin_id c)) (follow_up_campaigns db);
     unsubscribes := filter (own_unsubscribe S) (unsubscribes db);
     follow_up_logs := filter (fun fl => own S (fl_admin_id fl)) (follow_up_logs db);
     admins := admins db |}.

(** [fetchEligibleVisitors]: the list shown in the send dialog, for a
    campaign of the list of campaigns; the property parameter is left to
    its default, [NULL]. *)
Definition fetchEligibleVisitors (S : Session) (db : Database) (campaignId : uuid)
    : list VisitorData :=
  get_eligible_visitors (readable S db) campaignId None.

(** The body [sendFollowUpMessages] posts: the id of the campaign, and
    the ticked visitors when there is one. *)
Definition sendFollowUpMessages (campaignId : uuid) (selectedVisitors : list string)
    : Request :=
  {| campaignId := Some campaignId;
     visitorIds := match selectedVisitors with
                   | [] => None
                   | _ => Some selectedVisitors
                   end;
     propertyId := None;
     messageType := None |}.

End Dashboard.

(* ===================================================================== *)
(** * Further vocabulary *)
(* ===================================================================== *)

Module Terms.
Import Db Resolver Dispatch.

(** [/<[^>]*>/.test(s)]: some [<] of [s] has a [>] after it. *)
Fixpoint has_tag (s : string) : bool :=
  match s with
  | "" => false
  | String c s' => (Ascii.eqb c "<" && Js.includes ">" s') || has_tag s'
  end.

(** [/^\d*$/.test(s)]. *)
Fixpoint all_digits (s : string) : bool :=
  match s with
  | "" => true
  | String c s' => Transport.is_digit c && all_digits s'
  end.

(** The name is one of [AVAILABLE_TEMPLATE_VARIABLES]. *)
Definition available (variable : string) : bool :=
  existsb (String.eqb variable) Validations.AVAILABLE_TEMPLATE_VARIABLES.

(** Both channels pass the visitor by: the channel is not required, or the
    visitor has no address or number, or the campaign has no SMS template. *)
Definition passed_by (c : Campaign) (effective : string) (row : VisitorData) : bool :=
  negb (Spec.requires_email effective && Js.truthy (visitor_email row))
  && negb (Spec.requires_sms effective
           && (Js.truthy (visitor_phone row) && Js.truthy (c_sms_template c))).

(** The log entry does not count against (visitor, campaign): it is for
    another visitor or campaign, or its status is [failed] or not set. *)
Definition neutral_entry (campaign : uuid) (fl : FollowUpLog) : Prop :=
  forall visitor, ~ Spec.non_failed_entry visitor campaign fl.

(** The number of rows of a table an [ON] condition holds for. *)
Definition matches {R} (on : R -> Sql.tri) (table : list R) : nat :=
  List.length (filter (fun r => Sql.holds (on r)) table).

(** The transport calls a run makes for one visitor: the email when the
    channel is required and the visitor has an address, then the text
    message when that channel is required, the visitor has a number and the
    campaign an SMS template. *)
Definition messages_for (c : Campaign) (admin : Admin) (effective : string)
    (row : VisitorData) : list Outbound :=
  ((if Spec.requires_email effective && Js.truthy (visitor_email row)
    then [Spec.email_for c admin row] else [])
   ++ (if Spec.requires_sms effective
          && (Js.truthy (visitor_phone row) && Js.truthy (c_sms_template c))
       then [Spec.sms_for c admin row] else []))%list.

(** One call of a transport during a run: the call, what the transport
    answered, the entry handed to [logFollowUp] for it, and whether the
    insert stored that entry. *)
Record Attempt := {
  a_call : Outbound;
  a_result : SendResult;
  a_entry : FollowUpLog;
  a_stored : bool
}.

Definition succeeded (a : Attempt) : bool := success (a_result a).

Definition not_succeeded (a : Attempt) : bool := negb (success (a_result a)).

(** The entry of an attempt made for a row: it is for the visitor of the
    row and the campaign, of the channel of the call, with the recipient,
    subject and content of the call, [sent] when the transport reported
    success and [failed] with its error otherwise. *)
Definition entry_for (c : Campaign) (campaign : uuid) (row : VisitorData) (a : Attempt)
    : Prop :=
  let fl := a_entry a in
  fl_visitor_id fl = visitor_id row /\
  fl_campaign_id fl = Some campaign /\
  fl_admin_id fl = c_admin_id c /\
  fl_status fl = Some (if success (a_result a) then "sent" else "failed") /\
  fl_external_id fl = Js.or_else (messageId (a_result a)) None /\
  fl_error_message fl = Js.or_else (error (a_result a)) None /\
  match a_call a with
  | Email _ subject html _ _ =>
      fl_message_type fl = "email" /\ fl_recipient_email fl = visitor_email row /\
      fl_recipient_phone fl = None /\ fl_subject fl = Some subject /\
      fl_message_content fl = html
  | Sms _ message =>
      fl_message_type fl = "sms" /\ fl_recipient_email fl = None /\
      fl_recipient_phone fl = visitor_phone row /\ fl_subject fl = None /\
      fl_message_content fl = message
  end.

(** The result of an attempt is what the transport answered to the call,
    and the entry was stored when its insert returned no error. *)
Definition answered (E : Env) (a : Attempt) : Prop :=
  (exists w,
      a_result a
      = fst (match a_call a with
             | Email to subject html text from => sendEmail E w to subject html text from
             | Sms to message => sendSMS E w to message
             end)) /\
  (exists w, a_stored a = fst (insert_follow_up_log E w (a_entry a))).

(** The attempts made for one row: one for each call the row asks for,
    in the same order. *)
Definition row_attempts (E : Env) (c : Campaign) (admin : Admin) (t : string)
    (campaign : uuid) (row : VisitorData) (l : list Attempt) : Prop :=
  map a_call l = messages_for c admin t row /\
  Forall (fun a => entry_for c campaign row a /\ answered E a) l.

(** The line [results.errors] gets for a failed attempt. *)
Definition error_line (a : Attempt) : string :=
  match a_call a with
  | Email to _ _ _ _ => "Email to " ++ to ++ ": " ++ Js.interpolate (error (a_result a))
  | Sms to _ => "SMS to " ++ to ++ ": " ++ Js.interpolate (error (a_result a))
  end.

(** What a sequence of attempts leaves behind: the calls are added to the
    outbox, the stored entries to the log, and every attempt is counted as
    sent, or as failed with its line. *)
Definition attempts_effect {E} (s s' : State E) (res res' : Results) (l : list Attempt)
    : Prop :=
  st_outbox s' = (st_outbox s ++ map a_call l)%list /\
  st_db s'
  = with_logs (st_db s) (follow_up_logs (st_db s) ++ map a_entry (filter a_stored l))%list /\
  sent res' = sent res + List.length (filter succeeded l) /\
  failed res' = failed res + List.length (filter not_succeeded l) /\
  errors res' = (errors res ++ map error_line (filter not_succeeded l))%list.

(** What the loop over [rows] does, told by the attempts made for each
    row. *)
Definition run_trace {E} (c : Campaign) (admin : Admin) (t : string) (campaign : uuid)
    (rows : list VisitorData) (s s' : State E) (res res' : Results)
    (trs : list (list Attempt)) : Prop :=
  Forall2 (row_attempts E c admin t campaign) rows trs /\
  attempts_effect s s' res res' (concat trs).

(** The [results] a run starts from. *)
Definition no_results : Results := {| sent := 0; failed := 0; errors := [] |}.

(** A run over [rows]: the loop goes through them in the order the
    database returned them, which the query does not fix, and the answer
    is "no eligible visitors" when there is none. *)
Definition run_over {E} (c : Campaign) (admin : Admin) (t : string) (campaign : uuid)
    (rows : list VisitorData) (s : State E) (run : Response * State E)
    (order : list VisitorData) (trs : list (list Attempt)) : Prop :=
  Permutation order rows /\
  exists res,
    run_trace c admin t campaign order s (snd run) no_results res trs /\
    fst run = match rows with
              | [] => NoEligibleVisitors
              | _ => Processed res (List.length rows)
              end.

(** The entries a run leaves when the email key is missing. *)
Definition key_missing_entry (fl : FollowUpLog) : Prop :=
  fl_message_type fl = "email" /\ fl_status fl = Some "failed" /\
  fl_error_message fl = Some "RESEND_API_KEY not configured".

(** Some opening brace of [s] has no closing brace after it. *)
Fixpoint dangling (s : string) : bool :=
  match s with
  | "" => false
  | String c s' => (Ascii.eqb c "{" && negb (Js.includes "}" s')) || dangling s'
  end.

(** No environment variable is set. *)
Definition no_secrets : Transport.Secrets :=
  {| Transport.RESEND_API_KEY := None;
     Transport.TWILIO_ACCOUNT_SID := None;
     Transport.TWILIO_AUTH_TOKEN := None;
     Transport.TWILIO_PHONE_NUMBER := None |}.

(** A network that keeps the requests it was sent and answers each with
    an ok status. *)
Definition recording : Transport.Network :=
  {| Transport.Net := list Transport.HttpRequest;
     Transport.fetch := fun w q =>
       (Transport.Responded true
          (Some {| Transport.d_id := Some "re_1"; Transport.d_sid := Some "SM1";
                   Transport.d_message := None; Transport.d_error := None |}),
        (w ++ [q])%list) |}.

(** The number of rows of a result that are for the visitor. *)
Definition rows_of (visitor : uuid) (rows : list VisitorData) : nat :=
  List.length (filter (fun r => String.eqb (visitor_id r) visitor) rows).

(** Two feedback forms of one visitor. *)
Definition twice : Database :=
  {| visitors := [Sample.jane; Sample.bob];
     properties := [Sample.maple];
     feedback := [Sample.jane_feedback;
                  {| f_id := "0e000000-0000-4000-8000-000000000002";
                     f_visitor_id := Some Sample.jane_id;
                     f_interested := Some false |}];
     follow_up_campaigns := [Sample.welcome "email" "all"];
     unsubscribes := [];
     follow_up_logs := [];
     admins := [Sample.alex] |}.

(** A run over these secrets and this network in which inserts work. *)
Definition deployed (secrets : Transport.Secrets) (N : Transport.Network) : Env :=
  Transport.env secrets N (fun w _ => (true, w)).

End Terms.

(* ===================================================================== *)
(** * Facts about the string operations *)
(* ===================================================================== *)

Module JsFacts.
Import Js Spec.

Lemma append_empty_r (s : string) : s ++ "" = s.
Proof. induction s as [|c s IH]; simpl; [reflexivity | now rewrite IH]. Qed.

Lemma append_assoc (a b c : string) : (a ++ b) ++ c = a ++ (b ++ c).
Proof. induction a as [|x a IH]; simpl; [reflexivity | now rewrite IH]. Qed.

Lemma starts_with_append (p s : string) : starts_with p (p ++ s) = true.
Proof.
  induction p as [|a p IH]; simpl; [reflexivity|].
  now rewrite Ascii.eqb_refl, IH.
Qed.

Lemma drop_append (p s : string) : drop (String.length p) (p ++ s) = s.
Proof. induction p as [|a p IH]; simpl; auto. Qed.

Lemma includes_cons (p : string) (c : ascii) (s : string) :
  includes p (String c s) = false ->
  starts_with p (String c s) = false /\ includes p s = false.
Proof. simpl. intros H. now apply orb_false_iff in H. Qed.

(** A scan that meets no match copies its input. *)
Lemma replace_scan_no_match (pat v : string) :
  forall s before, includes pat s = false -> replace_scan pat v 0 before s = s.
Proof.
  induction s as [|c s IH]; intros before H; [reflexivity|].
  apply includes_cons in H as [Hs Hi].
  cbn [replace_scan]. rewrite Hs. now rewrite IH.
Qed.

Lemma replace_all_no_match (pat v s : string) :
  includes pat s = false -> replace_all pat v s = s.
Proof. apply replace_scan_no_match. Qed.

(** Consuming the rest of a match. *)
Lemma replace_scan_skip (pat v : string) :
  forall p before s,
    replace_scan pat v (String.length p) before (p ++ s)
    = match s with
      | "" => ""
      | _ => replace_scan pat v 0 (before ++ p) s
      end.
Proof.
  induction p as [|a p IH]; intros before s.
  - cbn [String.length append]. rewrite append_empty_r.
    destruct s; reflexivity.
  - cbn [String.length append replace_scan]. rewrite IH.
    rewrite append_assoc. reflexivity.
Qed.

(** At a match the expansion of the replacement is emitted and the scan
    goes on behind the match: the text just emitted is not scanned. *)
Lemma replace_scan_match (pat v before s : string) :
  pat <> "" ->
  replace_scan pat v 0 before (pat ++ s)
  = GetSubstitution pat before s v ++ replace_scan pat v 0 (before ++ pat) s.
Proof.
  intros Hne. destruct pat as [|a p]; [congruence|].
  change (String a p ++ s) with (String a (p ++ s)).
  cbn [replace_scan].
  change (String a (p ++ s)) with (String a p ++ s).
  rewrite starts_with_append, drop_append.
  replace (String.length (String a p) - 1) with (String.length p)
    by (cbn [String.length]; lia).
  rewrite replace_scan_skip, append_assoc. cbn [append].
  destruct s; reflexivity.
Qed.

(** A replacement without a dollar sign stands for itself. *)
Lemma plain_cons (c : ascii) (v : string) :
  plain (String c v) = true -> Ascii.eqb c "$" = false /\ plain v = true.
Proof.
  unfold plain. cbn [includes starts_with].
  rewrite andb_true_r, negb_orb, andb_true_iff, negb_true_iff.
  rewrite Ascii.eqb_sym. tauto.
Qed.

Lemma GetSubstitution_plain (matched before after : string) :
  forall v, plain v = true -> GetSubstitution matched before after v = v.
Proof.
  induction v as [|c v IH]; intros H; [reflexivity|].
  apply plain_cons in H as [Hc Hv].
  cbn [GetSubstitution]. rewrite Hc, IH; auto.
Qed.

(** With such a replacement the scan does not depend on what came before. *)
Lemma replace_scan_plain_before (pat v : string) :
  plain v = true ->
  forall s k b1 b2, replace_scan pat v k b1 s = replace_scan pat v k b2 s.
Proof.
  intros Hv. induction s as [|c s IH]; intros k b1 b2; [reflexivity|].
  cbn [replace_scan]. destruct k as [|k].
  - rewrite !GetSubstitution_plain by assumption.
    rewrite (IH _ (b1 ++ String c "") (b2 ++ String c "")).
    rewrite (IH 0 (b1 ++ String c "") (b2 ++ String c "")).
    reflexivity.
  - apply IH.
Qed.

(** ** Where a pattern can begin *)

Lemma includes_one_cons (x c : ascii) (s : string) :
  includes (String x "") (String c s) = Ascii.eqb x c || includes (String x "") s.
Proof. cbn [includes starts_with]. now rewrite andb_true_r. Qed.

Lemma includes_one_app (x : ascii) (a b : string) :
  includes (String x "") (a ++ b) = includes (String x "") a || includes (String x "") b.
Proof.
  induction a as [|c a IH].
  - cbn [append]. destruct b; reflexivity.
  - cbn [append]. rewrite !includes_one_cons, IH. apply orb_assoc.
Qed.

Lemma starts_with_length (p s : string) :
  starts_with p s = true -> String.length p <= String.length s.
Proof.
  revert s. induction p as [|a p IH]; intros s H; [cbn; lia|].
  destruct s as [|b s]; [discriminate|]. cbn [starts_with] in H.
  apply andb_true_iff in H as [_ H]. apply IH in H. cbn [String.length]. lia.
Qed.

Lemma starts_with_split (p s : string) :
  starts_with p s = true -> exists rest, s = p ++ rest.
Proof.
  revert s. induction p as [|a p IH]; intros s H; [now exists s|].
  destruct s as [|b s]; [discriminate|]. cbn [starts_with] in H.
  apply andb_true_iff in H as [Hab H]. apply Ascii.eqb_eq in Hab as ->.
  apply IH in H as [rest ->]. now exists rest.
Qed.

(** A pattern that begins in [x] and is found in [x ++ y] lies in [x] or
    goes on into [y]. *)
Lemma starts_with_app_cases (p x y : string) :
  starts_with p (x ++ y) = true ->
  starts_with p x = true \/
  exists q, q <> "" /\ p = x ++ q /\ starts_with q y = true.
Proof.
  revert x. induction p as [|a p IH]; intros x H; [now left|].
  destruct x as [|b x].
  - right. exists (String a p). repeat split; [discriminate | exact H].
  - cbn [append starts_with] in H |- *. apply andb_true_iff in H as [Hab H].
    rewrite Hab. apply Ascii.eqb_eq in Hab as ->.
    apply IH in H as [H|(q & Hq & -> & H)]; [now left|].
    right. exists q. now repeat split.
Qed.

Lemma includes_split (p s : string) :
  includes p s = true -> exists a b, s = a ++ p ++ b.
Proof.
  induction s as [|c s IH]; intros H.
  - cbn [includes] in H. rewrite orb_false_r in H.
    apply starts_with_split in H as [rest H]. exists "", rest. exact H.
  - cbn [includes] in H. apply orb_true_iff in H as [H|H].
    + apply starts_with_split in H as [rest H]. exists "", rest. exact H.
    + apply IH in H as (a & b & ->). now exists (String c a), b.
Qed.

Lemma includes_middle (p a b : string) : includes p (a ++ p ++ b) = true.
Proof.
  induction a as [|c a IH].
  - cbn [append]. destruct (p ++ b) eqn:H; cbn [includes];
      rewrite <- H, starts_with_append; reflexivity.
  - cbn [append includes]. rewrite IH. apply orb_true_r.
Qed.

Lemma replace_scan_step (pat v before : string) (c : ascii) (s : string) :
  starts_with pat (String c s) = false ->
  replace_scan pat v 0 before (String c s)
  = String c (replace_scan pat v 0 (before ++ String c "") s).
Proof. intros H. cbn [replace_scan]. now rewrite H. Qed.

(** A pattern that begins with [x] does not begin where [x] is not. *)
Lemma scan_without (x : ascii) (p v : string) (t : string) :
  includes (String x "") t = false ->
  forall before rest,
    replace_scan (String x p) v 0 before (t ++ rest)
    = t ++ replace_scan (String x p) v 0 (before ++ t) rest.
Proof.
  induction t as [|c t IH]; intros H before rest.
  - cbn [append]. now rewrite append_empty_r.
  - rewrite includes_one_cons in H. apply orb_false_iff in H as [Hc H].
    cbn [append replace_scan starts_with]. rewrite Hc. cbn [andb].
    rewrite IH by exact H. now rewrite append_assoc.
Qed.

End JsFacts.

Module TemplateFacts.
Import Template Spec.

Lemma placeholder_not_empty (key : string) : placeholder key <> "".
Proof. unfold placeholder. simpl. discriminate. Qed.

(** The loop is a sequence of passes, one per entry. *)
Lemma render_cons (t : string) (e : string * option string) (m : Variables) :
  replaceTemplateVariables t (e :: m) = replaceTemplateVariables (replace_entry t e) m.
Proof. reflexivity. Qed.

Lemma render_app (t : string) (m1 m2 : Variables) :
  replaceTemplateVariables t (m1 ++ m2)%list
  = replaceTemplateVariables (replaceTemplateVariables t m1) m2.
Proof. unfold replaceTemplateVariables. apply fold_left_app. Qed.

Lemma render_no_placeholder (m : Variables) :
  forall t, no_placeholder_of m t -> replaceTemplateVariables t m = t.
Proof.
  induction m as [|[k v] m IH]; intros t H; [reflexivity|].
  rewrite render_cons. cbn [replace_entry].
  rewrite JsFacts.replace_all_no_match by (apply (H k v); now left).
  apply IH. intros k' v' Hin. apply (H k' v'). now right.
Qed.

(** ** Placeholders of word keys *)

Lemma word_char_no_brace (c : ascii) :
  word_char c = true -> Ascii.eqb "{" c = false /\ Ascii.eqb "}" c = false.
Proof.
  destruct c as [[] [] [] [] [] [] [] []]; split; try reflexivity; discriminate.
Qed.

Lemma word_key_no_brace (key : string) :
  word_key key = true ->
  Js.includes "{" key = false /\ Js.includes "}" key = false.
Proof.
  unfold word_key. intros H. apply andb_true_iff in H as [H _].
  induction key as [|c key IH]; [split; reflexivity|].
  cbn [all_chars] in H. apply andb_true_iff in H as [Hc H].
  apply word_char_no_brace in Hc as [H1 H2]. destruct (IH H) as [IH1 IH2].
  rewrite !JsFacts.includes_one_cons, H1, H2, IH1, IH2. split; reflexivity.
Qed.

(** Two placeholders begin alike only when they are for the same key. *)
Lemma starts_with_placeholder (key w rest : string) :
  Js.includes "}" key = false -> Js.includes "}" w = false ->
  Js.starts_with (key ++ "}}") (w ++ "}}" ++ rest) = String.eqb key w.
Proof.
  revert w. induction key as [|c key IH]; intros w Hk Hw.
  - destruct w as [|d w]; [reflexivity|].
    rewrite JsFacts.includes_one_cons in Hw. apply orb_false_iff in Hw as [Hd _].
    cbn [append Js.starts_with String.eqb]. now rewrite Hd.
  - rewrite JsFacts.includes_one_cons in Hk. apply orb_false_iff in Hk as [Hc Hk].
    destruct w as [|d w].
    + cbn [append Js.starts_with String.eqb]. rewrite Ascii.eqb_sym, Hc. reflexivity.
    + rewrite JsFacts.includes_one_cons in Hw. apply orb_false_iff in Hw as [_ Hw].
      cbn [append Js.starts_with String.eqb]. rewrite IH by assumption.
      destruct (Ascii.eqb c d); reflexivity.
Qed.

(** A placeholder that begins before two opening braces ends before
    them: it does not go on into a placeholder that follows. *)
Lemma no_straddle (key : string) (c : ascii) (a z : string) :
  Js.includes "{" key = false ->
  Js.starts_with (placeholder key) (String c a ++ "{{" ++ z) = true ->
  Js.starts_with (placeholder key) (String c a) = true.
Proof.
  intros Hk H. apply JsFacts.starts_with_app_cases in H as [H|(q & Hq & Hp & H)];
    [exact H|]. exfalso.
  unfold placeholder in Hp.
  change ("{{" ++ key ++ "}}") with (String "{" (String "{" (key ++ "}}"))) in Hp.
  cbn [append] in Hp. injection Hp as _ Hp.
  assert (Hno : Js.includes "{" (key ++ "}}") = false)
    by (rewrite JsFacts.includes_one_app, Hk; reflexivity).
  destruct q as [|x q]; [congruence|].
  change ("{{" ++ z) with (String "{" (String "{" z)) in H.
  cbn [Js.starts_with] in H. apply andb_true_iff in H as [Hx H].
  apply Ascii.eqb_eq in Hx as ->.
  destruct a as [|d a].
  - cbn [append] in Hp. injection Hp as Hq'. subst q.
    destruct (key ++ "}}") as [|y rest] eqn:Hy; [destruct key; discriminate|].
    cbn [Js.starts_with] in H. apply andb_true_iff in H as [Hy0 _].
    apply Ascii.eqb_eq in Hy0 as ->.
    rewrite JsFacts.includes_one_cons, Ascii.eqb_refl in Hno. discriminate.
  - cbn [append] in Hp. injection Hp as _ Hp.
    rewrite Hp, JsFacts.includes_one_app, JsFacts.includes_one_cons,
      Ascii.eqb_refl, orb_true_r in Hno.
    discriminate.
Qed.

(** The pass of a key over a text whose first placeholder of the key
    comes after [a]: [a] is copied, the placeholder is replaced by the
    expansion of the value, and the scan goes on behind it. *)
Lemma replace_scan_at (key v b : string) :
  Js.includes "{" key = false ->
  forall a before,
    Js.includes (placeholder key) a = false ->
    Js.replace_scan (placeholder key) v 0 before (a ++ placeholder key ++ b)
    = a ++ Js.GetSubstitution (placeholder key) (before ++ a) b v
        ++ Js.replace_scan (placeholder key) v 0 (before ++ a ++ placeholder key) b.
Proof.
  intros Hk. induction a as [|c a IH]; intros before Ha.
  - cbn [append]. rewrite JsFacts.append_empty_r.
    apply JsFacts.replace_scan_match, placeholder_not_empty.
  - apply JsFacts.includes_cons in Ha as [Hs Ha].
    assert (Hno : Js.starts_with (placeholder key)
                    (String c a ++ placeholder key ++ b) = false).
    { destruct (Js.starts_with (placeholder key) (String c a ++ placeholder key ++ b))
        eqn:H; [|reflexivity].
      unfold placeholder in H at 2.
      change ("{{" ++ key ++ "}}") with ("{{" ++ (key ++ "}}")) in H.
      rewrite JsFacts.append_assoc in H.
      apply (no_straddle key c a _ Hk) in H. congruence. }
    change (String c a ++ placeholder key ++ b)
      with (String c (a ++ placeholder key ++ b)) in Hno |- *.
    cbn [Js.replace_scan]. rewrite Hno.
    rewrite IH by exact Ha. rewrite !JsFacts.append_assoc. reflexivity.
Qed.

Lemma replace_all_at (key v a b : string) :
  Js.includes "{" key = false ->
  Js.includes (placeholder key) a = false ->
  Js.replace_all (placeholder key) v (a ++ placeholder key ++ b)
  = a ++ Js.GetSubstitution (placeholder key) a b v
      ++ Js.replace_scan (placeholder key) v 0 (a ++ placeholder key) b.
Proof. intros Hk Ha. unfold Js.replace_all. now rewrite replace_scan_at. Qed.

Lemma replace_all_at_plain (key v a b : string) :
  Js.includes "{" key = false ->
  plain v = true ->
  Js.includes (placeholder key) a = false ->
  Js.replace_all (placeholder key) v (a ++ placeholder key ++ b)
  = a ++ v ++ Js.replace_all (placeholder key) v b.
Proof.
  intros Hk Hv Ha. rewrite replace_all_at by assumption.
  rewrite JsFacts.GetSubstitution_plain by exact Hv. unfold Js.replace_all.
  now rewrite (JsFacts.replace_scan_plain_before _ v Hv b 0 (a ++ placeholder key) "").
Qed.

(** The pass of one key leaves the placeholders of another key in. *)
Lemma replace_scan_keeps (y k v b : string) :
  Js.includes "{" y = false -> Js.includes "}" y = false ->
  Js.includes "{" k = false -> Js.includes "}" k = false ->
  y <> k ->
  forall a skip before,
    skip <= String.length a ->
    exists X,
      Js.replace_scan (placeholder y) v skip before (a ++ placeholder k ++ b)
      = X ++ placeholder k
          ++ Js.replace_scan (placeholder y) v 0 (before ++ a ++ placeholder k) b.
Proof.
  intros Hy1 Hy2 Hk1 Hk2 Hne.
  assert (Hover : forall before,
            Js.replace_scan (placeholder y) v 0 before (placeholder k ++ b)
            = placeholder k
                ++ Js.replace_scan (placeholder y) v 0 (before ++ placeholder k) b).
  { intros before. unfold placeholder.
    change ("{{" ++ y ++ "}}") with (String "{" (String "{" (y ++ "}}"))).
    change (("{{" ++ k ++ "}}") ++ b) with (String "{" (String "{" ((k ++ "}}") ++ b))).
    change ("{{" ++ k ++ "}}") with (String "{" (String "{" (k ++ "}}"))).
    set (pat := String "{" (String "{" (y ++ "}}"))).
    assert (Hfirst : Js.starts_with pat (String "{" (String "{" ((k ++ "}}") ++ b)))
                     = false).
    { subst pat. cbn [Js.starts_with]. rewrite !Ascii.eqb_refl. cbn [andb].
      rewrite JsFacts.append_assoc, starts_with_placeholder by assumption.
      now apply String.eqb_neq. }
    assert (Hsecond : Js.starts_with pat (String "{" ((k ++ "}}") ++ b)) = false).
    { subst pat. cbn [Js.starts_with]. rewrite Ascii.eqb_refl. cbn [andb].
      destruct k as [|d k]; [reflexivity|].
      rewrite JsFacts.includes_one_cons in Hk1. apply orb_false_iff in Hk1 as [Hd _].
      cbn [append Js.starts_with]. now rewrite Hd. }
    assert (Hrest : Js.includes "{" (k ++ "}}") = false)
      by (rewrite JsFacts.includes_one_app, Hk1; reflexivity).
    rewrite (JsFacts.replace_scan_step pat v before _ _ Hfirst).
    rewrite (JsFacts.replace_scan_step pat v _ _ _ Hsecond).
    subst pat. rewrite (JsFacts.scan_without "{" _ v (k ++ "}}") Hrest).
    cbn [append]. rewrite !JsFacts.append_assoc. reflexivity. }
  induction a as [|c a IH]; intros skip before Hskip.
  - cbn [String.length] in Hskip. replace skip with 0 by lia.
    exists "". cbn [append]. apply Hover.
  - cbn [String.length] in Hskip.
    change (String c a ++ placeholder k ++ b) with (String c (a ++ placeholder k ++ b)).
    cbn [Js.replace_scan]. destruct skip as [|n].
    + destruct (Js.starts_with (placeholder y) (String c (a ++ placeholder k ++ b)))
        eqn:Hs.
      * assert (Hin : Js.starts_with (placeholder y) (String c a) = true).
        { apply (no_straddle y c a (k ++ "}}" ++ b) Hy1).
          unfold placeholder in Hs at 2.
          change ("{{" ++ k ++ "}}") with ("{{" ++ (k ++ "}}")) in Hs.
          rewrite !JsFacts.append_assoc in Hs. exact Hs. }
        apply JsFacts.starts_with_length in Hin. cbn [String.length] in Hin.
        destruct (IH (String.length (placeholder y) - 1) (before ++ String c ""))
          as [X HX]; [lia|].
        rewrite HX.
        match goal with
        | |- exists _, ?g ++ _ = _ => exists (g ++ X)
        end.
        rewrite !JsFacts.append_assoc. reflexivity.
      * destruct (IH 0 (before ++ String c "")) as [X HX]; [lia|].
        rewrite HX. exists (String c X). rewrite !JsFacts.append_assoc.
        reflexivity.
    + destruct (IH n (before ++ String c "")) as [X HX]; [lia|].
      rewrite HX. exists X. rewrite !JsFacts.append_assoc. reflexivity.
Qed.

Lemma replace_entry_keeps (k : string) (e : string * option string) (t : string) :
  word_key (fst e) = true -> word_key k = true -> fst e <> k ->
  Js.includes (placeholder k) t = true ->
  Js.includes (placeholder k) (replace_entry t e) = true.
Proof.
  destruct e as [y value]. cbn [fst replace_entry]. intros Hy Hk Hne Hin.
  apply word_key_no_brace in Hy as [Hy1 Hy2]. apply word_key_no_brace in Hk as [Hk1 Hk2].
  apply JsFacts.includes_split in Hin as (a & b & ->).
  destruct (replace_scan_keeps y k (Js.or_empty value) b Hy1 Hy2 Hk1 Hk2 Hne a 0 "")
    as [X HX]; [lia|].
  unfold Js.replace_all. rewrite HX. apply JsFacts.includes_middle.
Qed.

(** A placeholder whose key the mapping lacks is in the output wherever
    it is in the template. *)
Lemma render_keeps (k : string) (m : Variables) :
  Forall (fun e => word_key (fst e) = true) m ->
  word_key k = true -> ~ In k (map fst m) ->
  forall t, Js.includes (placeholder k) t = true ->
            Js.includes (placeholder k) (replaceTemplateVariables t m) = true.
Proof.
  intros Hm Hk. induction m as [|e m IH]; intros Hno t Ht; [exact Ht|].
  inversion Hm as [|? ? He Hm']; subst. rewrite render_cons.
  apply IH; [exact Hm' | intros H; apply Hno; now right |].
  apply replace_entry_keeps; try assumption.
  intros Heq. apply Hno. now left.
Qed.

End TemplateFacts.

(* ===================================================================== *)
(** * Facts about the SQL operators *)
(* ===================================================================== *)

Module SqlFacts.
Import Sql.

Lemma holds_tand (a b : tri) : holds (tand a b) = holds a && holds b.
Proof. destruct a as [[|]|], b as [[|]|]; reflexivity. Qed.

Lemma holds_tor (a b : tri) : holds (tor a b) = holds a || holds b.
Proof. destruct a as [[|]|], b as [[|]|]; reflexivity. Qed.

Lemma holds_eq (a b : option string) :
  holds (eq a b) = true <-> exists x, a = Some x /\ b = Some x.
Proof.
  destruct a as [x|], b as [y|]; simpl; split;
    try discriminate; try (intros (z & H1 & H2); discriminate).
  - destruct (String.eqb_spec x y) as [->|]; [|discriminate].
    intros _. now exists y.
  - intros (z & H1 & H2). injection H1 as ->. injection H2 as ->.
    now rewrite String.eqb_refl.
Qed.

Lemma holds_some (b : bool) : holds (Some b) = b.
Proof. destruct b; reflexivity. Qed.

Lemma holds_in_list (x : string) (l : list string) :
  holds (in_list (Some x) l) = existsb (String.eqb x) l.
Proof. apply holds_some. Qed.

Lemma holds_is_null {A} (a : option A) : holds (is_null a) = true <-> a = None.
Proof. destruct a; simpl; split; congruence. Qed.

Lemma left_join_not_empty {R} (on : R -> tri) (table : list R) :
  left_join on table <> [].
Proof.
  unfold left_join. destruct (filter _ table); simpl; discriminate.
Qed.

Lemma in_left_join_some {R} (on : R -> tri) (table : list R) (r : R) :
  In (Some r) (left_join on table) <-> In r table /\ holds (on r) = true.
Proof.
  pose proof (filter_In (fun r => holds (on r)) r table) as Hin. cbv beta in Hin.
  rewrite <- Hin. unfold left_join.
  destruct (filter _ table) as [|x l].
  - simpl. split; [intros [H|[]]; discriminate | tauto].
  - rewrite in_map_iff. split.
    + intros (y & Hy & Hy'). now injection Hy as ->.
    + intros Hy. now exists r.
Qed.

Lemma in_left_join_none {R} (on : R -> tri) (table : list R) :
  In None (left_join on table) <-> forall r, In r table -> holds (on r) = false.
Proof.
  unfold left_join.
  destruct (filter _ table) as [|x l] eqn:Hf.
  - split; [|intros _; now left].
    intros _ r Hin. destruct (holds (on r)) eqn:Hr; [|reflexivity].
    assert (Hx : In r (filter (fun r => holds (on r)) table))
      by (apply filter_In; auto).
    rewrite Hf in Hx. destruct Hx.
  - split.
    + rewrite in_map_iff. intros (y & Hy & _). discriminate.
    + intros H. assert (Hx : In x (filter (fun r => holds (on r)) table))
        by (rewrite Hf; now left).
      apply filter_In in Hx as [Hin Hon]. rewrite (H x Hin) in Hon. discriminate.
Qed.

Lemma filter_map_comm {A B} (P : B -> bool) (g : A -> B) (l : list A) :
  filter P (map g l) = map g (filter (fun x => P (g x)) l).
Proof.
  induction l as [|a l IH]; [reflexivity|]. simpl.
  destruct (P (g a)); simpl; now rewrite IH.
Qed.

(** Rewriting the right table by a map the [ON] condition does not see. *)
Lemma left_join_map {R} (on : R -> tri) (g : R -> R) (table : list R) :
  (forall r, on (g r) = on r) ->
  left_join on (map g table) = map (option_map g) (left_join on table).
Proof.
  intros Hon. unfold left_join. rewrite filter_map_comm.
  rewrite (filter_ext (fun x => holds (on (g x))) (fun x => holds (on x)))
    by (intros x; now rewrite Hon).
  destruct (filter _ table) as [|x l]; [reflexivity|].
  cbn [map]. now rewrite !map_map.
Qed.

End SqlFacts.

(* ===================================================================== *)
(** * Facts about the eligibility resolver *)
(* ===================================================================== *)

Module ResolverFacts.
Import Db Resolver Spec.

(** The rows of the [FROM] clause. *)
Lemma in_joined_rows (db : Database) (cid : uuid) (r : Joined) :
  In r (joined_rows db cid) <->
  In (j_v r) (visitors db) /\
  In (j_p r) (Sql.left_join (on_property (j_v r)) (properties db)) /\
  In (j_f r) (Sql.left_join (on_feedback (j_v r)) (feedback db)) /\
  In (j_c r) (Sql.left_join (on_campaign cid) (follow_up_campaigns db)) /\
  In (j_u r) (Sql.left_join (on_unsubscribe (j_v r)) (unsubscribes db)).
Proof.
  unfold joined_rows. rewrite in_flat_map. split.
  - intros (v & Hv & H). apply in_flat_map in H as (p & Hp & H).
    apply in_flat_map in H as (f & Hf & H). apply in_flat_map in H as (c & Hc & H).
    apply in_map_iff in H as (u & <- & Hu). simpl. tauto.
  - intros (Hv & Hp & Hf & Hc & Hu). exists (j_v r). split; [assumption|].
    apply in_flat_map. exists (j_p r). split; [assumption|].
    apply in_flat_map. exists (j_f r). split; [assumption|].
    apply in_flat_map. exists (j_c r). split; [assumption|].
    apply in_map_iff. exists (j_u r). split; [|assumption].
    destruct r; reflexivity.
Qed.

(** The [WHERE] clause selects when each of its five conditions holds. *)
Lemma holds_where_clause (db : Database) (cid : uuid) (pid : option uuid) (r : Joined) :
  Sql.holds (where_clause db cid pid r) = true <->
  Sql.holds (property_filter pid r) = true /\
  Sql.holds (campaign_property_filter r) = true /\
  Sql.holds (not_unsubscribed r) = true /\
  Sql.holds (trigger_filter r) = true /\
  Sql.holds (not_already_sent db cid r) = true.
Proof.
  unfold where_clause. rewrite !SqlFacts.holds_tand, !andb_true_iff. tauto.
Qed.

Lemma in_get_eligible_visitors (db : Database) (cid : uuid) (pid : option uuid)
    (row : VisitorData) :
  In row (get_eligible_visitors db cid pid) <->
  exists r, select r = row /\ In r (joined_rows db cid) /\
            Sql.holds (where_clause db cid pid r) = true.
Proof.
  unfold get_eligible_visitors. rewrite in_map_iff.
  split; intros (r & H1 & H2); exists r; rewrite filter_In in *; tauto.
Qed.

(** The duplicate-send condition against the vocabulary of the spec. *)
Lemma holds_log_blocks (visitor cid : uuid) (fl : FollowUpLog) :
  Sql.holds (log_blocks visitor cid fl) = true <-> non_failed_entry visitor cid fl.
Proof.
  unfold log_blocks, non_failed_entry.
  rewrite !SqlFacts.holds_tand, !andb_true_iff, !SqlFacts.holds_eq.
  unfold Sql.not_in_list, Sql.in_list, Sql.tnot.
  split.
  - intros [[(x & Hx & Hv) (y & Hy & Hc)] Hs].
    injection Hx as <-. injection Hv as <-. injection Hc as <-.
    repeat split; [assumption|].
    destruct (fl_status fl) as [st|]; [|discriminate].
    exists st. split; [reflexivity|]. intros ->. discriminate.
  - intros (Hv & Hc & st & Hst & Hne). rewrite Hv, Hc, Hst. repeat split.
    + now exists visitor.
    + now exists cid.
    + simpl. destruct (String.eqb_spec st "failed"); [contradiction | reflexivity].
Qed.

Lemma holds_not_already_sent (db : Database) (cid : uuid) (r : Joined) :
  Sql.holds (not_already_sent db cid r) = true <->
  ~ has_non_failed_entry db (v_id (j_v r)) cid.
Proof.
  unfold not_already_sent, Sql.exists_row, has_non_failed_entry. simpl.
  destruct (existsb _ (follow_up_logs db)) eqn:Hex; simpl.
  - split; [discriminate|]. intros H. exfalso. apply H.
    apply existsb_exists in Hex as (fl & Hin & Hb). exists fl.
    now rewrite <- holds_log_blocks.
  - split; [|reflexivity]. intros _ (fl & Hin & Hb).
    apply holds_log_blocks in Hb.
    assert (Ht : existsb (fun fl => Sql.holds (log_blocks (v_id (j_v r)) cid fl))
                   (follow_up_logs db) = true)
      by (apply existsb_exists; eauto).
    congruence.
Qed.

(** The unsubscribe join against the vocabulary of the spec. *)
Lemma holds_on_unsubscribe (v : Visitor) (u : Unsubscribe) :
  Sql.holds (on_unsubscribe v u) = true <-> unsubscribe_matches (v_email v) (v_phone v) u.
Proof.
  unfold on_unsubscribe, unsubscribe_matches.
  rewrite SqlFacts.holds_tor, orb_true_iff, !SqlFacts.holds_tand, !andb_true_iff,
    !SqlFacts.holds_eq, !SqlFacts.holds_in_list.
  cbn [existsb]. rewrite !orb_false_r, !orb_true_iff, !String.eqb_eq.
  split.
  - intros [[(x & H1 & H2) H3]|[(x & H1 & H2) H3]]; [left|right]; eauto.
  - intros [(x & H1 & H2 & H3)|(x & H1 & H2 & H3)]; [left|right]; eauto.
Qed.

Lemma holds_not_unsubscribed (r : Joined) :
  Sql.holds (not_unsubscribed r) = true <-> j_u r = None.
Proof.
  unfold not_unsubscribed. rewrite SqlFacts.holds_is_null.
  destruct (j_u r); simpl; split; congruence.
Qed.

Lemma no_unsubscribe_row (db : Database) (v : Visitor) :
  In None (Sql.left_join (on_unsubscribe v) (unsubscribes db)) <->
  ~ unsubscribed db (v_email v) (v_phone v).
Proof.
  rewrite SqlFacts.in_left_join_none. unfold unsubscribed. split.
  - intros H (u & Hin & Hm). apply holds_on_unsubscribe in Hm.
    rewrite (H u Hin) in Hm. discriminate.
  - intros H u Hin. destruct (Sql.holds (on_unsubscribe v u)) eqn:Hu; [|reflexivity].
    exfalso. apply H. exists u. split; [assumption|]. now apply holds_on_unsubscribe.
Qed.

(** Duplicate suppression, row by row: the rows returned are the rows
    returned over an empty log whose visitor has no non-failed entry. *)
Lemma eligible_logs (db : Database) (cid : uuid) (pid : option uuid) (row : VisitorData) :
  In row (get_eligible_visitors db cid pid) <->
  In row (get_eligible_visitors (with_logs db []) cid pid) /\
  ~ has_non_failed_entry db (visitor_id row) cid.
Proof.
  rewrite !in_get_eligible_visitors.
  change (joined_rows (with_logs db []) cid) with (joined_rows db cid).
  split.
  - intros (r & <- & Hin & Hw). apply holds_where_clause in Hw as (H1 & H2 & H3 & H4 & H5).
    split.
    + exists r. repeat split; try assumption.
      apply holds_where_clause. repeat split; assumption.
    + now apply holds_not_already_sent.
  - intros [(r & <- & Hin & Hw) Hno].
    apply holds_where_clause in Hw as (H1 & H2 & H3 & H4 & _).
    exists r. repeat split; try assumption.
    apply holds_where_clause. repeat split; try assumption.
    now apply holds_not_already_sent.
Qed.

(** Unsubscribe suppression, row by row. *)
Lemma eligible_unsubscribes (db : Database) (cid : uuid) (pid : option uuid)
    (row : VisitorData) :
  In row (get_eligible_visitors db cid pid) <->
  In row (get_eligible_visitors (with_unsubscribes db []) cid pid) /\
  ~ unsubscribed db (visitor_email row) (visitor_phone row).
Proof.
  rewrite !in_get_eligible_visitors. split.
  - intros (r & <- & Hin & Hw).
    pose proof Hw as Hw'.
    apply holds_where_clause in Hw' as (_ & _ & Hu & _ & _).
    apply holds_not_unsubscribed in Hu.
    apply in_joined_rows in Hin as (Hv & Hp & Hf & Hc & Hju).
    split.
    + exists r. repeat split; [|exact Hw].
      apply in_joined_rows. repeat split; try assumption.
      rewrite Hu. now left.
    + rewrite Hu in Hju. now apply no_unsubscribe_row in Hju.
  - intros [(r & <- & Hin & Hw) Hno].
    apply in_joined_rows in Hin as (Hv & Hp & Hf & Hc & Hju).
    cbn [unsubscribes with_unsubscribes] in Hju.
    destruct Hju as [Hju|[]].
    exists r. repeat split; [|exact Hw].
    apply in_joined_rows. repeat split; try assumption.
    rewrite <- Hju. now apply no_unsubscribe_row.
Qed.

Lemma campaign_join (db : Database) (cid : uuid) (c : Campaign) :
  campaign_of db cid c ->
  Sql.left_join (on_campaign cid) (follow_up_campaigns db) = [Some c].
Proof.
  unfold campaign_of, Sql.left_join. intros H.
  rewrite (filter_ext _ (fun c' => String.eqb (c_id c') cid)).
  - now rewrite H.
  - intros c'. unfold on_campaign. simpl. now destruct (String.eqb (c_id c') cid).
Qed.

Lemma holds_property_filters (pid : option uuid) (c : Campaign) (r : Joined) :
  j_c r = Some c ->
  (Sql.holds (property_filter pid r) = true /\
   Sql.holds (campaign_property_filter r) = true) <->
  property_scoped pid c (j_v r).
Proof.
  intros Hc. unfold property_filter, campaign_property_filter, property_scoped.
  rewrite Hc. cbn [Sql.col].
  rewrite !SqlFacts.holds_tor, !orb_true_iff, !SqlFacts.holds_is_null, !SqlFacts.holds_eq.
  split.
  - intros [[H1|(x & H1 & H2)] [H3|(y & H3 & H4)]]; split; eauto.
  - intros [[H1|(x & H1 & H2)] [H3|(y & H3 & H4)]]; split; eauto.
Qed.

Lemma holds_on_feedback (v : Visitor) (f : Feedback) :
  Sql.holds (on_feedback v f) = true <-> f_visitor_id f = Some (v_id v).
Proof.
  unfold on_feedback. rewrite SqlFacts.holds_eq. split.
  - intros (x & H1 & H2). congruence.
  - intros H. now exists (v_id v).
Qed.

Lemma no_feedback_row (db : Database) (v : Visitor) :
  In None (Sql.left_join (on_feedback v) (feedback db)) <-> no_feedback db v.
Proof.
  rewrite SqlFacts.in_left_join_none. unfold no_feedback. split.
  - intros H f Hin Hf. apply holds_on_feedback in Hf. rewrite (H f Hin) in Hf.
    discriminate.
  - intros H f Hin. destruct (Sql.holds (on_feedback v f)) eqn:Hf; [|reflexivity].
    apply holds_on_feedback in Hf. now apply H in Hf.
Qed.

(** The [CASE] of the [WHERE] clause, for a row of the campaign [c]. *)
Lemma trigger_filter_cases (c : Campaign) (r : Joined) :
  j_c r = Some c ->
  Sql.holds (trigger_filter r) = true <->
  (c_trigger_condition c = "interested" /\
     exists f, j_f r = Some f /\ f_interested f = Some true) \/
  (c_trigger_condition c = "no_feedback" /\ j_f r = None) \/
  c_trigger_condition c = "all" \/
  c_trigger_condition c = "manual".
Proof.
  intros Hc. unfold trigger_filter. rewrite Hc. cbn [Sql.col Sql.eq].
  rewrite !SqlFacts.holds_some.
  destruct (String.eqb_spec (c_trigger_condition c) "interested") as [Ht|Ht].
  { rewrite Ht, SqlFacts.holds_some. split.
    - intros H. left. split; [reflexivity|].
      destruct (j_f r) as [f|]; [|discriminate]. exists f. split; [reflexivity|].
      cbn in H. destruct (f_interested f) as [[|]|]; try discriminate. reflexivity.
    - intros [[_ (f & -> & Hf)]|[[H _]|[H|H]]]; try discriminate.
      cbn. now rewrite Hf. }
  destruct (String.eqb_spec (c_trigger_condition c) "no_feedback") as [Ht1|Ht1].
  { rewrite Ht1, SqlFacts.holds_is_null. split.
    - intros H. right. left. split; [reflexivity|].
      destruct (j_f r); [discriminate | reflexivity].
    - intros [[H _]|[[_ ->]|[H|H]]]; try discriminate. reflexivity. }
  destruct (String.eqb_spec (c_trigger_condition c) "all") as [Ht2|Ht2].
  { split; [tauto | reflexivity]. }
  destruct (String.eqb_spec (c_trigger_condition c) "manual") as [Ht3|Ht3].
  { split; [tauto | reflexivity]. }
  split; [discriminate|]. intros [[H _]|[[H _]|[H|H]]]; contradiction.
Qed.

(** Without a row of the campaign, or with an unknown trigger condition,
    the [CASE] takes its [ELSE] branch. *)
Lemma trigger_filter_else (r : Joined) :
  (forall c, j_c r = Some c -> ~ known_trigger (c_trigger_condition c)) ->
  Sql.holds (trigger_filter r) = false.
Proof.
  intros H. unfold trigger_filter. destruct (j_c r) as [c|]; [|reflexivity].
  specialize (H c eq_refl). unfold known_trigger in H.
  cbn [Sql.col Sql.eq]. rewrite !SqlFacts.holds_some.
  destruct (String.eqb_spec (c_trigger_condition c) "interested"); [tauto|].
  destruct (String.eqb_spec (c_trigger_condition c) "no_feedback"); [tauto|].
  destruct (String.eqb_spec (c_trigger_condition c) "all"); [tauto|].
  destruct (String.eqb_spec (c_trigger_condition c) "manual"); [tauto|].
  reflexivity.
Qed.

Lemma no_row_is_nil {A} (l : list A) : (forall x, ~ In x l) -> l = [].
Proof. destruct l as [|a l]; [reflexivity|]. intros H. destruct (H a). now left. Qed.

Lemma eligible_unknown_trigger (db : Database) (cid : uuid) (pid : option uuid) :
  (forall c, In c (follow_up_campaigns db) -> c_id c = cid ->
             ~ known_trigger (c_trigger_condition c)) ->
  get_eligible_visitors db cid pid = [].
Proof.
  intros H. apply no_row_is_nil. intros row Hrow.
  apply in_get_eligible_visitors in Hrow as (r & _ & Hin & Hw).
  apply holds_where_clause in Hw as (_ & _ & _ & Ht & _).
  rewrite trigger_filter_else in Ht; [discriminate|].
  intros c Hc. apply in_joined_rows in Hin as (_ & _ & _ & Hjc & _).
  rewrite Hc in Hjc. apply SqlFacts.in_left_join_some in Hjc as [Hinc Hon].
  apply H; [assumption|]. unfold on_campaign in Hon.
  apply SqlFacts.holds_eq in Hon as (x & H1 & H2). congruence.
Qed.

Lemma left_join_inhabited {R} (on : R -> Sql.tri) (table : list R) :
  exists x, In x (Sql.left_join on table).
Proof.
  pose proof (SqlFacts.left_join_not_empty on table) as H.
  destruct (Sql.left_join on table) as [|x l]; [congruence|].
  exists x. now left.
Qed.

(** The feedback side of the join and the trigger condition together. *)
Lemma trigger_row (db : Database) (c : Campaign) (r : Joined) :
  j_c r = Some c ->
  In (j_f r) (Sql.left_join (on_feedback (j_v r)) (feedback db)) ->
  Sql.holds (trigger_filter r) = true ->
  trigger_selects db c (j_v r).
Proof.
  intros Hc Hf Ht. apply (trigger_filter_cases c r Hc) in Ht.
  destruct Ht as [[Ht (f & Hjf & Hi)]|[[Ht Hjf]|Ht]].
  - left. split; [assumption|]. rewrite Hjf in Hf.
    apply SqlFacts.in_left_join_some in Hf as [Hin Hon].
    apply holds_on_feedback in Hon. now exists f.
  - right. left. split; [assumption|]. rewrite Hjf in Hf.
    now apply no_feedback_row.
  - right. right. assumption.
Qed.

Lemma trigger_row_exists (db : Database) (c : Campaign) (v : Visitor) :
  trigger_selects db c v ->
  exists f, In f (Sql.left_join (on_feedback v) (feedback db)) /\
            forall p u, Sql.holds (trigger_filter
              {| j_v := v; j_p := p; j_f := f; j_c := Some c; j_u := u |}) = true.
Proof.
  intros [[Ht (f & Hin & Hv & Hi)]|[[Ht Hno]|Ht]].
  - exists (Some f). split.
    + apply SqlFacts.in_left_join_some. split; [assumption|].
      now apply holds_on_feedback.
    + intros p u. apply (trigger_filter_cases c); [reflexivity|].
      left. split; [assumption|]. now exists f.
  - exists None. split.
    + now apply no_feedback_row.
    + intros p u. apply (trigger_filter_cases c); [reflexivity|].
      right. left. now split.
  - destruct (left_join_inhabited (on_feedback v) (feedback db)) as [f Hf].
    exists f. split; [assumption|].
    intros p u. apply (trigger_filter_cases c); [reflexivity|].
    right. right. assumption.
Qed.

(** Who is eligible for the campaign [c], in the words of the spec. *)
Lemma eligible_iff (db : Database) (cid : uuid) (pid : option uuid) (c : Campaign)
    (V : uuid) :
  campaign_of db cid c ->
  In V (ids (get_eligible_visitors db cid pid)) <->
  exists v, In v (visitors db) /\ v_id v = V /\
            property_scoped pid c v /\
            trigger_selects db c v /\
            ~ unsubscribed db (v_email v) (v_phone v) /\
            ~ has_non_failed_entry db V cid.
Proof.
  intros Hcamp. pose proof (campaign_join db cid c Hcamp) as Hjoin.
  unfold ids. rewrite in_map_iff. split.
  - intros (row & <- & Hrow).
    apply in_get_eligible_visitors in Hrow as (r & <- & Hin & Hw).
    apply in_joined_rows in Hin as (Hv & Hp & Hf & Hc & Hu).
    rewrite Hjoin in Hc. destruct Hc as [Hc|[]]. symmetry in Hc.
    apply holds_where_clause in Hw as (H1 & H2 & H3 & H4 & H5).
    exists (j_v r). repeat split; try assumption.
    + now apply (holds_property_filters pid c r Hc).
    + now apply (holds_property_filters pid c r Hc).
    + now apply trigger_row.
    + apply holds_not_unsubscribed in H3. rewrite H3 in Hu.
      now apply no_unsubscribe_row.
    + now apply holds_not_already_sent in H5.
  - intros (v & Hv & <- & Hscope & Htrig & Hunsub & Hlog).
    destruct (left_join_inhabited (on_property v) (properties db)) as [p Hp].
    destruct (trigger_row_exists db c v Htrig) as (f & Hf & Ht).
    set (r := {| j_v := v; j_p := p; j_f := f; j_c := Some c; j_u := None |}).
    exists (select r). split; [reflexivity|].
    apply in_get_eligible_visitors. exists r. split; [reflexivity|]. split.
    + apply in_joined_rows. subst r. cbn. repeat split; try assumption.
      * rewrite Hjoin. now left.
      * now apply no_unsubscribe_row.
    + apply holds_where_clause.
      assert (Hs : Sql.holds (property_filter pid r) = true /\
                   Sql.holds (campaign_property_filter r) = true)
        by now apply (holds_property_filters pid c r eq_refl).
      destruct Hs as [Hs1 Hs2]. repeat split; try assumption.
      * apply Ht.
      * now apply holds_not_already_sent.
Qed.

Lemma map_flat_map {A B C} (g : B -> C) (F : A -> list B) (l : list A) :
  map g (flat_map F l) = flat_map (fun x => map g (F x)) l.
Proof.
  induction l as [|a l IH]; [reflexivity|]. simpl. now rewrite map_app, IH.
Qed.

Lemma flat_map_map {A B C} (F : B -> list C) (h : A -> B) (l : list A) :
  flat_map F (map h l) = flat_map (fun x => F (h x)) l.
Proof. induction l as [|a l IH]; [reflexivity|]. simpl. now rewrite IH. Qed.

(** The message type of a campaign is not read by the [FROM] clause... *)
Lemma joined_rows_retyped (t : string) (db : Database) (cid : uuid) :
  joined_rows (retyped t db) cid = map (retyped_row t) (joined_rows db cid).
Proof.
  unfold joined_rows. cbn [visitors properties feedback follow_up_campaigns
    unsubscribes retyped].
  rewrite SqlFacts.left_join_map by reflexivity.
  rewrite map_flat_map. apply flat_map_ext. intros v.
  rewrite map_flat_map. apply flat_map_ext. intros p.
  rewrite map_flat_map. apply flat_map_ext. intros f.
  rewrite map_flat_map, flat_map_map. apply flat_map_ext. intros c.
  now rewrite map_map.
Qed.

(** ... nor by the [WHERE] clause ... *)
Lemma where_clause_retyped (t : string) (db : Database) (cid : uuid)
    (pid : option uuid) (r : Joined) :
  where_clause (retyped t db) cid pid (retyped_row t r) = where_clause db cid pid r.
Proof.
  unfold where_clause, property_filter, campaign_property_filter, not_unsubscribed,
    trigger_filter, not_already_sent.
  cbn [retyped_row j_v j_p j_f j_c j_u retyped follow_up_logs].
  now destruct (j_c r).
Qed.

(** ... so the resolver returns the same rows whatever the message type. *)
Lemma eligible_retyped (t : string) (db : Database) (cid : uuid) (pid : option uuid) :
  get_eligible_visitors (retyped t db) cid pid = get_eligible_visitors db cid pid.
Proof.
  unfold get_eligible_visitors. rewrite joined_rows_retyped, SqlFacts.filter_map_comm.
  rewrite map_map.
  rewrite (filter_ext _ (fun r => Sql.holds (where_clause db cid pid r)))
    by (intros r; now rewrite where_clause_retyped).
  reflexivity.
Qed.

End ResolverFacts.

(* ===================================================================== *)
(** * Facts about the dispatch orchestrator *)
(* ===================================================================== *)

Module DispatchFacts.
Import Db Resolver Dispatch Spec Terms.

Lemma with_logs_same (db : Database) :
  with_logs db (follow_up_logs db ++ [])%list = db.
Proof. rewrite app_nil_r. destruct db; reflexivity. Qed.

Lemma render_empty (m : Template.Variables) : Template.replaceTemplateVariables "" m = "".
Proof. induction m as [|[k v] m IH]; [reflexivity | exact IH]. Qed.

Section WithEnv.
Variable E : Env.

(** Reading the property id leaves the state as it is. *)
Lemma actualPropertyId_state (visitor : VisitorData) (s : State E) :
  snd (actualPropertyId visitor s) = s.
Proof.
  unfold actualPropertyId, bind, read_db, ret.
  destruct (match property_id visitor with
            | Some pid => Nat.ltb (String.length pid) 30
            | None => true
            end); [|reflexivity].
  destruct (single _); reflexivity.
Qed.

(** A channel that is not required, or cannot be reached, is skipped. *)
Lemma send_email_skip (cid : uuid) (c : Campaign) (effective : string)
    (vars : Template.Variables) (row : VisitorData) (res : Results) (s : State E) :
  requires_email effective && Js.truthy (visitor_email row) = false ->
  send_email cid c effective vars row res s = (res, s).
Proof.
  unfold send_email, requires_email. intros H.
  destruct (_ || _); [|reflexivity].
  destruct (Js.truthy (visitor_email row)); [discriminate | reflexivity].
Qed.

Lemma send_sms_skip (cid : uuid) (c : Campaign) (effective : string)
    (vars : Template.Variables) (row : VisitorData) (res : Results) (s : State E) :
  requires_sms effective
    && (Js.truthy (visitor_phone row) && Js.truthy (c_sms_template c)) = false ->
  send_sms cid c effective vars row res s = (res, s).
Proof.
  unfold send_sms, requires_sms. intros H.
  destruct (_ || _); [|reflexivity].
  destruct (_ && _); [discriminate | reflexivity].
Qed.

(** The email channel when it is used: one transport call, one insert,
    one count. *)
Lemma send_email_sends (cid : uuid) (c : Campaign) (effective : string)
    (vars : Template.Variables) (row : VisitorData) (res : Results) (s : State E) :
  requires_email effective = true -> Js.truthy (visitor_email row) = true ->
  exists (r : SendResult) (w1 w2 : World E) (pid : option uuid) (ok : bool),
    let to := Js.or_empty (visitor_email row) in
    let subject :=
      Template.replaceTemplateVariables (Js.or_empty (c_email_subject c)) vars in
    let html :=
      Template.replaceTemplateVariables (Js.or_empty (c_email_template c)) vars in
    let entry :=
      log_row (visitor_id row) cid pid (c_admin_id c) "email" (visitor_email row) None
        (Some subject) html (if success r then "sent" else "failed")
        (Js.or_else (messageId r) None) (Js.or_else (error r) None) in
    sendEmail E (st_world s) to subject html (Js.strip_tags html) (c_email_from_name c)
      = (r, w1) /\
    insert_follow_up_log E w1 entry = (ok, w2) /\
    send_email cid c effective vars row res s
    = (count r "Email to " to res,
       {| st_db := if ok
                   then with_logs (st_db s) (follow_up_logs (st_db s) ++ [entry])%list
                   else st_db s;
          st_world := w2;
          st_outbox := (st_outbox s
                        ++ [Email to subject html (Js.strip_tags html)
                              (c_email_from_name c)])%list |}).
Proof.
  unfold send_email, requires_email. intros -> ->.
  unfold bind at 1, call_sendEmail.
  destruct (sendEmail E _ _ _ _ _ _) as [r w1] eqn:Hsend.
  unfold bind at 1.
  match goal with
  | |- context [actualPropertyId row ?s1] =>
      pose proof (actualPropertyId_state row s1) as Hpid;
      destruct (actualPropertyId row s1) as [pid s2]
  end.
  cbn [snd] in Hpid. subst s2.
  unfold bind at 1, logFollowUp, bind at 1, insert_log. cbn [st_world st_db st_outbox].
  destruct (insert_follow_up_log E w1 _) as [ok w2] eqn:Hins.
  exists r, w1, w2, pid, ok. cbv zeta.
  split; [reflexivity|]. split; [exact Hins|].
  destruct ok; reflexivity.
Qed.

Lemma send_sms_sends (cid : uuid) (c : Campaign) (effective : string)
    (vars : Template.Variables) (row : VisitorData) (res : Results) (s : State E) :
  requires_sms effective = true -> Js.truthy (visitor_phone row) = true ->
  Js.truthy (c_sms_template c) = true ->
  exists (r : SendResult) (w1 w2 : World E) (pid : option uuid) (ok : bool),
    let to := Js.or_empty (visitor_phone row) in
    let content :=
      Template.replaceTemplateVariables (Js.or_empty (c_sms_template c)) vars in
    let entry :=
      log_row (visitor_id row) cid pid (c_admin_id c) "sms" None (visitor_phone row)
        None content (if success r then "sent" else "failed")
        (Js.or_else (messageId r) None) (Js.or_else (error r) None) in
    sendSMS E (st_world s) to content = (r, w1) /\
    insert_follow_up_log E w1 entry = (ok, w2) /\
    send_sms cid c effective vars row res s
    = (count r "SMS to " to res,
       {| st_db := if ok
                   then with_logs (st_db s) (follow_up_logs (st_db s) ++ [entry])%list
                   else st_db s;
          st_world := w2;
          st_outbox := (st_outbox s ++ [Sms to content])%list |}).
Proof.
  unfold send_sms, requires_sms. intros -> -> ->. cbn [andb].
  unfold bind at 1, call_sendSMS.
  destruct (sendSMS E _ _ _) as [r w1] eqn:Hsend.
  unfold bind at 1.
  match goal with
  | |- context [actualPropertyId row ?s1] =>
      pose proof (actualPropertyId_state row s1) as Hpid;
      destruct (actualPropertyId row s1) as [pid s2]
  end.
  cbn [snd] in Hpid. subst s2.
  unfold bind at 1, logFollowUp, bind at 1, insert_log. cbn [st_world st_db st_outbox].
  destruct (insert_follow_up_log E w1 _) as [ok w2] eqn:Hins.
  exists r, w1, w2, pid, ok. cbv zeta.
  split; [reflexivity|]. split; [exact Hins|].
  destruct ok; reflexivity.
Qed.

Lemma single_some {R} (rows : list R) (r : R) : single rows = Some r -> rows = [r].
Proof.
  destruct rows as [|a [|b rows]]; simpl; try discriminate.
  now intros [= ->].
Qed.

(** The message type of the run is the one the loop computes. *)
Lemma run_type_effective (req : Request) (c : Campaign) (t : string) :
  run_type req c t -> effectiveMessageType req c = t.
Proof.
  unfold run_type, effectiveMessageType. intros [[H ->]|[H Hne]].
  - now rewrite H.
  - rewrite H. destruct t; [congruence | reflexivity].
Qed.

Lemma in_uuids (l : list string) (u : uuid) : In u (uuids E l) <-> named_in E l u.
Proof.
  unfold uuids, named_in. rewrite in_flat_map. split.
  - intros (t & Ht & Hu). exists t. split; [exact Ht|].
    destruct (uuid_in E t); [destruct Hu as [->|[]]; reflexivity | destruct Hu].
  - intros (t & Ht & Hu). exists t. split; [exact Ht|]. rewrite Hu. now left.
Qed.

(** The rows [.in('visitor_id', ...)] keeps. *)
Lemma in_narrowed (req : Request) (l : list VisitorData) (row : VisitorData) :
  In row (narrowed E req l) <->
  In row l /\ (listed req = [] \/ named_in E (listed req) (visitor_id row)).
Proof.
  unfold narrowed. destruct (listed req) as [|id more] eqn:Hl.
  - split; [intros H; split; auto | intros [H _]; exact H].
  - rewrite filter_In, existsb_exists. split.
    + intros [H (u & Hu & Heq)]. apply String.eqb_eq in Heq. subst u.
      split; [exact H|]. right. now apply in_uuids.
    + intros [H [Hn|Hn]]; [discriminate|]. split; [exact H|].
      exists (visitor_id row). split; [now apply in_uuids | apply String.eqb_refl].
Qed.

(** The visitors of a run are eligible visitors. *)
Lemma rows_of_run_eligible (req : Request) (cid : uuid) (db : Database)
    (row : VisitorData) :
  In row (rows_of_run E req cid db) ->
  In row (get_eligible_visitors db cid (property_param E req)).
Proof. unfold rows_of_run. intros H. now apply in_narrowed in H. Qed.


Lemma select_well_formed (req : Request) (cid : uuid) (db : Database) :
  well_formed E req -> select_visitors E req cid db = inr (rows_of_run E req cid db).
Proof. unfold well_formed, select_visitors, rows_of_run. now intros ->. Qed.

Lemma select_malformed (req : Request) (cid : uuid) (db : Database) :
  ~ well_formed E req ->
  select_visitors E req cid db = inl (invalid_uuid E (not_uuids E (cast_texts req))).
Proof.
  unfold well_formed, select_visitors.
  destruct (not_uuids E (cast_texts req)); [congruence | reflexivity].
Qed.

Lemma well_formed_dec (req : Request) : well_formed E req \/ ~ well_formed E req.
Proof.
  unfold well_formed. destruct (not_uuids E (cast_texts req)); [now left|].
  right. discriminate.
Qed.

(** A request whose campaign and admin are found. *)
Lemma serve_found (req : Request) (s : State E) (cid : uuid) (c : Campaign)
    (admin : Admin) :
  names_campaign E req cid ->
  campaign_of (st_db s) cid c ->
  admin_of (st_db s) c admin ->
  serve req s
  = match select_visitors E req cid (st_db s) with
    | inl message => (ServerError message, s)
    | inr [] => (NoEligibleVisitors, s)
    | inr rows =>
        let (res, s') := process_visitors req cid c admin no_results rows s in
        (Processed res (List.length rows), s')
    end.
Proof.
  intros [Ht Hid] Hc (aid & Ha & Hadm). unfold serve. rewrite Ht. cbn [negb].
  unfold bind at 1, read_db. rewrite Hid. unfold campaign_of in Hc.
  rewrite Hc. cbn [single]. rewrite Ha, Hadm. cbn [single].
  destruct (select_visitors E req cid (st_db s)) as [m|[|row rows]]; reflexivity.
Qed.

(** The ways a request ends. *)
Lemma serve_cases (req : Request) (s s' : State E) (resp : Response) :
  serve req s = (resp, s') ->
  (s' = s /\ exists message, resp = ServerError message) \/
  (exists cid c admin,
      names_campaign E req cid /\
      campaign_of (st_db s) cid c /\
      admin_of (st_db s) c admin /\
      well_formed E req /\
      let rows := rows_of_run E req cid (st_db s) in
      (rows = [] /\ s' = s /\ resp = NoEligibleVisitors) \/
      (rows <> [] /\
       exists res,
         resp = Processed res (List.length rows) /\
         process_visitors req cid c admin no_results rows s = (res, s'))).
Proof.
  intros H. unfold serve in H.
  destruct (Js.truthy (campaignId req)) eqn:Ht; cbn [negb] in H;
    [|injection H as <- <-; left; eauto].
  unfold bind, read_db in H.
  destruct (uuid_in E (Js.or_empty (campaignId req))) as [cid|] eqn:Hid;
    [|injection H as <- <-; left; eauto].
  destruct (single (filter _ (follow_up_campaigns (st_db s)))) as [c|] eqn:Hc;
    [|injection H as <- <-; left; eauto].
  apply single_some in Hc.
  destruct (c_admin_id c) as [aid|] eqn:Haid;
    [|injection H as <- <-; left; eauto].
  destruct (single (filter _ (admins (st_db s)))) as [admin|] eqn:Hadm;
    [|injection H as <- <-; left; eauto].
  apply single_some in Hadm.
  destruct (well_formed_dec req) as [Hwf|Hwf].
  - rewrite (select_well_formed req cid (st_db s) Hwf) in H.
    right. exists cid, c, admin.
    split; [now split|]. split; [exact Hc|]. split; [now exists aid|].
    split; [exact Hwf|]. cbv zeta.
    destruct (rows_of_run E req cid (st_db s)) as [|row rows'] eqn:Hrows.
    + injection H as <- <-. left. auto.
    + destruct (process_visitors req cid c admin _ (row :: rows') s) as [res s1] eqn:Hp.
      injection H as <- <-. right. split; [discriminate|].
      exists res. split; reflexivity.
  - rewrite (select_malformed req cid (st_db s) Hwf) in H.
    injection H as <- <-. left. eauto.
Qed.

(** A text that is no uuid where a property id or a visitor id is asked
    for: the answer is the error of the database, and nothing is done. *)
Lemma serve_malformed (req : Request) (s : State E) (cid : uuid) (c : Campaign)
    (admin : Admin) :
  names_campaign E req cid ->
  campaign_of (st_db s) cid c ->
  admin_of (st_db s) c admin ->
  ~ well_formed E req ->
  serve req s = (ServerError (invalid_uuid E (not_uuids E (cast_texts req))), s).
Proof.
  intros Hn Hc Ha Hwf. rewrite (serve_found req s cid c admin Hn Hc Ha).
  now rewrite (select_malformed req cid (st_db s) Hwf).
Qed.

Lemma serve_well_formed (req : Request) (s : State E) (cid : uuid) (c : Campaign)
    (admin : Admin) :
  names_campaign E req cid ->
  campaign_of (st_db s) cid c ->
  admin_of (st_db s) c admin ->
  well_formed E req ->
  serve req s
  = match rows_of_run E req cid (st_db s) with
    | [] => (NoEligibleVisitors, s)
    | rows =>
        let (res, s') := process_visitors req cid c admin no_results rows s in
        (Processed res (List.length rows), s')
    end.
Proof.
  intros Hn Hc Ha Hwf. rewrite (serve_found req s cid c admin Hn Hc Ha).
  rewrite (select_well_formed req cid (st_db s) Hwf).
  destruct (rows_of_run E req cid (st_db s)); reflexivity.
Qed.

(** ** The attempts of a run *)

Lemma attempts_effect_nil (s : State E) (res : Results) : attempts_effect s s res res [].
Proof.
  unfold attempts_effect. cbn. rewrite with_logs_same, !app_nil_r.
  repeat split; lia.
Qed.

Lemma attempts_effect_app (s s1 s2 : State E) (res res1 res2 : Results)
    (l1 l2 : list Attempt) :
  attempts_effect s s1 res res1 l1 -> attempts_effect s1 s2 res1 res2 l2 ->
  attempts_effect s s2 res res2 (l1 ++ l2)%list.
Proof.
  intros (Ho1 & Hd1 & Hs1 & Hf1 & He1) (Ho2 & Hd2 & Hs2 & Hf2 & He2).
  unfold attempts_effect.
  rewrite Ho2, Hd2, Hs2, Hf2, He2, Ho1, Hd1, Hs1, Hf1, He1.
  cbn [follow_up_logs with_logs].
  rewrite !filter_app, !map_app, !length_app, <- !app_assoc.
  repeat split; lia.
Qed.

Lemma attempts_effect_one (s : State E) (res : Results) (a : Attempt) (w : World E)
    (label to : string) :
  error_line a = label ++ to ++ ": " ++ Js.interpolate (error (a_result a)) ->
  attempts_effect s
    {| st_db := if a_stored a
                then with_logs (st_db s) (follow_up_logs (st_db s) ++ [a_entry a])%list
                else st_db s;
       st_world := w;
       st_outbox := (st_outbox s ++ [a_call a])%list |}
    res (count (a_result a) label to res) [a].
Proof.
  intros Hline. unfold attempts_effect, count, succeeded, not_succeeded.
  cbn [st_db st_outbox map filter].
  destruct (a_stored a), (success (a_result a)); cbn [negb map List.length sent failed errors];
    rewrite ?with_logs_same, ?app_nil_r, ?Hline; repeat split; lia.
Qed.

(** The email channel for one row. *)
Lemma send_email_trace (cid : uuid) (c : Campaign) (admin : Admin) (effective : string)
    (row : VisitorData) (res res' : Results) (s s' : State E) :
  send_email cid c effective (templateVariables row admin) row res s = (res', s') ->
  exists l,
    map a_call l
    = (if requires_email effective && Js.truthy (visitor_email row)
       then [email_for c admin row] else []) /\
    Forall (fun a => entry_for c cid row a /\ answered E a) l /\
    attempts_effect s s' res res' l.
Proof.
  intros H. destruct (requires_email effective && Js.truthy (visitor_email row)) eqn:Hreq.
  - apply andb_true_iff in Hreq as [H1 H2].
    destruct (send_email_sends cid c effective (templateVariables row admin) row res s
                H1 H2) as (r & w1 & w2 & pid & ok & Hsend & Hins & Heq).
    cbv zeta in Hsend, Hins, Heq. rewrite Heq in H. injection H as <- <-.
    match type of Hins with
    | insert_follow_up_log E w1 ?e = _ =>
        exists [{| a_call := email_for c admin row; a_result := r;
                   a_entry := e; a_stored := ok |}]
    end.
    split; [reflexivity|]. split.
    + constructor; [|constructor]. split.
      * unfold entry_for. cbn. repeat split; reflexivity.
      * split; [exists (st_world s) | exists w1]; cbn [a_result a_call a_stored a_entry email_for];
          [now rewrite Hsend | now rewrite Hins].
    + match goal with
      | |- attempts_effect _ _ _ _ [?a] =>
          exact (attempts_effect_one s res a w2 "Email to "
                   (Js.or_empty (visitor_email row)) eq_refl)
      end.
  - rewrite (send_email_skip cid c effective _ row res s Hreq) in H.
    injection H as <- <-. exists []. split; [reflexivity|]. split; [constructor|].
    apply attempts_effect_nil.
Qed.

(** The SMS channel for one row. *)
Lemma send_sms_trace (cid : uuid) (c : Campaign) (admin : Admin) (effective : string)
    (row : VisitorData) (res res' : Results) (s s' : State E) :
  send_sms cid c effective (templateVariables row admin) row res s = (res', s') ->
  exists l,
    map a_call l
    = (if requires_sms effective
          && (Js.truthy (visitor_phone row) && Js.truthy (c_sms_template c))
       then [sms_for c admin row] else []) /\
    Forall (fun a => entry_for c cid row a /\ answered E a) l /\
    attempts_effect s s' res res' l.
Proof.
  intros H.
  destruct (requires_sms effective
            && (Js.truthy (visitor_phone row) && Js.truthy (c_sms_template c))) eqn:Hreq.
  - apply andb_true_iff in Hreq as [H1 H2]. apply andb_true_iff in H2 as [H2 H3].
    destruct (send_sms_sends cid c effective (templateVariables row admin) row res s
                H1 H2 H3) as (r & w1 & w2 & pid & ok & Hsend & Hins & Heq).
    cbv zeta in Hsend, Hins, Heq. rewrite Heq in H. injection H as <- <-.
    match type of Hins with
    | insert_follow_up_log E w1 ?e = _ =>
        exists [{| a_call := sms_for c admin row; a_result := r;
                   a_entry := e; a_stored := ok |}]
    end.
    split; [reflexivity|]. split.
    + constructor; [|constructor]. split.
      * unfold entry_for. cbn. repeat split; reflexivity.
      * split; [exists (st_world s) | exists w1]; cbn [a_result a_call a_stored a_entry sms_for];
          [now rewrite Hsend | now rewrite Hins].
    + match goal with
      | |- attempts_effect _ _ _ _ [?a] =>
          exact (attempts_effect_one s res a w2 "SMS to "
                   (Js.or_empty (visitor_phone row)) eq_refl)
      end.
  - rewrite (send_sms_skip cid c effective _ row res s Hreq) in H.
    injection H as <- <-. exists []. split; [reflexivity|]. split; [constructor|].
    apply attempts_effect_nil.
Qed.

(** The body of the loop, for one row. *)
Lemma process_visitor_trace (req : Request) (cid : uuid) (c : Campaign) (admin : Admin)
    (res res' : Results) (row : VisitorData) (s s' : State E) :
  process_visitor req cid c admin res row s = (res', s') ->
  exists l,
    row_attempts E c admin (effectiveMessageType req c) cid row l /\
    attempts_effect s s' res res' l.
Proof.
  unfold process_visitor, bind.
  destruct (send_email cid c _ _ row res s) as [res1 s1] eqn:Hemail.
  intros Hsms.
  apply send_email_trace in Hemail as (l1 & Hc1 & Hf1 & He1).
  apply send_sms_trace in Hsms as (l2 & Hc2 & Hf2 & He2).
  exists (l1 ++ l2)%list. split.
  - split.
    + rewrite map_app, Hc1, Hc2. reflexivity.
    + apply Forall_app. now split.
  - exact (attempts_effect_app s s1 s' res res1 res' l1 l2 He1 He2).
Qed.

(** The whole loop. *)
Lemma process_visitors_trace (req : Request) (cid : uuid) (c : Campaign) (admin : Admin)
    (rows : list VisitorData) :
  forall (res res' : Results) (s s' : State E),
    process_visitors req cid c admin res rows s = (res', s') ->
    exists trs,
      run_trace c admin (effectiveMessageType req c) cid rows s s' res res' trs.
Proof.
  induction rows as [|row rows IH]; intros res res' s s' H.
  - injection H as <- <-. exists []. split; [constructor | apply attempts_effect_nil].
  - cbn [process_visitors] in H. unfold bind in H.
    destruct (process_visitor req cid c admin res row s) as [res1 s1] eqn:H1.
    apply process_visitor_trace in H1 as (l & Hl & He).
    apply IH in H as (trs & Hrows & Hrest).
    exists (l :: trs). split; [now constructor|].
    cbn [concat]. exact (attempts_effect_app s s1 s' res res1 res' _ _ He Hrest).
Qed.

(** A run whose campaign and admin are found and whose ids are uuids. *)
Lemma serve_run_over (req : Request) (s : State E) (cid : uuid) (c : Campaign)
    (admin : Admin) (t : string) :
  names_campaign E req cid ->
  campaign_of (st_db s) cid c ->
  admin_of (st_db s) c admin ->
  well_formed E req ->
  run_type req c t ->
  let rows := rows_of_run E req cid (st_db s) in
  exists trs, run_over c admin t cid rows s (serve req s) rows trs /\
              (rows = [] -> serve req s = (NoEligibleVisitors, s)).
Proof.
  intros Hn Hc Ha Hwf Ht rows.
  rewrite (serve_well_formed req s cid c admin Hn Hc Ha Hwf). fold rows.
  apply run_type_effective in Ht.
  destruct rows as [|row0 rows0] eqn:Hrows.
  - exists []. split; [|reflexivity]. split; [constructor|].
    exists no_results. split; [|reflexivity].
    split; [constructor | apply attempts_effect_nil].
  - rewrite <- Hrows. cbv zeta.
    destruct (process_visitors req cid c admin no_results rows s) as [res s1] eqn:Hp.
    apply process_visitors_trace in Hp as (trs & Htr). rewrite Ht in Htr.
    exists trs. split; [|rewrite Hrows; discriminate].
    split; [apply Permutation_refl|]. exists res. cbn [fst snd].
    split; [exact Htr|]. rewrite Hrows. reflexivity.
Qed.

End WithEnv.

End DispatchFacts.

(* ===================================================================== *)
(** * Facts about the attempts of a run *)
(* ===================================================================== *)

Module TraceFacts.
Import Db Resolver Dispatch Spec Terms.

Lemma Forall2_concat_in {A B} (R : A -> list B -> Prop) (l1 : list A)
    (l2 : list (list B)) (b : B) :
  Forall2 R l1 l2 -> In b (concat l2) ->
  exists x l, In x l1 /\ In b l /\ R x l.
Proof.
  induction 1 as [|a l l1 l2 HR _ IH]; intros Hin; [destruct Hin|].
  cbn [concat] in Hin. apply in_app_or in Hin as [Hin|Hin].
  - exists a, l. split; [now left|]. now split.
  - destruct (IH Hin) as (x & l' & Hx & Hb & Hxl). exists x, l'.
    split; [now right|]. now split.
Qed.


(** The calls a row asks for go to the address or number of the row. *)
Lemma messages_for_addressed (c : Campaign) (admin : Admin) (t : string)
    (row : VisitorData) (msg : Outbound) :
  In msg (messages_for c admin t row) -> addressed msg row.
Proof.
  unfold messages_for. intros H. apply in_app_or in H as [H|H].
  - destruct (requires_email t && Js.truthy (visitor_email row)) eqn:Hreq;
      [|destruct H].
    destruct H as [<-|[]]. apply andb_true_iff in Hreq as [_ Hm]. now split.
  - destruct (requires_sms t
              && (Js.truthy (visitor_phone row) && Js.truthy (c_sms_template c)))
      eqn:Hreq; [|destruct H].
    destruct H as [<-|[]]. apply andb_true_iff in Hreq as [_ Hm].
    apply andb_true_iff in Hm as [Hm _]. now split.
Qed.

Lemma messages_for_email_only (c : Campaign) (admin : Admin) (row : VisitorData) :
  Js.truthy (visitor_email row) = true ->
  Js.truthy (visitor_phone row) && Js.truthy (c_sms_template c) = false ->
  messages_for c admin "both" row = [email_for c admin row].
Proof. unfold messages_for. intros -> ->. reflexivity. Qed.

Lemma messages_for_no_template (c : Campaign) (admin : Admin) (t : string)
    (row : VisitorData) (to message : string) :
  Js.truthy (c_sms_template c) = false ->
  ~ In (Sms to message) (messages_for c admin t row).
Proof.
  unfold messages_for. intros Hs H. rewrite Hs, !andb_false_r in H.
  rewrite app_nil_r in H.
  destruct (requires_email t && Js.truthy (visitor_email row)); [|destruct H].
  destruct H as [H|[]]. discriminate H.
Qed.

Section Attempts.
Variable E : Env.
Variables (c : Campaign) (admin : Admin) (t : string) (cid : uuid).

(** Every attempt of a run is one of the attempts of a row of the run. *)
Lemma attempt_of_row (rows : list VisitorData) (trs : list (list Attempt))
    (a : Attempt) :
  Forall2 (row_attempts E c admin t cid) rows trs -> In a (concat trs) ->
  exists row,
    In row rows /\ entry_for c cid row a /\ answered E a /\
    In (a_call a) (messages_for c admin t row).
Proof.
  intros H Hin. destruct (Forall2_concat_in _ rows trs a H Hin)
    as (row & l & Hrow & Ha & Hcalls & Hall).
  exists row. split; [exact Hrow|]. rewrite Forall_forall in Hall.
  destruct (Hall a Ha) as [He Hw]. split; [exact He|]. split; [exact Hw|].
  rewrite <- Hcalls. now apply in_map.
Qed.

(** The calls of a run are the calls its rows ask for, row after row. *)
Lemma calls_of_run (rows : list VisitorData) (trs : list (list Attempt)) :
  Forall2 (row_attempts E c admin t cid) rows trs ->
  map a_call (concat trs) = flat_map (messages_for c admin t) rows.
Proof.
  induction 1 as [|row l rows trs [Hcalls _] _ IH]; [reflexivity|].
  cbn [concat flat_map]. now rewrite map_app, Hcalls, IH.
Qed.

Lemma calls_of_row (rows : list VisitorData) (trs : list (list Attempt))
    (row : VisitorData) :
  Forall2 (row_attempts E c admin t cid) rows trs -> In row rows ->
  incl (messages_for c admin t row) (map a_call (concat trs)).
Proof.
  intros H Hin msg Hmsg. rewrite (calls_of_run rows trs H).
  apply in_flat_map. now exists row.
Qed.


(** The entries a run stores are entries of the run. *)
Lemma stored_entries (rows : list VisitorData) (trs : list (list Attempt))
    (fl : FollowUpLog) :
  Forall2 (row_attempts E c admin t cid) rows trs ->
  In fl (map a_entry (filter a_stored (concat trs))) ->
  exists row a,
    In row rows /\ In a (concat trs) /\ a_stored a = true /\ fl = a_entry a /\
    entry_for c cid row a.
Proof.
  intros H Hin. apply in_map_iff in Hin as (a & <- & Ha).
  apply filter_In in Ha as [Ha Hst].
  destruct (attempt_of_row rows trs a H Ha) as (row & Hrow & He & _).
  exists row, a. auto.
Qed.

End Attempts.

Section Runs.
Variable E : Env.

(** Whatever the request, a run adds to the log and to the outbox only:
    entries for rows of the campaign the request names, and calls to the
    addresses and numbers of such rows. *)
Lemma serve_adds (req : Request) (s : State E) :
  exists added out,
    st_db (snd (serve req s))
    = with_logs (st_db s) (follow_up_logs (st_db s) ++ added)%list /\
    st_outbox (snd (serve req s)) = (st_outbox s ++ out)%list /\
    (forall fl, In fl added ->
       exists cid row,
         names_campaign E req cid /\ In row (rows_of_run E req cid (st_db s)) /\
         fl_visitor_id fl = visitor_id row /\ fl_campaign_id fl = Some cid) /\
    (forall msg, In msg out ->
       exists cid row,
         names_campaign E req cid /\ In row (rows_of_run E req cid (st_db s)) /\
         addressed msg row).
Proof.
  destruct (serve req s) as [resp s1] eqn:Hserve. cbn [snd].
  apply DispatchFacts.serve_cases in Hserve.
  destruct Hserve as [[-> _]|(cid & c & admin & Hn & Hc & Ha & Hwf & Hrun)].
  { exists [], []. rewrite DispatchFacts.with_logs_same, app_nil_r.
    repeat split; intros ? []. }
  cbv zeta in Hrun. destruct Hrun as [(_ & -> & _)|(_ & res & _ & Hp)].
  { exists [], []. rewrite DispatchFacts.with_logs_same, app_nil_r.
    repeat split; intros ? []. }
  apply DispatchFacts.process_visitors_trace in Hp as (trs & Hrows & Ho & Hd & _).
  exists (map a_entry (filter a_stored (concat trs))), (map a_call (concat trs)).
  split; [exact Hd|]. split; [exact Ho|]. split.
  - intros fl Hfl.
    destruct (stored_entries E c admin _ cid _ trs fl Hrows Hfl)
      as (row & a & Hrow & _ & _ & -> & Hv & Hcid & _).
    exists cid, row. auto.
  - intros msg Hmsg. apply in_map_iff in Hmsg as (a & <- & Hina).
    destruct (attempt_of_row E c admin _ cid _ trs a Hrows Hina)
      as (row & Hrow & _ & _ & Hcall).
    exists cid, row. split; [exact Hn|]. split; [exact Hrow|].
    now apply messages_for_addressed in Hcall.
Qed.

End Runs.

End TraceFacts.

(* ===================================================================== *)
(** * The template renderer: claims C4, C9 and C6 *)
(* ===================================================================== *)

Example render_jane :
  Template.replaceTemplateVariables "{{visitor_name}}{{property_name}}"
    [("visitor_name", Some "Jane"); ("property_name", Some "Maple House")]
  = "JaneMaple House".
Proof. reflexivity. Qed.

Example render_dollar :
  Template.replaceTemplateVariables "a{{x}}b{{x}}" [("x", Some "[$&|$`|$'|$$|$1]")]
  = "a[{{x}}|a|b{{x}}|$|$1]b[{{x}}|a{{x}}b||$|$1]".
Proof. reflexivity. Qed.

Example strip_tags_ex :
  Js.strip_tags "<p>Hi <b>Jane</b></p> 1 < 2 > 0 <x" = "Hi Jane 1  0 <x".
Proof. reflexivity. Qed.

(** C4, as stated, fails: with an empty mapping the two placeholders are not
    replaced by the empty string, the template comes back as it was; and a
    placeholder whose name the mapping lacks stays next to one it has. *)
Lemma C4_absent_placeholder_kept :
  Template.replaceTemplateVariables "{{visitor_name}}{{property_name}}" []
  = "{{visitor_name}}{{property_name}}" /\
  Template.replaceTemplateVariables "{{visitor_name}}{{property_name}}" [] <> "" /\
  Template.replaceTemplateVariables "{{visitor_name}}{{property_name}}"
    [("visitor_name", Some "Jane")]
  = "Jane{{property_name}}".
Proof. repeat split. discriminate. Qed.

(** C4, amended: for a mapping whose keys are names (letters, digits and
    underscores, not all digits) the renderer replaces the placeholders of
    the keys of the mapping and no other.  A template that holds no
    placeholder of a key of the mapping, so every template under the empty
    mapping, is returned unchanged; a placeholder whose name the mapping
    lacks is in the output wherever it is in the template.  The pass of a
    key whose value is null, undefined or empty takes every placeholder of
    the key out, wherever it stands: what is before the first one is
    copied, the placeholder is dropped, and the pass goes on behind it.
    The passes follow each other in the order of the entries. *)
Theorem C4_only_mapped_names_replaced (m : Template.Variables) :
  Forall (fun e => Template.word_key (fst e) = true) m ->
  (forall t, Template.replaceTemplateVariables t [] = t) /\
  (forall t, Spec.no_placeholder_of m t -> Template.replaceTemplateVariables t m = t) /\
  (forall t key,
      Template.word_key key = true -> ~ In key (map fst m) ->
      Js.includes (Template.placeholder key) t = true ->
      Js.includes (Template.placeholder key) (Template.replaceTemplateVariables t m)
      = true) /\
  (forall key value a b,
      In (key, value) m -> Js.or_empty value = "" ->
      Js.includes (Template.placeholder key) a = false ->
      Template.replaceTemplateVariables (a ++ Template.placeholder key ++ b)
        [(key, value)]
      = a ++ Template.replaceTemplateVariables b [(key, value)]) /\
  (forall t e rest,
      m = e :: rest ->
      Template.replaceTemplateVariables t m
      = Template.replaceTemplateVariables (Template.replaceTemplateVariables t [e]) rest).
Proof.
  intros Hm. split; [reflexivity|]. split; [|split; [|split]].
  - intros t. apply TemplateFacts.render_no_placeholder.
  - intros t key Hk Hno. now apply TemplateFacts.render_keeps.
  - intros key value a b Hin Hv Ha.
    rewrite Forall_forall in Hm. specialize (Hm _ Hin). cbn [fst] in Hm.
    apply TemplateFacts.word_key_no_brace in Hm as [Hk _].
    cbn [Template.replaceTemplateVariables fold_left Template.replace_entry].
    rewrite Hv. now rewrite TemplateFacts.replace_all_at_plain.
  - intros t e rest ->. apply TemplateFacts.render_cons.
Qed.

Lemma C4_only_mapped_names_replaced_witness :
  let m := [("admin_phone", None); ("admin_name", Some "Alex Agent")] in
  Js.includes (Template.placeholder "visitor_name")
    (Template.replaceTemplateVariables "{{admin_name}} for {{visitor_name}}" m) = true /\
  Template.replaceTemplateVariables "Call {{admin_phone}} or {{admin_phone}}!"
    [("admin_phone", None)]
  = "Call " ++ Template.replaceTemplateVariables " or {{admin_phone}}!"
                 [("admin_phone", None)].
Proof.
  intros m.
  assert (Hm : Forall (fun e => Template.word_key (fst e) = true) m)
    by (repeat constructor).
  split.
  - apply (proj1 (proj2 (proj2 (C4_only_mapped_names_replaced m Hm)))).
    + reflexivity.
    + intros [H|[H|[]]]; discriminate H.
    + reflexivity.
  - apply (proj1 (proj2 (proj2 (proj2 (C4_only_mapped_names_replaced m Hm))))
             "admin_phone" None "Call " " or {{admin_phone}}!").
    + now left.
    + reflexivity.
    + reflexivity.
Defined.

(** C9, as stated, fails.  A placeholder brought in by the value of one
    entry is expanded by the pass of a later entry: a visitor whose name is
    the text of the admin_email placeholder gets the admin's address.  And a
    second rendering changes the output when a value carries its own
    placeholder. *)
Lemma C9_later_entries_expand_values :
  Template.replaceTemplateVariables "Hi {{visitor_name}}"
    (Dispatch.templateVariables
       (Sample.row (Sample.visitor Sample.jane_id "{{admin_email}}" None None))
       Sample.alex)
  = "Hi alex@agency.example" /\
  (let m := [("visitor_name", Some "{{visitor_name}}!")] in
   Template.replaceTemplateVariables "Hi {{visitor_name}}" m = "Hi {{visitor_name}}!" /\
   Template.replaceTemplateVariables
     (Template.replaceTemplateVariables "Hi {{visitor_name}}" m) m
   = "Hi {{visitor_name}}!!").
Proof. repeat split. Qed.

(** C9, amended: for a mapping whose keys are names the renderer makes one
    left-to-right replacement pass per entry, in the order of the entries,
    each over the output of the pass before.  In the pass of a key, what is
    before the first placeholder of the key is copied and the placeholder
    is replaced by the value with its dollar patterns expanded as
    [String.prototype.replace] does ([$$], [$&], [$`], [$']), which is the
    value itself when it holds no dollar sign; the text put in is not
    scanned again in that pass, the scan goes on behind the placeholder;
    the passes of later entries do scan it.  Rendering the output again
    with the same mapping leaves it unchanged whenever the output holds no
    placeholder of a key of the mapping. *)
Theorem C9_one_pass_per_entry (m : Template.Variables) :
  Forall (fun e => Template.word_key (fst e) = true) m ->
  (forall t m1 m2,
      m = (m1 ++ m2)%list ->
      Template.replaceTemplateVariables t m
      = Template.replaceTemplateVariables (Template.replaceTemplateVariables t m1) m2) /\
  (forall key v a b,
      In (key, Some v) m ->
      Js.includes (Template.placeholder key) a = false ->
      Template.replaceTemplateVariables (a ++ Template.placeholder key ++ b)
        [(key, Some v)]
      = a ++ Js.GetSubstitution (Template.placeholder key) a b v
          ++ Js.replace_scan (Template.placeholder key) v 0
               (a ++ Template.placeholder key) b) /\
  (forall key v a b,
      In (key, Some v) m -> Spec.plain v = true ->
      Js.includes (Template.placeholder key) a = false ->
      Template.replaceTemplateVariables (a ++ Template.placeholder key ++ b)
        [(key, Some v)]
      = a ++ v ++ Template.replaceTemplateVariables b [(key, Some v)]) /\
  (forall t,
      Spec.no_placeholder_of m (Template.replaceTemplateVariables t m) ->
      Template.replaceTemplateVariables (Template.replaceTemplateVariables t m) m
      = Template.replaceTemplateVariables t m).
Proof.
  intros Hm. rewrite Forall_forall in Hm. split; [|split; [|split]].
  - intros t m1 m2 ->. apply TemplateFacts.render_app.
  - intros key v a b Hin Ha. specialize (Hm _ Hin). cbn [fst] in Hm.
    apply TemplateFacts.word_key_no_brace in Hm as [Hk _].
    cbn [Template.replaceTemplateVariables fold_left Template.replace_entry Js.or_empty].
    now apply TemplateFacts.replace_all_at.
  - intros key v a b Hin Hv Ha. specialize (Hm _ Hin). cbn [fst] in Hm.
    apply TemplateFacts.word_key_no_brace in Hm as [Hk _].
    cbn [Template.replaceTemplateVariables fold_left Template.replace_entry Js.or_empty].
    now apply TemplateFacts.replace_all_at_plain.
  - intros t. apply TemplateFacts.render_no_placeholder.
Qed.

Lemma C9_one_pass_per_entry_witness :
  let m := [("visitor_name", Some "{{visitor_name}}"); ("admin_name", Some "US$$ & $&")] in
  Template.replaceTemplateVariables "Dear {{visitor_name}}, {{visitor_name}}"
    [("visitor_name", Some "{{visitor_name}}")]
  = "Dear " ++ "{{visitor_name}}"
      ++ Template.replaceTemplateVariables ", {{visitor_name}}"
           [("visitor_name", Some "{{visitor_name}}")] /\
  Template.replaceTemplateVariables "From {{admin_name}}." [("admin_name", Some "US$$ & $&")]
  = "From " ++ "US$ & {{admin_name}}"
      ++ Js.replace_scan "{{admin_name}}" "US$$ & $&" 0 "From {{admin_name}}" ".".
Proof.
  intros m.
  assert (Hm : Forall (fun e => Template.word_key (fst e) = true) m)
    by (repeat constructor).
  split.
  - apply (proj1 (proj2 (proj2 (C9_one_pass_per_entry m Hm)))
             "visitor_name" "{{visitor_name}}" "Dear " ", {{visitor_name}}").
    + now left.
    + reflexivity.
    + reflexivity.
  - apply (proj1 (proj2 (C9_one_pass_per_entry m Hm))
             "admin_name" "US$$ & $&" "From " ".").
    + right. now left.
    + reflexivity.
Defined.

(** C6: the mapping [serve] renders with has six names, not twelve.  The
    names visitor_email, visitor_phone, visit_date, feedback_rating,
    feedback_comments and interested, which validations.ts accepts and
    FOLLOW_UP_SETUP.md lists as available, are not in it, so their
    placeholders reach the recipient as literal text. *)
Theorem C6_six_names_only :
  (forall visitor admin,
      map fst (Dispatch.templateVariables visitor admin)
      = ["visitor_name"; "property_name"; "property_address";
         "admin_name"; "admin_email"; "admin_phone"]) /\
  (let c := Sample.campaign "email" "all" (Some "Your visit on {{visit_date}}")
              (Some "Hi {{visitor_name}}, we will write to {{visitor_email}}.") None in
   let db := Sample.database [Sample.jane] c [] [] in
   Dispatch.st_outbox (snd (Dispatch.serve (Sample.request None) (Sample.start true db)))
   = [Dispatch.Email "jane@example.com" "Your visit on {{visit_date}}"
        "Hi Jane, we will write to {{visitor_email}}."
        "Hi Jane, we will write to {{visitor_email}}."
        (Some "Open House Team")]).
Proof. split; reflexivity. Qed.

(* ===================================================================== *)
(** * The eligibility resolver: claims C1 and C3 *)
(* ===================================================================== *)

Section Resolution.
Import Db Resolver Dispatch Spec Terms.
Variable E : Env.






(** C3: for a campaign with trigger condition [interested], the visitors
    the resolver returns before unsubscribe and duplicate suppression are
    exactly the property-scoped visitors with a feedback record whose
    [interested] is true; with [no_feedback], exactly the property-scoped
    visitors without a feedback record; with [all] and [manual], exactly
    the property-scoped visitors. *)
Theorem C3_trigger_filter (db : Database) (cid : uuid) (pid : option uuid)
    (c : Campaign) (V : uuid) :
  campaign_of db cid c ->
  let pool := ids (get_eligible_visitors (before_suppression db) cid pid) in
  let scoped v := In v (visitors db) /\ v_id v = V /\ property_scoped pid c v in
  (c_trigger_condition c = "interested" ->
   (In V pool <-> exists v, scoped v /\ interested_feedback db v)) /\
  (c_trigger_condition c = "no_feedback" ->
   (In V pool <-> exists v, scoped v /\ no_feedback db v)) /\
  (c_trigger_condition c = "all" \/ c_trigger_condition c = "manual" ->
   (In V pool <-> exists v, scoped v)).
Proof.
  intros Hc pool scoped.
  assert (Hiff : In V pool <->
                 exists v, scoped v /\ trigger_selects db c v).
  { subst pool scoped. cbv beta.
    rewrite (ResolverFacts.eligible_iff (before_suppression db) cid pid c V Hc).
    split.
    - intros (v & Hv & Hid & Hs & Ht & _ & _). exists v.
      exact (conj (conj Hv (conj Hid Hs)) Ht).
    - intros (v & (Hv & Hid & Hs) & Ht). exists v.
      refine (conj Hv (conj Hid (conj Hs (conj Ht (conj _ _))))).
      + intros (u & [] & _).
      + intros (fl & [] & _). }
  rewrite Hiff. unfold trigger_selects. split; [|split]; intros Ht; split.
  - intros (v & Hs & [[_ H]|[[H _]|[H|H]]]); try congruence. now exists v.
  - intros (v & Hs & Hf). exists v. split; [assumption|]. left. now split.
  - intros (v & Hs & [[H _]|[[_ H]|[H|H]]]); try congruence. now exists v.
  - intros (v & Hs & Hf). exists v. split; [assumption|]. right. left. now split.
  - intros (v & Hs & _). now exists v.
  - intros (v & Hs). exists v. split; [assumption|]. right. right. assumption.
Qed.

End Resolution.


(** C3 at work: of Jane (interested), Bob (no feedback) and Cy (not
    interested), an [interested] campaign selects Jane. *)
Lemma C3_trigger_filter_witness :
  let c := Sample.welcome "email" "interested" in
  let db := Sample.database [Sample.jane; Sample.bob; Sample.cy] c [] [] in
  In Sample.jane_id
    (Resolver.ids (Resolver.get_eligible_visitors (Spec.before_suppression db)
                     Sample.campaign_id None)) <->
  exists v, (In v (Db.visitors db) /\ Db.v_id v = Sample.jane_id /\
             Spec.property_scoped None c v) /\
            Spec.interested_feedback db v.
Proof.
  intros c db.
  apply (C3_trigger_filter db Sample.campaign_id None c Sample.jane_id);
    reflexivity.
Defined.

(* ===================================================================== *)
(** * Unsubscribes and explicit selection: claims C2 and C5 *)
(* ===================================================================== *)

(** C2, as stated, fails.  Jane has unsubscribed from email only.  She
    would be eligible for the SMS campaign if the entry were not there, the
    campaign does not require email, and yet the resolver leaves her out;
    and a run of a [both] campaign sends her no text message either. *)
Lemma C2_email_unsubscribe_blocks_sms :
  let db t := Sample.database [Sample.jane] (Sample.welcome t "all")
                [Sample.jane_email_only] [] in
  Resolver.ids (Resolver.get_eligible_visitors (Db.with_unsubscribes (db "sms") [])
                  Sample.campaign_id None) = [Sample.jane_id] /\
  Spec.requires_email (Db.c_message_type (Sample.welcome "sms" "all")) = false /\
  Resolver.get_eligible_visitors (db "sms") Sample.campaign_id None = [] /\
  Dispatch.serve (Sample.request None) (Sample.start true (db "both"))
  = (Dispatch.NoEligibleVisitors, Sample.start true (db "both")).
Proof. repeat split. Qed.

(** C5, as stated, fails for the empty selection: an empty [visitorIds]
    list is treated like an absent one, and all three eligible visitors are
    written to. *)
Lemma C5_empty_selection_selects_all :
  let db := Sample.database [Sample.jane; Sample.bob; Sample.cy]
              (Sample.welcome "email" "all") [] [] in
  let run := Dispatch.serve (Sample.request (Some [])) (Sample.start true db) in
  Resolver.ids (Spec.rows_of_run (Sample.env true) (Sample.request (Some []))
                  Sample.campaign_id db)
  = [Sample.jane_id; Sample.bob_id; Sample.cy_id] /\
  fst run = Dispatch.Processed
              {| Dispatch.sent := 3; Dispatch.failed := 0; Dispatch.errors := [] |} 3 /\
  map Db.fl_visitor_id (Db.follow_up_logs (Dispatch.st_db (snd run)))
  = [Sample.jane_id; Sample.bob_id; Sample.cy_id].
Proof. repeat split. Qed.

Section Selection.
Import Db Resolver Dispatch Spec Terms.
Variable E : Env.

(** C2, amended: unsubscribe suppression is per visitor, whatever the
    message type of the campaign.  The resolver returns the rows it would
    return without the unsubscribes table, less those of the visitors
    whose email matches an entry of type email/both or whose phone matches
    an entry of type sms/both; it returns the same rows when the message
    type of the campaign is changed; and every message a run sends goes to
    the address or number of a row of the eligible result of the campaign
    the request names, so to a visitor no such entry matches.  A visitor
    with only an email-type entry therefore gets neither email nor SMS,
    from any campaign. *)
Theorem C2_unsubscribe_excludes_visitor (req : Request) (s : State E) (cid : uuid)
    (pid : option uuid) :
  let db := st_db s in
  (forall row,
      In row (get_eligible_visitors db cid pid) <->
      In row (get_eligible_visitors (with_unsubscribes db []) cid pid) /\
      ~ unsubscribed db (visitor_email row) (visitor_phone row)) /\
  (forall t, get_eligible_visitors (retyped t db) cid pid
             = get_eligible_visitors db cid pid) /\
  (exists out,
      st_outbox (snd (serve req s)) = (st_outbox s ++ out)%list /\
      forall msg, In msg out ->
        exists campaign row,
          names_campaign E req campaign /\
          In row (get_eligible_visitors db campaign (property_param E req)) /\
          addressed msg row /\
          ~ unsubscribed db (visitor_email row) (visitor_phone row)).
Proof.
  intros db. split; [|split].
  - intros row. apply ResolverFacts.eligible_unsubscribes.
  - intros t. apply ResolverFacts.eligible_retyped.
  - destruct (TraceFacts.serve_adds E req s) as (added & out & _ & Hout & _ & Hmsgs).
    exists out. split; [exact Hout|]. intros msg Hmsg.
    destruct (Hmsgs msg Hmsg) as (campaign & row & Hn & Hrow & Haddr).
    exists campaign, row. split; [exact Hn|].
    apply DispatchFacts.rows_of_run_eligible in Hrow. split; [exact Hrow|].
    split; [exact Haddr|]. now apply ResolverFacts.eligible_unsubscribes in Hrow.
Qed.

(** C5, amended: the texts of a non-empty [visitorIds] list are read as
    uuid values, and the run is narrowed to the eligible rows of the
    visitors they name; an absent or empty list leaves the run with all
    eligible rows.  When every text the request gives for a visitor or a
    property is the text of a uuid, the run is over exactly these rows:
    the calls and the log writes are those of these rows, and the answer
    counts them.  When one is not, the answer is the error of the database
    with status 500 and nothing is sent or logged. *)
Theorem C5_explicit_selection_narrows (req : Request) (s : State E) (cid : uuid)
    (c : Campaign) (admin : Admin) (t : string) :
  names_campaign E req cid ->
  campaign_of (st_db s) cid c ->
  admin_of (st_db s) c admin ->
  run_type req c t ->
  let db := st_db s in
  let eligible := get_eligible_visitors db cid (property_param E req) in
  let rows := rows_of_run E req cid db in
  let run := serve req s in
  (forall S, visitorIds req = Some S -> S <> [] ->
     forall row, In row rows <-> In row eligible /\ named_in E S (visitor_id row)) /\
  (visitorIds req = None \/ visitorIds req = Some [] -> rows = eligible) /\
  (well_formed E req -> exists order trs, run_over c admin t cid rows s run order trs) /\
  (~ well_formed E req -> exists message, run = (ServerError message, s)).
Proof.
  intros Hn Hc Ha Ht db eligible rows run. split; [|split; [|split]].
  - intros S HS Hne row. subst rows eligible. unfold rows_of_run.
    rewrite DispatchFacts.in_narrowed.
    assert (Hl : listed req = S)
      by (unfold listed; rewrite HS; destruct S; [congruence | reflexivity]).
    rewrite Hl. split.
    + intros [Hin [H|H]]; [congruence | now split].
    + intros [Hin H]. split; [exact Hin | now right].
  - subst rows eligible. unfold rows_of_run, narrowed, listed.
    intros [->| ->]; reflexivity.
  - intros Hwf.
    destruct (DispatchFacts.serve_run_over E req s cid c admin t Hn Hc Ha Hwf Ht)
      as (trs & Hrun & _).
    exists rows, trs. exact Hrun.
  - intros Hwf. eexists. exact (DispatchFacts.serve_malformed E req s cid c admin
                                  Hn Hc Ha Hwf).
Qed.

End Selection.

Lemma C5_explicit_selection_narrows_witness :
  let db := Sample.database [Sample.jane; Sample.bob; Sample.cy]
              (Sample.welcome "email" "all") [] [] in
  let req := Sample.request (Some ["0C000000-0000-4000-8000-000000000001"]) in
  (forall row,
      In row (Spec.rows_of_run (Sample.env true) req Sample.campaign_id db) <->
      In row (Resolver.get_eligible_visitors db Sample.campaign_id None) /\
      Spec.named_in (Sample.env true) ["0C000000-0000-4000-8000-000000000001"]
        (Resolver.visitor_id row)) /\
  Spec.rows_of_run (Sample.env true) (Sample.request None) Sample.campaign_id db
  = Resolver.get_eligible_visitors db Sample.campaign_id None.
Proof.
  intros db req.
  assert (Ha : Spec.admin_of db (Sample.welcome "email" "all") Sample.alex)
    by (exists Sample.admin_id; split; reflexivity).
  split.
  - apply (proj1 (C5_explicit_selection_narrows (Sample.env true) req
                    (Sample.start true db) Sample.campaign_id
                    (Sample.welcome "email" "all") Sample.alex "email"
                    (conj eq_refl eq_refl) eq_refl Ha (or_introl (conj eq_refl eq_refl)))
             ["0C000000-0000-4000-8000-000000000001"]);
      [reflexivity | discriminate].
  - apply (proj1 (proj2 (C5_explicit_selection_narrows (Sample.env true)
                           (Sample.request None) (Sample.start true db)
                           Sample.campaign_id (Sample.welcome "email" "all")
                           Sample.alex "email" (conj eq_refl eq_refl) eq_refl Ha
                           (or_introl (conj eq_refl eq_refl))))).
    now left.
Defined.

Example explicit_selection_of_one :
  let db := Sample.database [Sample.jane; Sample.bob; Sample.cy]
              (Sample.welcome "email" "all") [] [] in
  let run := Dispatch.serve (Sample.request (Some [Sample.jane_id])) (Sample.start true db) in
  Resolver.ids (Resolver.get_eligible_visitors db Sample.campaign_id None)
  = [Sample.jane_id; Sample.bob_id; Sample.cy_id] /\
  map Db.fl_visitor_id (Db.follow_up_logs (Dispatch.st_db (snd run))) = [Sample.jane_id] /\
  Dispatch.st_outbox (snd run)
  = [Dispatch.Email "jane@example.com" "Thanks, Jane!"
       "<p>Hi Jane, thanks for visiting Maple House.</p>"
       "Hi Jane, thanks for visiting Maple House." (Some "Open House Team")].
Proof. repeat split. Qed.

(** An id in upper case selects the visitor; a text that is no uuid makes
    the request fail, whichever other ids it lists. *)
Example selection_by_uuid_value :
  let db := Sample.database [Sample.jane; Sample.bob; Sample.cy]
              (Sample.welcome "email" "all") [] [] in
  let s := Sample.start true db in
  map Db.fl_visitor_id
    (Db.follow_up_logs
       (Dispatch.st_db
          (snd (Dispatch.serve
                  (Sample.request (Some ["0C000000-0000-4000-8000-000000000002"])) s))))
  = [Sample.bob_id] /\
  Dispatch.serve (Sample.request (Some [Sample.jane_id; "bob"])) s
  = (Dispatch.ServerError (Uuid.invalid ["bob"]), s).
Proof. split; reflexivity. Qed.

(* ===================================================================== *)
(** * Channels, configuration and log writes: claims C7, C8 and C10 *)
(* ===================================================================== *)

(** C7, as stated, fails when the insert into the log fails: Bob has an
    email address and no phone number, the [both] campaign sends him one
    email and counts it, and no entry at all is in the log afterwards. *)
Lemma C7_failed_write_leaves_no_entry :
  let c := Sample.welcome "both" "all" in
  let db := Sample.database [Sample.bob] c [] [] in
  let run := Dispatch.serve (Sample.request None) (Sample.start false db) in
  Dispatch.effectiveMessageType (Sample.request None) c = "both" /\
  Js.truthy (Db.v_email Sample.bob) = true /\
  Js.truthy (Db.v_phone Sample.bob) = false /\
  fst run = Dispatch.Processed
              {| Dispatch.sent := 1; Dispatch.failed := 0; Dispatch.errors := [] |} 1 /\
  List.length (Dispatch.st_outbox (snd run)) = 1 /\
  Db.follow_up_logs (Dispatch.st_db (snd run)) = [].
Proof. repeat split. Qed.

(** With an unknown trigger condition the run answers with success and
    no eligible visitor; with an email campaign that has neither subject
    nor body the run sends Jane an empty email and counts it as sent. *)
Example no_refusal :
  let run c := Dispatch.serve (Sample.request None)
                 (Sample.start true (Sample.database [Sample.jane] c [] [])) in
  fst (run (Sample.welcome "email" "weekly")) = Dispatch.NoEligibleVisitors /\
  fst (run (Sample.campaign "email" "all" None None None))
  = Dispatch.Processed
      {| Dispatch.sent := 1; Dispatch.failed := 0; Dispatch.errors := [] |} 1 /\
  Dispatch.st_outbox (snd (run (Sample.campaign "email" "all" None None None)))
  = [Dispatch.Email "jane@example.com" "" "" "" (Some "Open House Team")].
Proof. repeat split. Qed.


Section Channels.
Import Db Resolver Dispatch Spec Terms.
Variable E : Env.

(** C7, amended: a [both] run makes, for each row of its result whose
    visitor has an email address and no phone number (or whose campaign
    has no SMS template), exactly one attempt: the email transport is
    called once and the SMS transport is not called; one Delivery Log
    entry is handed to the log, for channel email, with status [sent] or
    [failed] as the transport reported, and it is stored unless the write
    itself fails; no SMS entry is written; and the attempt is counted once,
    as sent or as failed.  The result has one row for each visitor and
    joined feedback form, so a visitor with two feedback forms has two
    rows and is written to twice. *)
Theorem C7_missing_phone_skips_sms (req : Request) (s : State E) (cid : uuid)
    (c : Campaign) (admin : Admin) :
  names_campaign E req cid ->
  campaign_of (st_db s) cid c ->
  admin_of (st_db s) c admin ->
  well_formed E req ->
  run_type req c "both" ->
  let rows := rows_of_run E req cid (st_db s) in
  exists order trs,
    run_over c admin "both" cid rows s (serve req s) order trs /\
    Forall2 (fun row l =>
               Js.truthy (visitor_email row) = true ->
               Js.truthy (visitor_phone row) && Js.truthy (c_sms_template c) = false ->
               exists a,
                 l = [a] /\
                 a_call a = email_for c admin row /\
                 fl_visitor_id (a_entry a) = visitor_id row /\
                 fl_campaign_id (a_entry a) = Some cid /\
                 fl_message_type (a_entry a) = "email" /\
                 fl_status (a_entry a)
                 = Some (if succeeded a then "sent" else "failed") /\
                 exists w, a_stored a = fst (insert_follow_up_log E w (a_entry a)))
            order trs.
Proof.
  intros Hn Hc Ha Hwf Ht rows.
  destruct (DispatchFacts.serve_run_over E req s cid c admin "both" Hn Hc Ha Hwf Ht)
    as (trs & Hrun & _).
  fold rows in Hrun. exists rows, trs. split; [exact Hrun|].
  destruct Hrun as [_ (res & (Hrows & _) & _)].
  eapply Forall2_impl; [|exact Hrows].
  intros row l [Hcalls Hall] Hemail Hphone.
  rewrite (TraceFacts.messages_for_email_only c admin row Hemail Hphone) in Hcalls.
  destruct l as [|a [|b l]]; try discriminate Hcalls.
  injection Hcalls as Hcall. exists a. split; [reflexivity|]. split; [exact Hcall|].
  inversion Hall as [|? ? [Hentry [_ Hstored]] _]; subst.
  unfold entry_for in Hentry. rewrite Hcall in Hentry. cbn [email_for] in Hentry.
  destruct Hentry as (Hv & Hcid & _ & Hst & _ & _ & Htype & _).
  repeat split; assumption.
Qed.


Lemma campaign_of_unique (db : Database) (cid : uuid) (c c' : Campaign) :
  campaign_of db cid c -> In c' (follow_up_campaigns db) -> c_id c' = cid -> c' = c.
Proof.
  unfold campaign_of. intros Hc Hin Hid.
  assert (H : In c' (filter (fun x => String.eqb (c_id x) cid) (follow_up_campaigns db))).
  { apply filter_In. split; [assumption|]. now apply String.eqb_eq. }
  rewrite Hc in H. destruct H as [H|[]]. now symmetry.
Qed.

Lemma email_for_empty (c : Campaign) (admin : Admin) (row : VisitorData) :
  Js.or_empty (c_email_subject c) = "" -> Js.or_empty (c_email_template c) = "" ->
  email_for c admin row
  = Email (Js.or_empty (visitor_email row)) "" "" "" (c_email_from_name c).
Proof.
  intros Hs Ht. unfold email_for. rewrite Hs, Ht, DispatchFacts.render_empty.
  reflexivity.
Qed.

(** C8: the dispatch has no configuration error, where the specification
    has it refuse.  A run whose campaign and admin are found and whose ids
    are uuids never answers with an error.  For a campaign whose trigger
    condition is none of the four, the resolver returns no row and the run
    answers with success, "no eligible visitors", having sent and logged
    nothing.  Where the message type of the run requires email and the
    campaign has neither subject nor body, every row of the run with an
    email address is sent an email with empty subject and body, which is
    counted and logged like any other: the email branch lacks the test of
    the template that the SMS branch has, by which no text message is sent
    when the campaign has no SMS template. *)
Theorem C8_no_configuration_error (req : Request) (s : State E) (cid : uuid)
    (c : Campaign) (admin : Admin) (t : string) :
  names_campaign E req cid ->
  campaign_of (st_db s) cid c ->
  admin_of (st_db s) c admin ->
  well_formed E req ->
  run_type req c t ->
  let rows := rows_of_run E req cid (st_db s) in
  let run := serve req s in
  (~ known_trigger (c_trigger_condition c) ->
   rows = [] /\ run = (NoEligibleVisitors, s)) /\
  exists order trs,
    run_over c admin t cid rows s run order trs /\
    (requires_email t = true ->
     Js.or_empty (c_email_subject c) = "" ->
     Js.or_empty (c_email_template c) = "" ->
     forall row,
       In row rows -> Js.truthy (visitor_email row) = true ->
       In (Email (Js.or_empty (visitor_email row)) "" "" "" (c_email_from_name c))
          (map a_call (concat trs))) /\
    (Js.truthy (c_sms_template c) = false ->
     forall to message, ~ In (Sms to message) (map a_call (concat trs))).
Proof.
  intros Hn Hc Ha Hwf Ht rows run.
  destruct (DispatchFacts.serve_run_over E req s cid c admin t Hn Hc Ha Hwf Ht)
    as (trs & Hrun & Hnil).
  fold rows run in Hrun, Hnil. split.
  - intros Hunknown.
    assert (Hrows : rows = []).
    { subst rows. unfold rows_of_run.
      rewrite (ResolverFacts.eligible_unknown_trigger (st_db s) cid).
      - unfold narrowed. now destruct (listed req).
      - intros c' Hin Hc'. now rewrite (campaign_of_unique (st_db s) cid c c' Hc Hin Hc'). }
    split; [exact Hrows | exact (Hnil Hrows)].
  - exists rows, trs. split; [exact Hrun|].
    destruct Hrun as [_ (res & (Hrows & _) & _)]. split.
    + intros Hreq Hsub Htmpl row Hin Hemail.
      apply (TraceFacts.calls_of_row E c admin t cid rows trs row Hrows Hin).
      rewrite <- (email_for_empty c admin row Hsub Htmpl).
      unfold messages_for. rewrite Hreq, Hemail. now left.
    + intros Hsms to message Hin.
      rewrite (TraceFacts.calls_of_run E c admin t cid rows trs Hrows) in Hin.
      apply in_flat_map in Hin as (row & _ & Hin).
      exact (TraceFacts.messages_for_no_template c admin t row to message Hsms Hin).
Qed.


End Channels.

(** C7 at work: Bob, who left no phone number, in a [both] dispatch. *)
Lemma C7_missing_phone_skips_sms_witness :
  let c := Sample.welcome "both" "all" in
  let s := Sample.start true (Sample.database [Sample.bob] c [] []) in
  let rows := Spec.rows_of_run (Sample.env true) (Sample.request None)
                Sample.campaign_id (Dispatch.st_db s) in
  exists order trs,
    Terms.run_over c Sample.alex "both" Sample.campaign_id rows s
      (Dispatch.serve (Sample.request None) s) order trs /\
    Forall2 (fun row l =>
               Js.truthy (Resolver.visitor_email row) = true ->
               Js.truthy (Resolver.visitor_phone row) && Js.truthy (Db.c_sms_template c)
               = false ->
               exists a,
                 l = [a] /\
                 Terms.a_call a = Spec.email_for c Sample.alex row /\
                 Db.fl_visitor_id (Terms.a_entry a) = Resolver.visitor_id row /\
                 Db.fl_campaign_id (Terms.a_entry a) = Some Sample.campaign_id /\
                 Db.fl_message_type (Terms.a_entry a) = "email" /\
                 Db.fl_status (Terms.a_entry a)
                 = Some (if Terms.succeeded a then "sent" else "failed") /\
                 exists w, Terms.a_stored a
                           = fst (Dispatch.insert_follow_up_log (Sample.env true) w
                                    (Terms.a_entry a)))
            order trs.
Proof.
  intros c s rows.
  apply (C7_missing_phone_skips_sms (Sample.env true) (Sample.request None) s
           Sample.campaign_id c Sample.alex).
  - split; reflexivity.
  - reflexivity.
  - exists Sample.admin_id. split; reflexivity.
  - reflexivity.
  - left. split; reflexivity.
Defined.

(** C8 at work: an email campaign without subject and body, and Bob. *)
Lemma C8_no_configuration_error_witness :
  let c := Sample.campaign "email" "all" None None None in
  let s := Sample.start true (Sample.database [Sample.bob] c [] []) in
  let rows := Spec.rows_of_run (Sample.env true) (Sample.request None)
                Sample.campaign_id (Dispatch.st_db s) in
  exists order trs,
    Terms.run_over c Sample.alex "email" Sample.campaign_id rows s
      (Dispatch.serve (Sample.request None) s) order trs /\
    In (Dispatch.Email "bob@example.com" "" "" "" (Some "Open House Team"))
       (map Terms.a_call (concat trs)).
Proof.
  intros c s rows.
  destruct (proj2 (C8_no_configuration_error (Sample.env true) (Sample.request None) s
                     Sample.campaign_id c Sample.alex "email" (conj eq_refl eq_refl)
                     eq_refl (ex_intro _ Sample.admin_id (conj eq_refl eq_refl)) eq_refl
                     (or_introl (conj eq_refl eq_refl))))
    as (order & trs & Hrun & Hemail & _).
  exists order, trs. split; [exact Hrun|].
  apply (Hemail eq_refl eq_refl eq_refl (Sample.row Sample.bob));
    [now left | reflexivity].
Defined.


Example duplicate_after_failed_write :
  let c := Sample.welcome "email" "all" in
  let s := Sample.start false (Sample.database [Sample.jane] c [] []) in
  let run1 := Dispatch.serve (Sample.request None) s in
  let run2 := Dispatch.serve (Sample.request None) (snd run1) in
  Dispatch.st_outbox (snd run2)
  = [Spec.email_for c Sample.alex (Sample.row Sample.jane);
     Spec.email_for c Sample.alex (Sample.row Sample.jane)] /\
  Db.follow_up_logs (Dispatch.st_db (snd run2)) = [].
Proof. split; reflexivity. Qed.

(* ===================================================================== *)
(** * The text version of an email and the number handed to Twilio *)
(* ===================================================================== *)

Section PlainText.
Import Terms.

Lemma includes_gt_cons (c : ascii) (s : string) :
  Js.includes ">" (String c s) = Ascii.eqb ">" c || Js.includes ">" s.
Proof. cbn [Js.includes Js.starts_with]. now rewrite andb_true_r. Qed.

(** Every [>] of the stripped text is a [>] of the input. *)
Lemma strip_tags_scan_gt (s : string) :
  forall in_tag, Js.includes ">" (Js.strip_tags_scan in_tag s) = true ->
                 Js.includes ">" s = true.
Proof.
  induction s as [|c s IH]; intros in_tag H; [exact H|].
  rewrite includes_gt_cons. cbn [Js.strip_tags_scan] in H.
  destruct in_tag.
  - apply IH in H. rewrite H. apply orb_true_r.
  - destruct (Ascii.eqb c "<" && Js.includes ">" s).
    + apply IH in H. rewrite H. apply orb_true_r.
    + rewrite includes_gt_cons in H. apply orb_true_iff in H as [H|H].
      * now rewrite H.
      * apply IH in H. rewrite H. apply orb_true_r.
Qed.

Lemma strip_tags_scan_no_tag (s : string) :
  forall in_tag, has_tag (Js.strip_tags_scan in_tag s) = false.
Proof.
  induction s as [|c s IH]; intros in_tag; [now destruct in_tag|].
  cbn [Js.strip_tags_scan]. destruct in_tag; [apply IH|].
  destruct (Ascii.eqb c "<") eqn:Hc; cbn [andb].
  - destruct (Js.includes ">" s) eqn:Hs; [apply IH|].
    cbn [has_tag]. rewrite Hc, IH, orb_false_r. cbn [andb].
    destruct (Js.includes ">" (Js.strip_tags_scan false s)) eqn:Ho; [|reflexivity].
    apply strip_tags_scan_gt in Ho. congruence.
  - cbn [has_tag]. now rewrite Hc, IH.
Qed.

Lemma strip_tags_fixed (s : string) : has_tag s = false -> Js.strip_tags s = s.
Proof.
  unfold Js.strip_tags. induction s as [|c s IH]; intros H; [reflexivity|].
  cbn [has_tag] in H. apply orb_false_iff in H as [H1 H2].
  cbn [Js.strip_tags_scan]. rewrite H1. now rewrite IH.
Qed.

(** X1: the text version [serve] makes of an email body holds no tag (no
    [<] with a [>] after it); a body without a tag is its own text version;
    and stripping twice is stripping once. *)
Theorem X1_strip_tags_leaves_no_tag (html : string) :
  has_tag (Js.strip_tags html) = false /\
  (has_tag html = false -> Js.strip_tags html = html) /\
  Js.strip_tags (Js.strip_tags html) = Js.strip_tags html.
Proof.
  split; [apply strip_tags_scan_no_tag|]. split; [apply strip_tags_fixed|].
  apply strip_tags_fixed, strip_tags_scan_no_tag.
Qed.

Lemma is_digit_not_plus (c : ascii) :
  Transport.is_digit c = true -> Ascii.eqb "+" c = false.
Proof.
  destruct c as [[] [] [] [] [] [] [] []]; try reflexivity; discriminate.
Qed.

Lemma digits_only_all_digits (s : string) : all_digits (Transport.digits_only s) = true.
Proof.
  induction s as [|c s IH]; [reflexivity|]. cbn [Transport.digits_only].
  destruct (Transport.is_digit c) eqn:Hc; [|exact IH].
  cbn [all_digits]. now rewrite Hc.
Qed.

Lemma digits_only_fixed (s : string) :
  all_digits s = true -> Transport.digits_only s = s.
Proof.
  induction s as [|c s IH]; [reflexivity|]. cbn [all_digits Transport.digits_only].
  intros H. apply andb_true_iff in H as [Hc Hs]. now rewrite Hc, IH.
Qed.

Lemma all_digits_no_plus (d : string) :
  all_digits d = true -> Js.starts_with "+" d = false.
Proof.
  destruct d as [|c d]; [reflexivity|]. cbn [all_digits Js.starts_with].
  intros H. apply andb_true_iff in H as [Hc _].
  now rewrite (is_digit_not_plus c Hc).
Qed.

(** The number in terms of the digits of the input. *)
Lemma formattedPhone_digits (to : string) :
  Transport.formattedPhone to
  = if Nat.eqb (String.length (Transport.digits_only to)) 10
    then "+1" ++ Transport.digits_only to
    else "+" ++ Transport.digits_only to.
Proof.
  unfold Transport.formattedPhone.
  destruct (Nat.eqb (String.length (Transport.digits_only to)) 10); [reflexivity|].
  destruct (Nat.eqb _ 11 && _); [reflexivity|].
  now rewrite (all_digits_no_plus _ (digits_only_all_digits to)).
Qed.

Lemma formattedPhone_again (d : string) :
  all_digits d = true ->
  let shaped := "+" ++ (if Nat.eqb (String.length d) 10 then "1" ++ d else d) in
  Transport.formattedPhone shaped = shaped.
Proof.
  intros Hd shaped. subst shaped. rewrite formattedPhone_digits.
  destruct (Nat.eqb (String.length d) 10) eqn:Hlen.
  - change (Transport.digits_only ("+" ++ "1" ++ d))
      with (String "1" (Transport.digits_only d)).
    rewrite (digits_only_fixed d Hd). cbn [String.length].
    apply Nat.eqb_eq in Hlen. rewrite Hlen. reflexivity.
  - change (Transport.digits_only ("+" ++ d)) with (Transport.digits_only d).
    rewrite (digits_only_fixed d Hd), Hlen. reflexivity.
Qed.

(** X2: the number [sendSMS] hands to Twilio is a plus sign followed by
    digits only: the digits of the input, with a 1 in front when there are
    exactly ten of them.  Whatever else the input holds is dropped, and a
    number already in this form is left as it is. *)
Theorem X2_formattedPhone_shape (to : string) :
  let digits := Transport.digits_only to in
  all_digits digits = true /\
  Transport.formattedPhone to
  = "+" ++ (if Nat.eqb (String.length digits) 10 then "1" ++ digits else digits) /\
  Transport.formattedPhone (Transport.formattedPhone to) = Transport.formattedPhone to.
Proof.
  intros digits. pose proof (digits_only_all_digits to) as Hd. fold digits in Hd.
  assert (Hshape : Transport.formattedPhone to
                   = "+" ++ (if Nat.eqb (String.length digits) 10
                             then "1" ++ digits else digits)).
  { rewrite formattedPhone_digits. fold digits.
    now destruct (Nat.eqb (String.length digits) 10). }
  split; [exact Hd|]. split; [exact Hshape|].
  rewrite Hshape. apply (formattedPhone_again digits Hd).
Qed.

End PlainText.

Example formattedPhone_examples :
  Transport.formattedPhone "(555) 010-1234" = "+15550101234" /\
  Transport.formattedPhone "1-555-010-1234" = "+15550101234" /\
  Transport.formattedPhone "+44 20 7946 0958" = "+442079460958" /\
  Transport.formattedPhone "call me" = "+".
Proof. repeat split. Qed.

(* ===================================================================== *)
(** * More about the eligibility resolver *)
(* ===================================================================== *)

Section ResolverExtras.
Import Db Resolver Spec Terms.

Lemma failed_is_neutral (cid : uuid) (fl : FollowUpLog) :
  fl_status fl = Some "failed" \/ fl_status fl = None \/ fl_campaign_id fl <> Some cid ->
  neutral_entry cid fl.
Proof.
  intros H visitor (_ & Hc & status & Hs & Hne).
  destruct H as [H|[H|H]]; congruence.
Qed.

Lemma not_already_sent_app (db : Database) (added : list FollowUpLog) (cid : uuid)
    (r : Joined) :
  Sql.holds (not_already_sent (with_logs db (follow_up_logs db ++ added)%list) cid r)
  = Sql.holds (not_already_sent db cid r)
    && negb (existsb (fun fl => Sql.holds (log_blocks (v_id (j_v r)) cid fl)) added).
Proof.
  unfold not_already_sent, Sql.exists_row. cbn [follow_up_logs with_logs Sql.tnot option_map].
  rewrite existsb_app, !SqlFacts.holds_some. apply negb_orb.
Qed.

Lemma where_clause_app (db : Database) (added : list FollowUpLog) (cid : uuid)
    (pid : option uuid) (r : Joined) :
  Sql.holds (where_clause (with_logs db (follow_up_logs db ++ added)%list) cid pid r)
  = Sql.holds (where_clause db cid pid r)
    && negb (existsb (fun fl => Sql.holds (log_blocks (v_id (j_v r)) cid fl)) added).
Proof.
  unfold where_clause. rewrite !SqlFacts.holds_tand, not_already_sent_app.
  now rewrite !andb_assoc.
Qed.

(** X3: log entries that are failed, have no status, or belong to another
    campaign are never counted: adding any number of them to the log
    leaves the result of [get_eligible_visitors] as it is, row for row. *)
Theorem X3_failed_entries_do_not_count (db : Database) (added : list FollowUpLog)
    (cid : uuid) (pid : option uuid) :
  Forall (fun fl => fl_status fl = Some "failed" \/ fl_status fl = None \/
                    fl_campaign_id fl <> Some cid) added ->
  get_eligible_visitors (with_logs db (follow_up_logs db ++ added)%list) cid pid
  = get_eligible_visitors db cid pid.
Proof.
  intros Hadded. unfold get_eligible_visitors.
  change (joined_rows (with_logs db (follow_up_logs db ++ added)%list) cid)
    with (joined_rows db cid).
  f_equal. apply filter_ext. intros r. rewrite where_clause_app.
  replace (existsb _ added) with false; [apply andb_true_r|].
  symmetry. apply not_true_is_false. intros Hex.
  apply existsb_exists in Hex as (fl & Hin & Hb).
  apply ResolverFacts.holds_log_blocks in Hb.
  rewrite Forall_forall in Hadded.
  exact (failed_is_neutral cid fl (Hadded fl Hin) _ Hb).
Qed.

Lemma X3_failed_entries_do_not_count_witness :
  let db := Sample.database [Sample.jane; Sample.bob] (Sample.welcome "email" "all") [] [] in
  Resolver.get_eligible_visitors
    (Db.with_logs db (Db.follow_up_logs db
                      ++ [Sample.log_entry Sample.jane_id "email" "failed"])%list)
    Sample.campaign_id None
  = Resolver.get_eligible_visitors db Sample.campaign_id None.
Proof.
  intros db.
  apply (X3_failed_entries_do_not_count db
           [Sample.log_entry Sample.jane_id "email" "failed"] Sample.campaign_id None).
  constructor; [now left | constructor].
Defined.

(** X4: more log entries and more unsubscribe entries can only take rows
    away.  A row is returned after entries were added to the log exactly
    when it was returned before and none of the added entries is a
    non-failed entry of its visitor for the campaign; and a row returned
    after unsubscribe entries were added was returned before. *)
Theorem X4_suppression_only_removes (db : Database) (cid : uuid) (pid : option uuid)
    (row : VisitorData) :
  (forall added,
      In row (get_eligible_visitors
                (with_logs db (follow_up_logs db ++ added)%list) cid pid) <->
      In row (get_eligible_visitors db cid pid) /\
      ~ exists fl, In fl added /\ non_failed_entry (visitor_id row) cid fl) /\
  (forall more,
      In row (get_eligible_visitors
                (with_unsubscribes db (unsubscribes db ++ more)%list) cid pid) ->
      In row (get_eligible_visitors db cid pid)).
Proof.
  split.
  - intros added. rewrite !ResolverFacts.in_get_eligible_visitors.
    change (joined_rows (with_logs db (follow_up_logs db ++ added)%list) cid)
      with (joined_rows db cid).
    split.
    + intros (r & <- & Hin & Hw). rewrite where_clause_app in Hw.
      apply andb_true_iff in Hw as [Hw Hno]. split; [now exists r|].
      intros (fl & Hfl & Hb). apply ResolverFacts.holds_log_blocks in Hb.
      apply negb_true_iff in Hno.
      assert (Ht : existsb (fun fl => Sql.holds (log_blocks (v_id (j_v r)) cid fl))
                     added = true) by (apply existsb_exists; eauto).
      congruence.
    + intros [(r & <- & Hin & Hw) Hno]. exists r. repeat split; try assumption.
      rewrite where_clause_app, Hw. cbn [andb]. apply negb_true_iff.
      apply not_true_is_false. intros Hex. apply Hno.
      apply existsb_exists in Hex as (fl & Hfl & Hb). exists fl.
      split; [assumption|]. now apply ResolverFacts.holds_log_blocks.
  - intros more Hin.
    apply ResolverFacts.eligible_unsubscribes in Hin as [Hq Hno].
    apply ResolverFacts.eligible_unsubscribes. split; [exact Hq|].
    intros (u & Hu & Hm). apply Hno. exists u. split; [|exact Hm].
    cbn [unsubscribes with_unsubscribes]. apply in_or_app. now left.
Qed.

(** X5: the property filters are strict.  With a property id given to the
    call every row returned is of that property, and every row returned is
    of the target property of the campaign when it has one; so a visitor
    without a property is never returned under either filter, and the
    result is empty when the two filters name different properties. *)
Theorem X5_property_filters (db : Database) (cid : uuid) (pid : option uuid)
    (c : Campaign) :
  campaign_of db cid c ->
  (forall row p, In row (get_eligible_visitors db cid pid) -> pid = Some p ->
                 property_id row = Some p) /\
  (forall row q, In row (get_eligible_visitors db cid pid) -> c_property_id c = Some q ->
                 property_id row = Some q) /\
  (forall p q, pid = Some p -> c_property_id c = Some q -> p <> q ->
               get_eligible_visitors db cid pid = []).
Proof.
  intros Hc.
  assert (Hscope : forall row, In row (get_eligible_visitors db cid pid) ->
            exists v, property_id row = v_property_id v /\ property_scoped pid c v).
  { intros row Hin. apply ResolverFacts.in_get_eligible_visitors in Hin
      as (r & <- & Hin & Hw).
    apply ResolverFacts.in_joined_rows in Hin as (_ & _ & _ & Hjc & _).
    rewrite (ResolverFacts.campaign_join db cid c Hc) in Hjc.
    destruct Hjc as [Hjc|[]]. symmetry in Hjc.
    apply ResolverFacts.holds_where_clause in Hw as (H1 & H2 & _).
    exists (j_v r). split; [reflexivity|].
    now apply (ResolverFacts.holds_property_filters pid c r Hjc). }
  assert (H1 : forall row p, In row (get_eligible_visitors db cid pid) -> pid = Some p ->
                 property_id row = Some p).
  { intros row p Hin Hp. destruct (Hscope row Hin) as (v & -> & [[H|(x & H & Hv)] _]);
      congruence. }
  assert (H2 : forall row q, In row (get_eligible_visitors db cid pid) ->
                 c_property_id c = Some q -> property_id row = Some q).
  { intros row q Hin Hq. destruct (Hscope row Hin) as (v & -> & [_ [H|(x & H & Hv)]]);
      congruence. }
  split; [exact H1|]. split; [exact H2|].
  intros p q Hp Hq Hne. apply ResolverFacts.no_row_is_nil. intros row Hin.
  pose proof (H1 row p Hin Hp). pose proof (H2 row q Hin Hq). congruence.
Qed.

Lemma X5_property_filters_witness :
  let c := Sample.welcome "email" "all" in
  let db := Sample.database [Sample.jane] c [] [] in
  Forall (fun row => Resolver.property_id row = Some Sample.maple_id)
    (Resolver.get_eligible_visitors db Sample.campaign_id (Some Sample.maple_id)).
Proof.
  intros c db. apply Forall_forall. intros row Hin.
  exact (proj1 (X5_property_filters db Sample.campaign_id (Some Sample.maple_id) c eq_refl)
           row Sample.maple_id Hin eq_refl).
Defined.

(** X6: the flags of a returned row agree with each other and with the
    trigger condition: a row marked interested has feedback; every row of
    an [interested] campaign is marked interested; no row of a
    [no_feedback] campaign has feedback. *)
Theorem X6_row_flags (db : Database) (cid : uuid) (pid : option uuid) (c : Campaign)
    (row : VisitorData) :
  campaign_of db cid c ->
  In row (get_eligible_visitors db cid pid) ->
  (interested row = true -> has_feedback row = true) /\
  (c_trigger_condition c = "interested" -> interested row = true) /\
  (c_trigger_condition c = "no_feedback" ->
   has_feedback row = false /\ interested row = false).
Proof.
  intros Hc Hin.
  apply ResolverFacts.in_get_eligible_visitors in Hin as (r & <- & Hin & Hw).
  apply ResolverFacts.in_joined_rows in Hin as (_ & _ & _ & Hjc & _).
  rewrite (ResolverFacts.campaign_join db cid c Hc) in Hjc.
  destruct Hjc as [Hjc|[]]. symmetry in Hjc.
  apply ResolverFacts.holds_where_clause in Hw as (_ & _ & _ & Ht & _).
  apply (ResolverFacts.trigger_filter_cases c r Hjc) in Ht.
  cbn [select interested has_feedback]. split; [|split].
  - destruct (j_f r); [reflexivity | discriminate].
  - intros Hi. destruct Ht as [[_ (f & -> & Hf)]|[[H _]|[H|H]]]; try congruence.
    cbn. now rewrite Hf.
  - intros Hn. destruct Ht as [[H _]|[[_ ->]|[H|H]]]; try congruence.
    split; reflexivity.
Qed.

Lemma X6_row_flags_witness :
  let c := Sample.welcome "email" "interested" in
  let db := Sample.database [Sample.jane; Sample.bob; Sample.cy] c [] [] in
  Forall (fun row => Resolver.interested row = true)
    (Resolver.get_eligible_visitors db Sample.campaign_id None).
Proof.
  intros c db. apply Forall_forall. intros row Hin.
  exact (proj1 (proj2 (X6_row_flags db Sample.campaign_id None c row eq_refl Hin)) eq_refl).
Defined.

End ResolverExtras.

(* ===================================================================== *)
(** * More about the dispatch orchestrator *)
(* ===================================================================== *)

Section DispatchExtras.
Import Db Resolver Dispatch Spec Terms.
Variable E : Env.

Lemma length_succeeded (l : list Attempt) :
  List.length (filter succeeded l) + List.length (filter not_succeeded l) = List.length l.
Proof.
  induction l as [|a l IH]; [reflexivity|].
  cbn [filter]. unfold succeeded at 1, not_succeeded at 1.
  destruct (success (a_result a)); cbn [negb List.length]; lia.
Qed.

Lemma length_stored (l : list Attempt) :
  List.length (map a_entry (filter a_stored l)) <= List.length (map a_call l).
Proof.
  rewrite !length_map. induction l as [|a l IH]; [reflexivity|].
  cbn [filter]. destruct (a_stored a); cbn [List.length]; lia.
Qed.

Lemma messages_for_at_most_two (c : Campaign) (admin : Admin) (eff : string)
    (rows : list VisitorData) :
  List.length (flat_map (messages_for c admin eff) rows) <= 2 * List.length rows.
Proof.
  induction rows as [|row rows IH]; [cbn; lia|].
  cbn [flat_map]. rewrite length_app. unfold messages_for at 1. rewrite length_app.
  destruct (_ && _), (_ && _); cbn [List.length] in *; lia.
Qed.

(** X7: a run whose campaign and admin are found, and whose ids are all
    texts of uuids, hands to the transports exactly, row by row in the
    order the database returned the rows, the email of a visitor and then
    their text message, each where the channel is required by the message
    type of the run and the visitor can be reached on it: nothing else,
    nothing twice for one row.  It answers "no eligible visitors" when
    there is no row; otherwise [visitorsProcessed] is the number of rows,
    [sent + failed] is the number of calls, which is at most two per row,
    and [errors] has one line per failed call.  When an id is not the text
    of a uuid the run answers with an error and hands nothing over. *)
Theorem X7_outbox_of_a_run (req : Request) (s : State E) (cid : uuid) (c : Campaign)
    (admin : Admin) (t : string) :
  names_campaign E req cid ->
  campaign_of (st_db s) cid c ->
  admin_of (st_db s) c admin ->
  run_type req c t ->
  let rows := rows_of_run E req cid (st_db s) in
  let run := serve req s in
  (well_formed E req ->
   exists order,
     Permutation order rows /\
     let calls := flat_map (messages_for c admin t) order in
     st_outbox (snd run) = (st_outbox s ++ calls)%list /\
     (rows = [] /\ fst run = NoEligibleVisitors \/
      rows <> [] /\
      exists res, fst run = Processed res (List.length rows) /\
                  sent res + failed res = List.length calls /\
                  List.length calls <= 2 * List.length rows /\
                  List.length (errors res) = failed res)) /\
  (~ well_formed E req -> exists message, run = (ServerError message, s)).
Proof.
  intros Hn Hc Ha Ht rows run. split.
  - intros Hwf.
    destruct (DispatchFacts.serve_run_over E req s cid c admin t Hn Hc Ha Hwf Ht)
      as (trs & [Hperm (res & (Hrows & Ho & _ & Hsent & Hfailed & Herr) & Hresp)] & _).
    fold rows run in Hrows, Ho, Hresp, Hperm.
    exists rows. split; [exact Hperm|]. cbv zeta.
    rewrite <- (TraceFacts.calls_of_run E c admin t cid rows trs Hrows).
    split; [exact Ho|].
    destruct rows as [|row0 rows0] eqn:Hr; [left; now split|].
    right. split; [discriminate|]. exists res. split; [exact Hresp|].
    cbn [sent failed errors no_results app] in Hsent, Hfailed, Herr.
    pose proof (length_succeeded (concat trs)) as Hlen.
    rewrite Hsent, Hfailed, Herr, !length_map. split; [lia|]. split; [|reflexivity].
    rewrite <- (length_map a_call), (TraceFacts.calls_of_run E c admin t cid _ trs Hrows).
    apply messages_for_at_most_two.
  - intros Hwf. eexists.
    exact (DispatchFacts.serve_malformed E req s cid c admin Hn Hc Ha Hwf).
Qed.

Lemma single_none {R} (rows : list R) : List.length rows <> 1 -> single rows = None.
Proof. destruct rows as [|a [|b rows]]; cbn; congruence. Qed.

(** X8: a request is refused before anything is sent or logged when it
    names no campaign; when its campaign id is not the text of a uuid or
    the campaigns with that id are not exactly one; when the campaign has
    no admin or its admin is not exactly one row of [admins]; and when the
    property id or one of the visitor ids it gives is not the text of a
    uuid.  The state is then as it was. *)
Theorem X8_refused_requests_change_nothing (req : Request) (s : State E) :
  let db := st_db s in
  (Js.truthy (campaignId req) = false ->
   serve req s = (ServerError "Campaign ID is required", s)) /\
  (Js.truthy (campaignId req) = true ->
   (forall cid,
       names_campaign E req cid ->
       List.length (filter (fun c => String.eqb (c_id c) cid) (follow_up_campaigns db))
       <> 1) ->
   serve req s = (ServerError "Campaign not found", s)) /\
  (forall cid c,
      names_campaign E req cid ->
      campaign_of db cid c ->
      (forall admin, ~ admin_of db c admin) ->
      serve req s = (ServerError "Admin not found", s)) /\
  (forall cid c admin,
      names_campaign E req cid ->
      campaign_of db cid c ->
      admin_of db c admin ->
      ~ well_formed E req ->
      serve req s = (ServerError (invalid_uuid E (not_uuids E (cast_texts req))), s)).
Proof.
  intros db. split; [|split; [|split]].
  - intros H. unfold serve. now rewrite H.
  - intros H Hlen. unfold serve. rewrite H. cbn [negb]. unfold bind, read_db.
    destruct (uuid_in E (Js.or_empty (campaignId req))) as [cid|] eqn:Hid;
      [|reflexivity].
    fold db. now rewrite (single_none _ (Hlen cid (conj H Hid))).
  - intros cid c [H Hid] Hc Hno. unfold serve. rewrite H. cbn [negb].
    unfold bind, read_db. rewrite Hid.
    fold db. unfold campaign_of in Hc. rewrite Hc. cbn [single].
    destruct (c_admin_id c) as [aid|] eqn:Haid; [|reflexivity].
    destruct (single (filter _ (admins db))) as [admin|] eqn:Hadm; [|reflexivity].
    apply DispatchFacts.single_some in Hadm.
    destruct (Hno admin). now exists aid.
  - intros cid c admin Hn Hc Ha Hwf.
    exact (DispatchFacts.serve_malformed E req s cid c admin Hn Hc Ha Hwf).
Qed.

Lemma process_visitors_passed_by (req : Request) (cid : uuid) (c : Campaign)
    (admin : Admin) (rows : list VisitorData) :
  forallb (passed_by c (effectiveMessageType req c)) rows = true ->
  forall (res : Results) (s : State E),
    process_visitors req cid c admin res rows s = (res, s).
Proof.
  induction rows as [|row rows IH]; intros Hall res s; [reflexivity|].
  cbn [forallb] in Hall. apply andb_true_iff in Hall as [Hrow Hrest].
  unfold passed_by in Hrow. apply andb_true_iff in Hrow as [He Hs].
  apply negb_true_iff in He, Hs.
  cbn [process_visitors]. unfold bind at 1, process_visitor, bind.
  rewrite DispatchFacts.send_email_skip by exact He.
  rewrite DispatchFacts.send_sms_skip by exact Hs.
  now apply IH.
Qed.

(** X9: a run can answer with success and a positive [visitorsProcessed]
    without having done anything.  When the campaign and its admin are
    found, the ids of the request are texts of uuids, and every row of the
    run is passed by on both channels (the channel is not required by the
    message type of the run, the address or number is missing, or the
    campaign has no SMS template), the answer is [sent = 0], [failed = 0],
    no error line, and nothing was sent or logged. *)
Theorem X9_run_that_passes_everyone_by (req : Request) (s : State E) (cid : uuid)
    (c : Campaign) (admin : Admin) (t : string) :
  let rows := rows_of_run E req cid (st_db s) in
  names_campaign E req cid ->
  campaign_of (st_db s) cid c ->
  admin_of (st_db s) c admin ->
  well_formed E req ->
  run_type req c t ->
  rows <> [] ->
  forallb (passed_by c t) rows = true ->
  serve req s = (Processed no_results (List.length rows), s).
Proof.
  intros rows Hn Hc Ha Hwf Ht Hne Hall.
  rewrite (DispatchFacts.serve_well_formed E req s cid c admin Hn Hc Ha Hwf). fold rows.
  apply DispatchFacts.run_type_effective in Ht. rewrite <- Ht in Hall.
  destruct rows as [|row0 rows0] eqn:Hrows; [congruence|].
  cbv zeta. now rewrite (process_visitors_passed_by req cid c admin _ Hall).
Qed.

(** X10: [serve] never changes a table other than [follow_up_logs], and
    never changes or removes a row of that table: the database after a
    request is the database before it with log entries added at the end, at
    most one for each call of a transport. *)
Theorem X10_log_is_append_only (req : Request) (s : State E) :
  let run := serve req s in
  exists added out,
    st_db (snd run) = with_logs (st_db s) (follow_up_logs (st_db s) ++ added)%list /\
    st_outbox (snd run) = (st_outbox s ++ out)%list /\
    List.length added <= List.length out.
Proof.
  intros run. subst run. destruct (serve req s) as [resp s1] eqn:Hserve. cbn [snd].
  apply DispatchFacts.serve_cases in Hserve.
  destruct Hserve as [[-> _]|(cid & c & admin & _ & _ & _ & _ & Hrun)].
  { exists [], []. now rewrite DispatchFacts.with_logs_same, app_nil_r. }
  cbv zeta in Hrun. destruct Hrun as [(_ & -> & _)|(_ & res & _ & Hp)].
  { exists [], []. now rewrite DispatchFacts.with_logs_same, app_nil_r. }
  apply DispatchFacts.process_visitors_trace in Hp as (trs & _ & Ho & Hd & _).
  exists (map a_entry (filter a_stored (concat trs))), (map a_call (concat trs)).
  split; [exact Hd|]. split; [exact Ho|]. apply length_stored.
Qed.

End DispatchExtras.

(** X7 at work: Jane, who left an address and a number, and Bob, who left
    an address only, in a [both] dispatch. *)
Lemma X7_outbox_of_a_run_witness :
  let c := Sample.welcome "both" "all" in
  let req := Sample.request None in
  let s := Sample.start true (Sample.database [Sample.jane; Sample.bob] c [] []) in
  let rows := Spec.rows_of_run (Sample.env true) req Sample.campaign_id (Dispatch.st_db s) in
  exists order,
    Permutation order rows /\
    Dispatch.st_outbox (snd (Dispatch.serve req s))
    = (Dispatch.st_outbox s ++ flat_map (Terms.messages_for c Sample.alex "both") order)%list.
Proof.
  intros c req s rows.
  destruct (proj1 (X7_outbox_of_a_run (Sample.env true) req s Sample.campaign_id c
                     Sample.alex "both" (conj eq_refl eq_refl) eq_refl
                     (ex_intro _ Sample.admin_id (conj eq_refl eq_refl))
                     (or_introl (conj eq_refl eq_refl))) eq_refl)
    as (order & Hperm & Hout & _).
  exists order. split; [exact Hperm | exact Hout].
Defined.

Example outbox_of_a_run :
  let c := Sample.welcome "both" "all" in
  let s := Sample.start true (Sample.database [Sample.jane; Sample.bob] c [] []) in
  Dispatch.st_outbox (snd (Dispatch.serve (Sample.request None) s))
  = [Spec.email_for c Sample.alex (Sample.row Sample.jane);
     Spec.sms_for c Sample.alex (Sample.row Sample.jane);
     Spec.email_for c Sample.alex (Sample.row Sample.bob)].
Proof. reflexivity. Qed.

Lemma X8_refused_requests_change_nothing_witness :
  let s := Sample.start true
             (Sample.database [Sample.jane] (Sample.welcome "email" "all") [] []) in
  let req id := {| Dispatch.campaignId := Some id;
                   Dispatch.visitorIds := None;
                   Dispatch.propertyId := None;
                   Dispatch.messageType := None |} in
  Dispatch.serve (req "0d000000-0000-4000-8000-00000000ffff") s
  = (Dispatch.ServerError "Campaign not found", s) /\
  Dispatch.serve (req "welcome") s = (Dispatch.ServerError "Campaign not found", s) /\
  Dispatch.serve (Sample.request (Some ["jane"])) s
  = (Dispatch.ServerError (Uuid.invalid ["jane"]), s).
Proof.
  intros s req. split; [|split].
  - apply (proj1 (proj2 (X8_refused_requests_change_nothing (Sample.env true)
                           (req "0d000000-0000-4000-8000-00000000ffff") s)));
      [reflexivity|].
    intros cid [_ Hid]. injection Hid as <-. discriminate.
  - apply (proj1 (proj2 (X8_refused_requests_change_nothing (Sample.env true)
                           (req "welcome") s)));
      [reflexivity|].
    intros cid [_ Hid]. discriminate Hid.
  - apply (proj2 (proj2 (proj2 (X8_refused_requests_change_nothing (Sample.env true)
                                  (Sample.request (Some ["jane"])) s)))
             Sample.campaign_id (Sample.welcome "email" "all") Sample.alex).
    + split; reflexivity.
    + reflexivity.
    + exists Sample.admin_id. split; reflexivity.
    + discriminate.
Defined.

(** X9 at work: an email campaign without SMS template, sent with the
    message type overridden to [sms]. *)
Lemma X9_run_that_passes_everyone_by_witness :
  let c := Sample.campaign "email" "all" (Some "Thanks") (Some "Hi {{visitor_name}}") None in
  let s := Sample.start true (Sample.database [Sample.jane; Sample.bob] c [] []) in
  let req := {| Dispatch.campaignId := Some Sample.campaign_id;
                Dispatch.visitorIds := None;
                Dispatch.propertyId := None;
                Dispatch.messageType := Some "sms" |} in
  Dispatch.serve req s = (Dispatch.Processed Terms.no_results 2, s).
Proof.
  intros c s req.
  apply (X9_run_that_passes_everyone_by (Sample.env true) req s Sample.campaign_id c
           Sample.alex "sms").
  - split; reflexivity.
  - reflexivity.
  - exists Sample.admin_id. split; reflexivity.
  - reflexivity.
  - right. split; [reflexivity | discriminate].
  - discriminate.
  - reflexivity.
Defined.

(* ===================================================================== *)
(** * The transports *)
(* ===================================================================== *)

Section TransportExtras.
Import Db Resolver Dispatch Spec Terms Transport.
Variable secrets : Secrets.
Variable N : Network.

(** X11: a transport reports success exactly when its credentials are
    configured and the provider answers the one request with an ok status
    and a JSON body that is not [null].  Without the credentials no
    request is made.  A result never carries both a success and an error,
    and a failure never a message id.  The number in the request to Twilio
    is the formatted one. *)
Theorem X11_transport_outcomes (w : Net N) (to subject html text message : string)
    (fromName : option string) :
  let email := sendEmail secrets N w to subject html text fromName in
  let sms := sendSMS secrets N w to message in
  let configured :=
    Js.truthy (TWILIO_ACCOUNT_SID secrets) && Js.truthy (TWILIO_AUTH_TOKEN secrets)
    && Js.truthy (TWILIO_PHONE_NUMBER secrets) in
  (success (fst email) = true <->
   Js.truthy (RESEND_API_KEY secrets) = true /\
   exists data,
     fst (fetch N w (ResendEmail (Js.or_empty (RESEND_API_KEY secrets))
                       (from_name fromName ++ " <noreply@resend.dev>")
                       to subject html text)) = Responded true (Some data)) /\
  (success (fst sms) = true <->
   configured = true /\
   exists data,
     fst (fetch N w (TwilioMessage (Js.or_empty (TWILIO_ACCOUNT_SID secrets))
                       (Js.or_empty (TWILIO_AUTH_TOKEN secrets))
                       (Js.or_empty (TWILIO_PHONE_NUMBER secrets))
                       (formattedPhone to) message)) = Responded true (Some data)) /\
  (Js.truthy (RESEND_API_KEY secrets) = false ->
   email = (failure (Some "RESEND_API_KEY not configured"), w)) /\
  (configured = false -> sms = (failure (Some "Twilio credentials not configured"), w)) /\
  (forall r, r = fst email \/ r = fst sms ->
             if success r then error r = None else messageId r = None).
Proof.
  intros email sms configured. subst email sms configured.
  unfold sendEmail, sendSMS.
  destruct (Js.truthy (RESEND_API_KEY secrets)); cbn [negb];
    destruct (Js.truthy (TWILIO_ACCOUNT_SID secrets)),
             (Js.truthy (TWILIO_AUTH_TOKEN secrets)),
             (Js.truthy (TWILIO_PHONE_NUMBER secrets)); cbn [negb orb andb];
    repeat match goal with
           | |- context [fetch N w ?q] =>
               let o := fresh "o" in let w' := fresh "w" in
               destruct (fetch N w q) as [o w']; destruct o as [?|[|] [?|]]
           end;
    cbn [fst success failure error messageId];
    repeat match goal with
           | |- _ /\ _ => split
           | |- _ <-> _ => split
           end;
    try (intros ? [->| ->]; reflexivity);
    try (intros H; discriminate H);
    try (intros [H [d' H']]; discriminate);
    try (intros _; reflexivity);
    try (intros _; split; [reflexivity|eexists; reflexivity]).
Qed.

Variable insert : Net N -> FollowUpLog -> bool * Net N.
Hypothesis no_key : Js.truthy (RESEND_API_KEY secrets) = false.

Lemma sendEmail_no_key (w : Net N) (to subject html text : string)
    (fromName : option string) :
  sendEmail secrets N w to subject html text fromName
  = (failure (Some "RESEND_API_KEY not configured"), w).
Proof. unfold sendEmail. now rewrite no_key. Qed.

(** The network is left alone by a run on the email channel when the
    inserts leave it alone. *)
Lemma process_visitors_no_request (req : Request) (cid : uuid) (c : Campaign)
    (admin : Admin) (rows : list VisitorData) :
  (forall w fl, snd (insert w fl) = w) ->
  requires_sms (effectiveMessageType req c) = false ->
  forall (res : Results) (s : State (env secrets N insert)),
    st_world (snd (process_visitors req cid c admin res rows s)) = st_world s.
Proof.
  intros Hins Hsms. induction rows as [|row rows IH]; intros res s; [reflexivity|].
  cbn [process_visitors]. unfold bind at 1.
  destruct (process_visitor req cid c admin res row s) as [res1 s1] eqn:H1.
  rewrite IH. unfold process_visitor, bind in H1.
  set (eff := effectiveMessageType req c) in *.
  set (vars := templateVariables row admin) in *.
  destruct (requires_email eff && Js.truthy (visitor_email row)) eqn:He.
  - apply andb_true_iff in He as [He1 He2].
    destruct (DispatchFacts.send_email_sends (env secrets N insert) cid c eff vars row
                res s He1 He2) as (r & w1 & w2 & pid & ok & Hsend & Hi & Heq).
    cbv zeta in Hsend, Hi, Heq. rewrite Heq in H1.
    rewrite DispatchFacts.send_sms_skip in H1 by now rewrite Hsms.
    injection H1 as _ <-.
    cbn [env Dispatch.sendEmail insert_follow_up_log] in Hsend, Hi.
    rewrite sendEmail_no_key in Hsend. injection Hsend as _ <-.
    cbn [st_world].
    match type of Hi with insert ?w0 ?fl = _ => pose proof (Hins w0 fl) as Hw end.
    rewrite Hi in Hw. exact Hw.
  - rewrite DispatchFacts.send_email_skip in H1 by exact He.
    rewrite DispatchFacts.send_sms_skip in H1 by now rewrite Hsms.
    now injection H1 as _ <-.
Qed.

Lemma eligible_key_missing (cid : uuid) (pid : option uuid) (db : Database)
    (added : list FollowUpLog) :
  Forall key_missing_entry added ->
  get_eligible_visitors (with_logs db (follow_up_logs db ++ added)%list) cid pid
  = get_eligible_visitors db cid pid.
Proof.
  intros Hadded. unfold get_eligible_visitors.
  change (joined_rows (with_logs db (follow_up_logs db ++ added)%list) cid)
    with (joined_rows db cid).
  f_equal. apply filter_ext. intros r. rewrite where_clause_app.
  replace (existsb _ added) with false; [apply andb_true_r|].
  symmetry. apply not_true_is_false. intros Hex.
  apply existsb_exists in Hex as (fl & Hin & Hb).
  apply ResolverFacts.holds_log_blocks in Hb.
  rewrite Forall_forall in Hadded. destruct (Hadded fl Hin) as (_ & Hst & _).
  exact (failed_is_neutral cid fl (or_introl Hst) _ Hb).
Qed.

Lemma email_calls (c : Campaign) (admin : Admin) (t : string) (rows : list VisitorData) :
  requires_sms t = false ->
  List.length (flat_map (messages_for c admin t) rows)
  = List.length (filter (fun r => requires_email t && Js.truthy (visitor_email r)) rows).
Proof.
  intros Hsms. induction rows as [|row rows IH]; [reflexivity|].
  cbn [flat_map filter]. rewrite length_app, IH. unfold messages_for. rewrite Hsms.
  cbn [andb]. rewrite app_nil_r.
  destruct (requires_email t && Js.truthy (visitor_email row)); reflexivity.
Qed.

Lemma none_succeeded (l : list Attempt) :
  Forall (fun a => success (a_result a) = false) l ->
  filter succeeded l = [] /\ filter not_succeeded l = l.
Proof.
  induction 1 as [|a l Ha _ [IH1 IH2]]; [now split|].
  cbn [filter]. unfold succeeded at 1, not_succeeded at 1. rewrite Ha. cbn [negb].
  now rewrite IH1, IH2.
Qed.

(** X12: with [RESEND_API_KEY] not set, a run on the email channel only
    sends nothing, yet it answers with success: every attempt is answered
    by the transport with the error [RESEND_API_KEY not configured], every
    row with an address is counted as failed, and the entry handed to the
    log for it is a [failed] email entry with that error, stored or not as
    the insert decides.  No HTTP request is made: the network is as it was
    when the inserts leave it alone.  As failed entries do not count, the
    next run is over the same rows. *)
Theorem X12_run_without_email_key (req : Request) (s : State (env secrets N insert))
    (cid : uuid) (c : Campaign) (admin : Admin) (t : string) :
  let E := env secrets N insert in
  let rows := rows_of_run E req cid (st_db s) in
  let with_address := filter (fun r => requires_email t && Js.truthy (visitor_email r)) rows in
  let run := serve req s in
  names_campaign E req cid ->
  campaign_of (st_db s) cid c ->
  admin_of (st_db s) c admin ->
  well_formed E req ->
  run_type req c t ->
  requires_sms t = false ->
  (exists order trs,
      run_over c admin t cid rows s run order trs /\
      Forall (fun a => a_result a = failure (Some "RESEND_API_KEY not configured") /\
                       key_missing_entry (a_entry a)) (concat trs) /\
      List.length (concat trs) = List.length with_address) /\
  ((forall w fl, snd (insert w fl) = w) -> st_world (snd run) = st_world s) /\
  Permutation (rows_of_run E req cid (st_db (snd run))) rows /\
  (rows <> [] ->
   exists res, fst run = Processed res (List.length rows) /\
               sent res = 0 /\
               failed res = List.length with_address).
Proof.
  intros E rows with_address run Hn Hc Ha Hwf Ht Hsms. subst E.
  set (E := env secrets N insert) in *.
  destruct (DispatchFacts.serve_run_over E req s cid c admin t Hn Hc Ha Hwf Ht)
    as (trs & Hrun & _).
  fold rows run in Hrun.
  pose proof Hrun as [_ (res & (Hrows & _ & Hdb & Hsent & Hfailed & _) & Hresp)].
  assert (Hall : Forall (fun a => a_result a = failure (Some "RESEND_API_KEY not configured")
                                  /\ key_missing_entry (a_entry a)) (concat trs)).
  { apply Forall_forall. intros a Hin.
    destruct (TraceFacts.attempt_of_row E c admin t cid rows trs a Hrows Hin)
      as (row & _ & Hentry & [[w Hres] _] & Hcall).
    unfold messages_for in Hcall. rewrite Hsms in Hcall. cbn [andb] in Hcall.
    rewrite app_nil_r in Hcall.
    destruct (requires_email t && Js.truthy (visitor_email row)); [|destruct Hcall].
    destruct Hcall as [Hcall|[]]. rewrite <- Hcall in Hres. cbn [email_for] in Hres.
    cbn [E env Dispatch.sendEmail] in Hres. rewrite sendEmail_no_key in Hres.
    cbn [fst] in Hres. split; [exact Hres|].
    unfold entry_for in Hentry. rewrite <- Hcall, Hres in Hentry. cbn [email_for] in Hentry.
    destruct Hentry as (_ & _ & _ & Hst & _ & Herr & Htype & _).
    split; [exact Htype|]. split; [exact Hst | exact Herr]. }
  assert (Hlen : List.length (concat trs) = List.length with_address).
  { rewrite <- (length_map a_call), (TraceFacts.calls_of_run E c admin t cid rows trs Hrows).
    now apply email_calls. }
  split; [exists rows, trs; auto|]. split; [|split].
  - intros Hins. subst run.
    rewrite (DispatchFacts.serve_well_formed E req s cid c admin Hn Hc Ha Hwf).
    fold rows. destruct rows as [|row0 rows0]; [reflexivity|]. cbv zeta.
    apply DispatchFacts.run_type_effective in Ht. rewrite <- Ht in Hsms.
    pose proof (process_visitors_no_request req cid c admin (row0 :: rows0) Hins Hsms
                  no_results s) as Hw.
    destruct (process_visitors req cid c admin no_results (row0 :: rows0) s)
      as [r s0] eqn:Hp.
    change (st_world (snd (r, s0)) = st_world s). rewrite <- Hp. exact Hw.
  - unfold rows_of_run at 1. rewrite Hdb, eligible_key_missing; [apply Permutation_refl|].
    apply Forall_forall. intros fl Hfl. apply in_map_iff in Hfl as (a & <- & Ha').
    apply filter_In in Ha' as [Ha' _]. rewrite Forall_forall in Hall.
    now apply Hall.
  - intros Hne. exists res. split.
    + rewrite Hresp. destruct rows; [congruence | reflexivity].
    + assert (Hnone : Forall (fun a => success (a_result a) = false) (concat trs)).
      { eapply Forall_impl; [|exact Hall]. intros a [-> _]. reflexivity. }
      apply none_succeeded in Hnone as [H1 H2].
      rewrite Hsent, Hfailed, H1, H2. cbn [sent failed no_results List.length].
      split; [reflexivity | exact Hlen].
Qed.

End TransportExtras.

(** X12 at work: no secret is set, and Jane and Bob are to be sent an
    email. *)
Lemma X12_run_without_email_key_witness :
  let c := Sample.welcome "email" "all" in
  let s : Dispatch.State (Terms.deployed Terms.no_secrets Terms.recording) :=
    {| Dispatch.st_db := Sample.database [Sample.jane; Sample.bob] c [] [];
       Dispatch.st_world :=
         ([] : Dispatch.World (Terms.deployed Terms.no_secrets Terms.recording));
       Dispatch.st_outbox := [] |} in
  Dispatch.st_world (snd (Dispatch.serve (Sample.request None) s)) = Dispatch.st_world s.
Proof.
  intros c s.
  apply (proj1 (proj2 (X12_run_without_email_key Terms.no_secrets Terms.recording
                         (fun w _ => (true, w)) eq_refl (Sample.request None) s
                         Sample.campaign_id c Sample.alex "email"
                         (conj eq_refl eq_refl) eq_refl
                         (ex_intro _ Sample.admin_id (conj eq_refl eq_refl)) eq_refl
                         (or_introl (conj eq_refl eq_refl)) eq_refl))).
  reflexivity.
Defined.

(* ===================================================================== *)
(** * Template validation *)
(* ===================================================================== *)

Section ValidationExtras.
Import Validations Terms.

Lemma includes_char_cons (x c : ascii) (s : string) :
  Js.includes (String x "") (String c s) = Ascii.eqb x c || Js.includes (String x "") s.
Proof. cbn [Js.includes Js.starts_with]. now rewrite andb_true_r. Qed.

Lemma includes_char_app (x : ascii) (a b : string) :
  Js.includes (String x "") (a ++ b)
  = Js.includes (String x "") a || Js.includes (String x "") b.
Proof.
  induction a as [|c a IH].
  - cbn [append]. destruct b; reflexivity.
  - cbn [append]. rewrite !includes_char_cons, IH. apply orb_assoc.
Qed.

Lemma push_new_NoDup (variables : list string) (variable : string) :
  NoDup variables -> NoDup (push_new variables variable).
Proof.
  intros H. unfold push_new.
  destruct (existsb (String.eqb variable) variables) eqn:He; [exact H|].
  apply NoDup_app; [exact H | repeat constructor; intros [] |].
  intros x Hx [->|[]].
  assert (existsb (String.eqb x) variables = true)
    by (apply existsb_exists; exists x; split; [exact Hx | apply String.eqb_refl]).
  congruence.
Qed.

Lemma push_new_Forall (P : string -> Prop) (variables : list string) (variable : string) :
  Forall P variables -> P variable -> Forall P (push_new variables variable).
Proof.
  intros H Hv. unfold push_new. destruct (existsb _ _); [exact H|].
  apply Forall_app. split; [exact H | now constructor].
Qed.

Lemma until_close_no_close (s : string) : Js.includes "}" (until_close s) = false.
Proof.
  induction s as [|c s IH]; [reflexivity|]. cbn [until_close].
  destruct (Ascii.eqb c "}") eqn:Hc; [reflexivity|].
  rewrite includes_char_cons, IH, Ascii.eqb_sym, Hc. reflexivity.
Qed.

Lemma trimStart_no_close (s : string) :
  Js.includes "}" s = false -> Js.includes "}" (trimStart s) = false.
Proof.
  induction s as [|c s IH]; intros H; [reflexivity|]. cbn [trimStart].
  destruct (is_space c); [|exact H].
  rewrite includes_char_cons in H. apply orb_false_iff in H as [_ H]. now apply IH.
Qed.

Lemma trimEnd_no_close (s : string) :
  Js.includes "}" s = false -> Js.includes "}" (trimEnd s) = false.
Proof.
  induction s as [|c s IH]; intros H; [reflexivity|]. cbn [trimEnd].
  rewrite includes_char_cons in H. apply orb_false_iff in H as [Hc H].
  destruct (is_space c && String.eqb (trimEnd s) ""); [reflexivity|].
  rewrite includes_char_cons, Hc. now apply IH.
Qed.

Lemma match_at_name (s name : string) (len : nat) :
  match_at s = Some (name, len) ->
  Js.includes "}" name = false /\ len = String.length name + 4 /\
  Js.starts_with "{{" s = true.
Proof.
  unfold match_at. destruct (Js.starts_with "{{" s); [|discriminate].
  destruct (_ && _); [|discriminate].
  intros H. injection H as <- <-. split; [apply until_close_no_close|]. now split.
Qed.

Lemma exec_loop_invariant (P : string -> Prop) :
  (forall name, Js.includes "}" name = false -> P (trim name)) ->
  forall s skip variables,
    NoDup variables /\ Forall P variables ->
    NoDup (exec_loop skip s variables) /\ Forall P (exec_loop skip s variables).
Proof.
  intros HP. induction s as [|c s IH]; intros skip variables H; [exact H|].
  cbn [exec_loop]. destruct skip as [|k]; [|now apply IH].
  destruct (match_at (String c s)) as [[name len]|] eqn:Hm; [|now apply IH].
  apply match_at_name in Hm as (Hn & _ & _).
  apply IH. destruct H as [H1 H2].
  split; [now apply push_new_NoDup | apply push_new_Forall; auto].
Qed.

Lemma exec_loop_no_open :
  forall s skip variables,
    Js.includes "{{" s = false -> exec_loop skip s variables = variables.
Proof.
  induction s as [|c s IH]; intros skip variables H; [reflexivity|].
  apply JsFacts.includes_cons in H as [Hs Hi].
  cbn [exec_loop]. destruct skip as [|k]; [|now apply IH].
  unfold match_at. rewrite Hs. now apply IH.
Qed.

(** X13: the list [extractTemplateVariables] returns has no name twice,
    and no name in it has a closing brace; of a text without two opening
    braces in a row it is empty. *)
Theorem X13_extracted_names (template : string) :
  NoDup (extractTemplateVariables template) /\
  Forall (fun variable => Js.includes "}" variable = false)
    (extractTemplateVariables template) /\
  (Js.includes "{{" template = false -> extractTemplateVariables template = []).
Proof.
  unfold extractTemplateVariables.
  destruct (exec_loop_invariant (fun v => Js.includes "}" v = false)) with
    (s := template) (skip := 0) (variables := @nil string) as [H1 H2].
  - intros name H. unfold trim. now apply trimEnd_no_close, trimStart_no_close.
  - split; constructor.
  - split; [exact H1|]. split; [exact H2|]. apply exec_loop_no_open.
Qed.

Lemma fold_classify (l : list string) :
  forall valid invalid,
    fold_left classify l (valid, invalid)
    = ((valid ++ filter available l)%list,
       (invalid ++ filter (fun v => negb (available v)) l)%list).
Proof.
  induction l as [|v l IH]; intros valid invalid.
  - cbn. now rewrite !app_nil_r.
  - cbn [fold_left filter]. unfold classify at 2. fold (available v).
    destruct (available v); cbn [negb]; rewrite IH, <- app_assoc; reflexivity.
Qed.

Lemma no_invalid (l : list string) :
  Nat.eqb (List.length (filter (fun v => negb (available v)) l)) 0 = forallb available l.
Proof.
  induction l as [|v l IH]; [reflexivity|]. cbn [filter forallb].
  destruct (available v); [exact IH | reflexivity].
Qed.

Lemma validate_filters (template : string) :
  validateTemplateVariables template
  = {| isValid := forallb available (extractTemplateVariables template);
       invalidVariables :=
         filter (fun v => negb (available v)) (extractTemplateVariables template);
       validVariables := filter available (extractTemplateVariables template) |}.
Proof.
  unfold validateTemplateVariables. rewrite fold_classify. cbn [app].
  now rewrite no_invalid.
Qed.

(** X14: [validateTemplateVariables] splits the extracted names, in their
    order, into the available ones and the others, and a template is valid
    exactly when every extracted name is available. *)
Theorem X14_validation_partitions (template : string) :
  let names := extractTemplateVariables template in
  let v := validateTemplateVariables template in
  validVariables v = filter available names /\
  invalidVariables v = filter (fun x => negb (available x)) names /\
  isValid v = forallb available names /\
  (forall x, In x names <-> In x (validVariables v) \/ In x (invalidVariables v)).
Proof.
  intros names v. subst v. rewrite validate_filters. fold names.
  cbn [validVariables invalidVariables isValid].
  repeat split; try reflexivity.
  - intros H. destruct (available x) eqn:Ha.
    + left. apply filter_In. now split.
    + right. apply filter_In. rewrite Ha. now split.
  - intros [H|H]; now apply filter_In in H.
Qed.

End ValidationExtras.

Section InsertedVariables.
Import Validations Terms.

Lemma until_close_app (a b : string) :
  Js.includes "}" a = true -> until_close (a ++ b) = until_close a.
Proof.
  induction a as [|c a IH]; intros H; [discriminate|].
  cbn [append until_close]. destruct (Ascii.eqb c "}") eqn:Hc; [reflexivity|].
  rewrite includes_char_cons, Ascii.eqb_sym, Hc in H. now rewrite IH.
Qed.

Lemma until_close_closed (v rest : string) :
  Js.includes "}" v = false -> until_close (v ++ String "}" rest) = v.
Proof.
  induction v as [|c v IH]; intros H; [reflexivity|].
  rewrite includes_char_cons in H. apply orb_false_iff in H as [Hc H].
  cbn [append until_close]. rewrite Ascii.eqb_sym, Hc. now rewrite IH.
Qed.

(** Behind the captured name comes the closing brace that ended it. *)
Lemma drop_until_close (a : string) :
  Js.includes "}" a = true ->
  exists rest, Js.drop (String.length (until_close a)) a = String "}" rest.
Proof.
  induction a as [|c a IH]; intros H; [discriminate|].
  cbn [until_close]. destruct (Ascii.eqb c "}") eqn:Hc.
  - apply Ascii.eqb_eq in Hc as ->. now exists a.
  - rewrite includes_char_cons, Ascii.eqb_sym, Hc in H. cbn [String.length Js.drop].
    now apply IH.
Qed.

Lemma drop_app (n : nat) :
  forall a b, n <= String.length a -> Js.drop n (a ++ b) = Js.drop n a ++ b.
Proof.
  induction n as [|n IH]; intros a b H; [reflexivity|].
  destruct a as [|c a]; [cbn in H; lia|]. cbn [append Js.drop]. apply IH.
  cbn in H. lia.
Qed.

Lemma until_close_length (a : string) : String.length (until_close a) <= String.length a.
Proof.
  induction a as [|c a IH]; [cbn; lia|]. cbn [until_close].
  destruct (Ascii.eqb c "}"); cbn [String.length]; lia.
Qed.

Lemma dangling_cons (c : ascii) (s : string) :
  dangling (String c s) = false ->
  (Ascii.eqb c "{" = true -> Js.includes "}" s = true) /\ dangling s = false.
Proof.
  cbn [dangling]. intros H. apply orb_false_iff in H as [H1 H2]. split; [|exact H2].
  intros Hc. rewrite Hc in H1. cbn [andb] in H1. now apply negb_false_iff in H1.
Qed.

(** A text that follows does not change the matches of a text in which
    every opening brace has a closing one behind it. *)
Lemma match_at_app (c : ascii) (a b : string) :
  dangling (String c a) = false -> Js.starts_with "}" b = false ->
  match_at (String c a ++ b) = match_at (String c a).
Proof.
  intros Hd Hb. apply dangling_cons in Hd as [Hc Hd].
  unfold match_at. cbn [append Js.starts_with].
  destruct (Ascii.eqb "{" c) eqn:Hc1; [|reflexivity].
  rewrite Ascii.eqb_sym in Hc1. specialize (Hc Hc1).
  destruct a as [|d a]; [discriminate|].
  apply dangling_cons in Hd as [Hd1 Hd].
  cbn [append andb]. destruct (Ascii.eqb "{" d) eqn:Hd2; [|reflexivity].
  rewrite Ascii.eqb_sym in Hd2. specialize (Hd1 Hd2).
  cbn [andb Js.drop]. rewrite until_close_app by exact Hd1.
  rewrite drop_app by apply until_close_length.
  destruct (drop_until_close a Hd1) as [rest ->].
  destruct rest as [|e rest]; [|reflexivity].
  cbn [append Js.starts_with]. cbn [Js.starts_with] in Hb.
  destruct b as [|x b]; [reflexivity|].
  rewrite Ascii.eqb_refl. cbn [andb]. rewrite andb_true_r in Hb. now rewrite Hb.
Qed.

Lemma starts_with_drop (p : string) (n : nat) :
  forall t, Js.starts_with p (Js.drop n t) = true ->
            p = "" \/ n + String.length p <= String.length t.
Proof.
  assert (H0 : forall q t, Js.starts_with q t = true -> String.length q <= String.length t).
  { induction q as [|x q IH]; intros t Ht; [cbn; lia|].
    destruct t as [|y t]; [discriminate|]. cbn [Js.starts_with] in Ht.
    apply andb_true_iff in Ht as [_ Ht]. apply IH in Ht. cbn [String.length]. lia. }
  induction n as [|n IH]; intros t Ht.
  - right. cbn [Js.drop] in Ht. apply H0 in Ht. lia.
  - destruct t as [|x t].
    + cbn [Js.drop] in Ht. destruct p; [now left | discriminate].
    + cbn [Js.drop] in Ht. apply IH in Ht as [Ht|Ht]; [now left|].
      right. cbn [String.length]. lia.
Qed.

Lemma match_at_length (s name : string) (len : nat) :
  match_at s = Some (name, len) -> len <= String.length s.
Proof.
  unfold match_at. destruct (Js.starts_with "{{" s) eqn:Hs; [|discriminate].
  destruct (_ && _) eqn:H; [|discriminate].
  intros Heq. injection Heq as _ <-.
  apply andb_true_iff in H as [_ H].
  apply starts_with_drop in H as [H|H]; [discriminate|].
  destruct s as [|c [|d s]]; cbn [Js.starts_with] in Hs;
    try (rewrite ?andb_false_r in Hs; discriminate).
  cbn [Js.drop String.length] in H |- *. lia.
Qed.

Lemma exec_loop_app (b : string) :
  Js.starts_with "}" b = false ->
  forall a skip variables,
    dangling a = false -> skip <= String.length a ->
    exec_loop skip (a ++ b) variables = exec_loop 0 b (exec_loop skip a variables).
Proof.
  intros Hb. induction a as [|c a IH]; intros skip variables Hd Hk.
  - cbn in Hk. now replace skip with 0 by lia.
  - pose proof (match_at_app c a b Hd Hb) as Hm.
    pose proof (dangling_cons c a Hd) as [_ Hd'].
    cbn [append] in Hm |- *. cbn [exec_loop]. cbn [String.length] in Hk.
    destruct skip as [|k]; [|apply IH; [exact Hd' | lia]].
    rewrite Hm. destruct (match_at (String c a)) as [[name len]|] eqn:Hma.
    + apply match_at_length in Hma. cbn [String.length] in Hma.
      apply IH; [exact Hd' | lia].
    + apply IH; [exact Hd' | lia].
Qed.

Lemma exec_loop_skip_all :
  forall s skip variables,
    String.length s <= skip -> exec_loop skip s variables = variables.
Proof.
  induction s as [|c s IH]; intros skip variables H; [reflexivity|].
  cbn [String.length] in H. destruct skip as [|k]; [lia|].
  cbn [exec_loop]. apply IH. lia.
Qed.

Lemma append_length (a b : string) :
  String.length (a ++ b) = String.length a + String.length b.
Proof. induction a as [|c a IH]; cbn; [reflexivity | now rewrite IH]. Qed.

Lemma match_at_placeholder (variable : string) :
  variable <> "" -> Js.includes "}" variable = false ->
  match_at (Template.placeholder variable) = Some (variable, String.length variable + 4).
Proof.
  intros Hne Hv. unfold Template.placeholder, match_at.
  change ("{{" ++ variable ++ "}}") with (String "{" (String "{" (variable ++ "}}"))).
  cbn [Js.starts_with Js.drop]. rewrite !Ascii.eqb_refl. cbn [andb].
  rewrite (until_close_closed variable "}" Hv), JsFacts.drop_append.
  destruct (String.eqb variable "") eqn:He; [apply String.eqb_eq in He; congruence|].
  reflexivity.
Qed.

Lemma exec_loop_at_match (c : ascii) (s name : string) (len : nat)
    (variables : list string) :
  match_at (String c s) = Some (name, len) ->
  exec_loop 0 (String c s) variables
  = exec_loop (len - 1) s (push_new variables (trim name)).
Proof. intros H. change (exec_loop 0 (String c s) variables) with
  (match match_at (String c s) with
   | Some (name, len) => exec_loop (len - 1) s (push_new variables (trim name))
   | None => exec_loop 0 s variables
   end). now rewrite H.
Qed.

(** One placeholder: one name, trimmed. *)
Lemma exec_loop_placeholder (variable : string) (variables : list string) :
  variable <> "" -> Js.includes "}" variable = false ->
  exec_loop 0 (Template.placeholder variable) variables
  = push_new variables (trim variable).
Proof.
  intros Hne Hv. pose proof (match_at_placeholder variable Hne Hv) as Hm.
  unfold Template.placeholder in Hm |- *.
  change ("{{" ++ variable ++ "}}") with (String "{" (String "{" (variable ++ "}}")))
    in Hm |- *.
  rewrite (exec_loop_at_match _ _ _ _ _ Hm).
  apply exec_loop_skip_all. cbn [String.length]. rewrite append_length. cbn. lia.
Qed.

Lemma forallb_push_new (variables : list string) (variable : string) :
  forallb available (push_new variables variable)
  = forallb available variables
    && (existsb (String.eqb variable) variables || available variable).
Proof.
  unfold push_new. destruct (existsb (String.eqb variable) variables) eqn:He.
  - now rewrite andb_true_r.
  - rewrite forallb_app. cbn [forallb orb]. now rewrite andb_true_r.
Qed.

(** X15: the button that inserts a variable.  When every opening brace of
    the current value has a closing brace somewhere behind it, appending
    the placeholder of a non-empty name without closing brace adds that
    name, trimmed, to the extracted names unless it was among them, and
    changes nothing else; so inserting an available name into a valid
    template gives a valid template. *)
Theorem X15_inserted_variable_is_extracted (currentValue : option string)
    (variable : string) :
  dangling (Js.or_empty currentValue) = false ->
  variable <> "" ->
  Js.includes "}" variable = false ->
  let inserted := Dashboard.insertTemplateVariable currentValue variable in
  extractTemplateVariables inserted
  = push_new (extractTemplateVariables (Js.or_empty currentValue)) (trim variable) /\
  (isValid (validateTemplateVariables (Js.or_empty currentValue)) = true ->
   available (trim variable) = true ->
   isValid (validateTemplateVariables inserted) = true).
Proof.
  intros Hd Hne Hv inserted. subst inserted.
  assert (Heq : extractTemplateVariables
                  (Dashboard.insertTemplateVariable currentValue variable)
                = push_new (extractTemplateVariables (Js.or_empty currentValue))
                    (trim variable)).
  { unfold Dashboard.insertTemplateVariable, extractTemplateVariables.
    rewrite exec_loop_app; [|reflexivity|exact Hd|lia].
    now apply exec_loop_placeholder. }
  split; [exact Heq|].
  rewrite !validate_filters. cbn [isValid]. rewrite Heq, forallb_push_new.
  intros -> ->. now rewrite orb_true_r.
Qed.

Lemma X15_inserted_variable_is_extracted_witness :
  Validations.extractTemplateVariables
    (Dashboard.insertTemplateVariable (Some "Hi {{visitor_name}}, thanks {for} coming. ")
       "property_name")
  = ["visitor_name"; "property_name"].
Proof.
  apply (X15_inserted_variable_is_extracted
           (Some "Hi {{visitor_name}}, thanks {for} coming. ") "property_name");
    [reflexivity | discriminate | reflexivity].
Defined.

End InsertedVariables.

Section AcceptedCampaigns.
Import Db Resolver Dispatch Spec Validations Terms.

Lemma starts_with_closed (key w : string) :
  Js.includes "}" key = false -> Js.includes "}" w = false ->
  Js.starts_with (key ++ "}}") (w ++ "}}") = String.eqb key w.
Proof.
  revert w. induction key as [|c key IH]; intros w Hk Hw.
  - destruct w as [|d w]; [reflexivity|].
    rewrite includes_char_cons in Hw. apply orb_false_iff in Hw as [Hd _].
    cbn [append Js.starts_with String.eqb]. now rewrite Hd.
  - rewrite includes_char_cons in Hk. apply orb_false_iff in Hk as [Hc Hk].
    destruct w as [|d w].
    + cbn [append Js.starts_with String.eqb]. rewrite Ascii.eqb_sym, Hc. reflexivity.
    + rewrite includes_char_cons in Hw. apply orb_false_iff in Hw as [_ Hw].
      cbn [append Js.starts_with String.eqb]. rewrite IH by assumption.
      destruct (Ascii.eqb c d); reflexivity.
Qed.

Lemma includes_needs_first (x : ascii) (p s : string) :
  Js.includes (String x "") s = false -> Js.includes (String x p) s = false.
Proof.
  induction s as [|c s IH]; intros H; [reflexivity|].
  rewrite includes_char_cons in H. apply orb_false_iff in H as [Hc H].
  cbn [Js.includes Js.starts_with]. rewrite Hc. cbn [andb orb].
  apply IH in H. exact H.
Qed.

(** One placeholder holds another only when the names are the same. *)
Lemma includes_placeholder (key w : string) :
  Js.includes "}" key = false ->
  Js.includes "{" w = false -> Js.includes "}" w = false ->
  Js.includes (Template.placeholder key) (Template.placeholder w) = String.eqb key w.
Proof.
  intros Hk Hw1 Hw2. unfold Template.placeholder.
  change ("{{" ++ key ++ "}}") with (String "{" (String "{" (key ++ "}}"))).
  change ("{{" ++ w ++ "}}") with (String "{" (String "{" (w ++ "}}"))).
  assert (Hrest : Js.includes (String "{" (String "{" (key ++ "}}"))) (w ++ "}}") = false).
  { apply includes_needs_first. rewrite includes_char_app, Hw1. reflexivity. }
  assert (Hfirst : Js.starts_with (String "{" (key ++ "}}")) (w ++ "}}") = false).
  { destruct w as [|d w]; [reflexivity|].
    rewrite includes_char_cons in Hw1. apply orb_false_iff in Hw1 as [Hd _].
    cbn [append Js.starts_with]. now rewrite Hd. }
  cbn [Js.includes] in Hrest |- *.
  cbn [Js.starts_with] in Hfirst |- *. rewrite !Ascii.eqb_refl. cbn [andb].
  rewrite starts_with_closed by assumption.
  rewrite Hfirst. cbn [andb orb].
  destruct (w ++ "}}") eqn:Hw; [destruct w; discriminate|].
  rewrite Hrest. now rewrite !orb_false_r.
Qed.

(** X16: the validator reads the name of a placeholder with the white
    space around it removed, the renderer does not.  A placeholder whose
    name is an available variable with white space before or after it
    passes the validation and is left in the message as it is, for every
    visitor and admin. *)
Theorem X16_padded_placeholder_is_kept (name : string) (row : VisitorData) (admin : Admin) :
  Js.includes "{" name = false ->
  Js.includes "}" name = false ->
  trim name <> name ->
  available (trim name) = true ->
  isValid (validateTemplateVariables (Template.placeholder name)) = true /\
  Template.replaceTemplateVariables (Template.placeholder name)
    (templateVariables row admin)
  = Template.placeholder name.
Proof.
  intros H1 H2 Hpad Ha. split.
  - rewrite validate_filters. cbn [isValid]. unfold extractTemplateVariables.
    rewrite exec_loop_placeholder; [|intros ->; now apply Hpad|exact H2].
    cbn [push_new existsb app forallb]. now rewrite Ha.
  - apply TemplateFacts.render_no_placeholder. intros key value Hin.
    rewrite includes_placeholder; try assumption.
    + apply String.eqb_neq. intros <-.
      unfold templateVariables in Hin. cbn [In] in Hin.
      repeat (destruct Hin as [Hin|Hin];
              [injection Hin as <- _; now apply Hpad|]).
      exact Hin.
    + unfold templateVariables in Hin. cbn [In] in Hin.
      repeat (destruct Hin as [Hin|Hin]; [injection Hin as <- _; reflexivity|]).
      destruct Hin.
Qed.

Lemma X16_padded_placeholder_is_kept_witness :
  Validations.isValid
    (Validations.validateTemplateVariables (Template.placeholder " visitor_name ")) = true /\
  Template.replaceTemplateVariables (Template.placeholder " visitor_name ")
    (Dispatch.templateVariables (Sample.row Sample.jane) Sample.alex)
  = "{{ visitor_name }}".
Proof.
  apply (X16_padded_placeholder_is_kept " visitor_name " (Sample.row Sample.jane)
           Sample.alex); [reflexivity | reflexivity | discriminate | reflexivity].
Defined.

Lemma blank_false (x : option string) : blank x = false -> Js.truthy x = true.
Proof. unfold blank. intros H. apply orb_false_iff in H as [H _]. now apply negb_false_iff. Qed.

Lemma when_nil (b : bool) (issue : Issue) : when b issue = [] -> b = false.
Proof. destruct b; [discriminate | reflexivity]. Qed.

Lemma variable_issues_nil (x : option string) (label path : string) :
  variable_issues x label path = [] ->
  forallb available (extractTemplateVariables (Js.or_empty x)) = true.
Proof.
  unfold variable_issues. destruct (Js.truthy x) eqn:Hx.
  - intros H. apply when_nil in H. apply negb_false_iff in H.
    now rewrite validate_filters in H.
  - intros _. destruct x as [[|c s]|]; [reflexivity | discriminate | reflexivity].
Qed.

(** X17: what the form lets through, the dispatch can send.  A campaign
    saved from form data without issue has a subject and an email template
    when its message type requires email and an SMS template when it
    requires SMS, so a run of its own message type passes no visitor by for
    lack of a template; and every placeholder name the validator reads in
    its templates is an available variable. *)
Theorem X17_accepted_campaign_has_templates (id admin_id : uuid) (data : CampaignFormData) :
  conditional_issues data = [] ->
  let c := Dashboard.onSubmitCampaign id admin_id data in
  (requires_email (c_message_type c) = true ->
   Js.truthy (c_email_subject c) = true /\ Js.truthy (c_email_template c) = true) /\
  (requires_sms (c_message_type c) = true -> Js.truthy (c_sms_template c) = true) /\
  (forall row,
      passed_by c (c_message_type c) row = true ->
      (requires_email (c_message_type c) = true -> Js.truthy (visitor_email row) = false) /\
      (requires_sms (c_message_type c) = true -> Js.truthy (visitor_phone row) = false)) /\
  forallb available (extractTemplateVariables (Js.or_empty (c_email_template c))) = true /\
  forallb available (extractTemplateVariables (Js.or_empty (c_sms_template c))) = true.
Proof.
  intros H c. unfold conditional_issues in H.
  apply app_eq_nil in H as [He H]. apply app_eq_nil in H as [Hs H].
  apply app_eq_nil in H as [Hve Hvs].
  assert (Hemail : requires_email (c_message_type c) = true ->
                   Js.truthy (c_email_subject c) = true /\
                   Js.truthy (c_email_template c) = true).
  { intros Hr. change (requiresEmailTemplate (message_type data) = true) in Hr.
    rewrite Hr in He. apply app_eq_nil in He as [H1 H2].
    apply when_nil in H1, H2. split; now apply blank_false. }
  assert (Hsms : requires_sms (c_message_type c) = true ->
                 Js.truthy (c_sms_template c) = true).
  { intros Hr. change (requiresSMSTemplate (message_type data) = true) in Hr.
    rewrite Hr in Hs. apply when_nil in Hs. now apply blank_false. }
  split; [exact Hemail|]. split; [exact Hsms|].
  split; [|split; [exact (variable_issues_nil _ _ _ Hve)
                  | exact (variable_issues_nil _ _ _ Hvs)]].
  intros row Hp. unfold passed_by in Hp. apply andb_true_iff in Hp as [Hp1 Hp2].
  apply negb_true_iff in Hp1, Hp2. split; intros Hr.
  - rewrite Hr in Hp1. exact Hp1.
  - rewrite Hr, (Hsms Hr), andb_true_r in Hp2. exact Hp2.
Qed.

Lemma X17_accepted_campaign_has_templates_witness :
  let data :=
    {| name := "Welcome";
       description := None;
       Validations.property_id := None;
       message_type := "both";
       trigger_condition := "all";
       delay_hours := 0;
       email_subject := Some "Thanks, {{visitor_name}}";
       email_template := Some "<p>See {{property_name}} again?</p>";
       email_from_name := "Open House Team";
       sms_template := Some "Thanks for visiting {{property_address}}";
       status := "active" |} in
  Js.truthy (Db.c_sms_template
               (Dashboard.onSubmitCampaign Sample.campaign_id Sample.admin_id data)) = true.
Proof.
  intros data.
  exact (proj1 (proj2 (X17_accepted_campaign_has_templates Sample.campaign_id
                         Sample.admin_id data eq_refl)) eq_refl).
Defined.

Lemma filter_filter_single {A} (p q : A -> bool) (l : list A) (x : A) :
  filter p l = [x] -> q x = true -> filter p (filter q l) = [x].
Proof.
  intros H Hq. induction l as [|a l IH] in H |- *; [discriminate H|].
  cbn [filter] in H |- *. destruct (p a) eqn:Hp.
  - injection H as -> H. rewrite Hq. cbn [filter]. rewrite Hp. f_equal.
    clear IH. induction l as [|b l IH]; [reflexivity|].
    cbn [filter] in H |- *. destruct (p b) eqn:Hb; [discriminate H|].
    destruct (q b); cbn [filter]; [rewrite Hb|]; now apply IH.
  - destruct (q a); cbn [filter]; [rewrite Hp|]; now apply IH.
Qed.

(** A campaign of the user is the campaign the user reads under its id. *)
Lemma campaign_of_readable (S : Dashboard.Session) (db : Database) (cid : uuid)
    (c : Campaign) :
  campaign_of db cid c -> Dashboard.own S (c_admin_id c) = true ->
  campaign_of (Dashboard.readable S db) cid c.
Proof.
  unfold campaign_of. cbn [Dashboard.readable follow_up_campaigns]. intros H Hown.
  exact (filter_filter_single _ (fun c' => Dashboard.own S (c_admin_id c')) _ c H Hown).
Qed.

(** Before suppression, the user is shown the rows the function works
    with. *)
Lemma eligible_readable (S : Dashboard.Session) (db : Database) (cid : uuid)
    (pid : option uuid) (c : Campaign) :
  campaign_of db cid c -> Dashboard.own S (c_admin_id c) = true ->
  get_eligible_visitors (before_suppression (Dashboard.readable S db)) cid pid
  = get_eligible_visitors (before_suppression db) cid pid.
Proof.
  intros Hc Hown.
  pose proof (ResolverFacts.campaign_join _ _ _ (campaign_of_readable S db cid c Hc Hown))
    as H1.
  pose proof (ResolverFacts.campaign_join _ _ _ Hc) as H2.
  unfold get_eligible_visitors. f_equal.
  unfold joined_rows, before_suppression.
  cbn [Dashboard.readable with_logs with_unsubscribes visitors properties feedback
       follow_up_campaigns unsubscribes follow_up_logs] in *.
  rewrite H1, H2. reflexivity.
Qed.

Lemma eligible_before_suppression (db : Database) (cid : uuid) (pid : option uuid)
    (row : VisitorData) :
  In row (get_eligible_visitors db cid pid) <->
  In row (get_eligible_visitors (before_suppression db) cid pid) /\
  ~ unsubscribed db (visitor_email row) (visitor_phone row) /\
  ~ has_non_failed_entry db (visitor_id row) cid.
Proof.
  rewrite (ResolverFacts.eligible_unsubscribes db).
  rewrite (ResolverFacts.eligible_logs (with_unsubscribes db [])).
  change (with_logs (with_unsubscribes db []) []) with (before_suppression db).
  change (has_non_failed_entry (with_unsubscribes db []) (visitor_id row) cid)
    with (has_non_failed_entry db (visitor_id row) cid).
  tauto.
Qed.

(** X18: the send dialog of the dashboard lists every visitor the
    function then reaches.  The list is made by the user, under row level
    security; the function works with the service role and reads every
    row.  For a campaign of the user, every row of the run the posted
    body asks for is a row of the list, and the ticked rows only when one
    is ticked; when the ids are texts of uuids the run hands over the
    calls of these rows with the campaign's own message type.  The list
    can be longer: a listed visitor is a row of the run only if no
    unsubscribe and no log entry the user does not read excludes it; when
    the user reads every unsubscribe and every log entry of the campaign,
    the rows of the run are the listed rows, or the ticked among them. *)
Theorem X18_dashboard_sends_to_the_listed (E : Env) (S : Dashboard.Session) (cid : uuid)
    (selectedVisitors : list string) (s : State E) (c : Campaign) :
  let req := Dashboard.sendFollowUpMessages cid selectedVisitors in
  let db := st_db s in
  let shown := Dashboard.fetchEligibleVisitors S db cid in
  let rows := rows_of_run E req cid db in
  let ticked row := selectedVisitors = [] \/ named_in E selectedVisitors (visitor_id row) in
  names_campaign E req cid ->
  campaign_of db cid c ->
  Dashboard.own S (c_admin_id c) = true ->
  (forall row, In row rows -> In row shown /\ ticked row) /\
  (forall admin,
      admin_of db c admin -> well_formed E req ->
      exists order,
        Permutation order rows /\
        st_outbox (snd (serve req s))
        = (st_outbox s ++ flat_map (messages_for c admin (c_message_type c)) order)%list) /\
  (forall row,
      In row shown -> ticked row ->
      ~ unsubscribed db (visitor_email row) (visitor_phone row) ->
      ~ has_non_failed_entry db (visitor_id row) cid ->
      In row rows) /\
  ((forall u, In u (unsubscribes db) -> Dashboard.own_unsubscribe S u = true) ->
   (forall fl, In fl (follow_up_logs db) -> fl_campaign_id fl = Some cid ->
               Dashboard.own S (fl_admin_id fl) = true) ->
   forall row, In row rows <-> In row shown /\ ticked row).
Proof.
  intros req db shown rows ticked Hn Hc Hown.
  assert (Hlisted : listed req = selectedVisitors)
    by (unfold listed, req, Dashboard.sendFollowUpMessages; cbn [visitorIds];
        now destruct selectedVisitors).
  assert (Hrows : forall row,
             In row rows <-> In row (get_eligible_visitors db cid None) /\ ticked row).
  { intros row. subst rows. unfold rows_of_run. rewrite DispatchFacts.in_narrowed.
    rewrite Hlisted. reflexivity. }
  assert (Hshown : forall row,
             In row shown <->
             In row (get_eligible_visitors (before_suppression db) cid None) /\
             ~ unsubscribed (Dashboard.readable S db) (visitor_email row)
                 (visitor_phone row) /\
             ~ has_non_failed_entry (Dashboard.readable S db) (visitor_id row) cid).
  { intros row. subst shown. unfold Dashboard.fetchEligibleVisitors.
    rewrite eligible_before_suppression.
    now rewrite (eligible_readable S db cid None c Hc Hown). }
  assert (Hsub : forall row,
             In row (get_eligible_visitors db cid None) -> In row shown).
  { intros row Hrow. apply Hshown. apply eligible_before_suppression in Hrow
      as (Hb & Hu & Hl).
    split; [exact Hb|]. split.
    - intros (u & Hin & Hm). apply Hu. exists u. split; [|exact Hm].
      cbn [Dashboard.readable unsubscribes] in Hin. now apply filter_In in Hin as [Hin _].
    - intros (fl & Hin & Hm). apply Hl. exists fl. split; [|exact Hm].
      cbn [Dashboard.readable follow_up_logs] in Hin. now apply filter_In in Hin as [Hin _]. }
  assert (Hback : forall row,
             In row shown ->
             ~ unsubscribed db (visitor_email row) (visitor_phone row) ->
             ~ has_non_failed_entry db (visitor_id row) cid ->
             In row (get_eligible_visitors db cid None)).
  { intros row Hrow Hu Hl. apply eligible_before_suppression.
    apply Hshown in Hrow as (Hb & _ & _). auto. }
  split; [|split; [|split]].
  - intros row Hrow. apply Hrows in Hrow as [Hrow Ht]. split; [now apply Hsub | exact Ht].
  - intros admin Ha Hwf.
    assert (Ht : run_type req c (c_message_type c)) by (left; split; reflexivity).
    destruct (DispatchFacts.serve_run_over E req s cid c admin _ Hn Hc Ha Hwf Ht)
      as (trs & [Hperm (res & (Htr & Ho & _) & _)] & _).
    exists (rows_of_run E req cid (st_db s)). split; [exact Hperm|].
    rewrite Ho. f_equal. exact (TraceFacts.calls_of_run E c admin _ cid _ trs Htr).
  - intros row Hrow Ht Hu Hl. apply Hrows. split; [now apply Hback | exact Ht].
  - intros Hus Hls row. rewrite Hrows. split.
    + intros [Hrow Ht]. split; [now apply Hsub | exact Ht].
    + intros [Hrow Ht]. split; [|exact Ht].
      pose proof Hrow as Hrow'. apply Hshown in Hrow' as (_ & Hu & Hl).
      apply Hback; [exact Hrow | |].
      * intros (u & Hin & Hm). apply Hu. exists u. split; [|exact Hm].
        cbn [Dashboard.readable unsubscribes]. apply filter_In. split; [exact Hin|].
        now apply Hus.
      * intros (fl & Hin & Hm). apply Hl. exists fl. split; [|exact Hm].
        cbn [Dashboard.readable follow_up_logs]. apply filter_In. split; [exact Hin|].
        apply Hls; [exact Hin|]. now destruct Hm as (_ & Hcid & _).
Qed.

(** X18 at work: Bob is ticked. *)
Lemma X18_dashboard_sends_to_the_listed_witness :
  let c := Sample.welcome "email" "all" in
  let db := Sample.database [Sample.jane; Sample.bob] c [] [] in
  let S := {| Dashboard.own_admins := [Sample.admin_id];
              Dashboard.own_unsubscribe := fun _ => false |} in
  In (Sample.row Sample.bob) (Dashboard.fetchEligibleVisitors S db Sample.campaign_id) /\
  ([Sample.bob_id] = [] \/
   Spec.named_in (Sample.env true) [Sample.bob_id]
     (Resolver.visitor_id (Sample.row Sample.bob))).
Proof.
  intros c db S.
  apply (proj1 (X18_dashboard_sends_to_the_listed (Sample.env true) S Sample.campaign_id
                  [Sample.bob_id] (Sample.start true db) c
                  (conj eq_refl eq_refl) eq_refl eq_refl)).
  now left.
Defined.

(** An unsubscribe the user does not read: Jane is listed in the dialog,
    and the run leaves her out. *)
Example listed_and_not_reached :
  let c := Sample.welcome "email" "all" in
  let u := {| Db.u_id := "0f000000-0000-4000-8000-000000000001";
              Db.u_email := Some "jane@example.com";
              Db.u_phone := None;
              Db.u_unsubscribe_type := "email" |} in
  let db := Sample.database [Sample.jane; Sample.bob] c [u] [] in
  let S := {| Dashboard.own_admins := [Sample.admin_id];
              Dashboard.own_unsubscribe := fun _ => false |} in
  Resolver.ids (Dashboard.fetchEligibleVisitors S db Sample.campaign_id)
  = [Sample.jane_id; Sample.bob_id] /\
  Resolver.ids (Spec.rows_of_run (Sample.env true)
                  (Dashboard.sendFollowUpMessages Sample.campaign_id [])
                  Sample.campaign_id db)
  = [Sample.bob_id].
Proof. split; reflexivity. Qed.

End AcceptedCampaigns.

(* ===================================================================== *)
(** * Rows and visitors *)
(* ===================================================================== *)

Section RowsPerVisitor.
Import Db Resolver Spec Terms.

Lemma filter_none {A} (P : A -> bool) (l : list A) :
  (forall x, In x l -> P x = false) -> filter P l = [].
Proof.
  induction l as [|a l IH]; intros H; [reflexivity|]. cbn [filter].
  rewrite (H a) by now left. apply IH. intros x Hx. apply H. now right.
Qed.

Lemma filter_filter_and {A} (P Q : A -> bool) (l : list A) :
  filter P (filter Q l) = filter (fun x => P x && Q x) l.
Proof.
  induction l as [|a l IH]; [reflexivity|]. cbn [filter].
  destruct (Q a); cbn [filter]; rewrite IH, ?andb_false_r, ?andb_true_r;
    [destruct (P a)|]; reflexivity.
Qed.

Lemma length_filter_flat_map {A B} (P : B -> bool) (g : A -> list B) (k : nat)
    (l : list A) :
  (forall a, In a l -> List.length (filter P (g a)) = k) ->
  List.length (filter P (flat_map g l)) = List.length l * k.
Proof.
  induction l as [|a l IH]; intros H; [reflexivity|].
  cbn [flat_map List.length]. rewrite filter_app, length_app, IH, (H a).
  - reflexivity.
  - now left.
  - intros x Hx. apply H. now right.
Qed.

Lemma left_join_length {R} (on : R -> Sql.tri) (table : list R) :
  List.length (Sql.left_join on table) = Nat.max 1 (matches on table).
Proof.
  unfold Sql.left_join, matches. destruct (filter _ table) as [|r rows]; [reflexivity|].
  rewrite length_map. cbn [List.length]. lia.
Qed.

(** The rows of the join for one visitor. *)
Lemma rows_of_block {B} (P : B -> bool) (block : Visitor -> list B) (v : Visitor)
    (l : list Visitor) :
  NoDup (map v_id l) -> In v l ->
  (forall x r, In r (block x) -> v_id x <> v_id v -> P r = false) ->
  List.length (filter P (flat_map block l)) = List.length (filter P (block v)).
Proof.
  intros Hnd Hin Hother. induction l as [|x l IH]; [destruct Hin|].
  cbn [map] in Hnd. inversion Hnd as [|? ? Hx Hl]; subst.
  cbn [flat_map]. rewrite filter_app, length_app.
  destruct Hin as [->|Hin].
  - rewrite (filter_none P (flat_map block l)); [cbn; lia|].
    intros r Hr. apply in_flat_map in Hr as (y & Hy & Hr).
    apply (Hother y r Hr). intros Heq. apply Hx. rewrite <- Heq. now apply in_map.
  - rewrite (filter_none P (block x)).
    + cbn [List.length]. now apply IH.
    + intros r Hr. apply (Hother x r Hr). intros Heq. apply Hx. rewrite Heq.
      now apply in_map.
Qed.

Lemma where_clause_all (db : Database) (cid : uuid) (pid : option uuid) (c : Campaign)
    (v : Visitor) (p : option Property) (f : option Feedback) (u : option Unsubscribe) :
  c_trigger_condition c = "all" \/ c_trigger_condition c = "manual" ->
  where_clause db cid pid {| j_v := v; j_p := p; j_f := f; j_c := Some c; j_u := u |}
  = where_clause db cid pid
      {| j_v := v; j_p := None; j_f := None; j_c := Some c; j_u := u |}.
Proof.
  intros Ht. unfold where_clause, property_filter, campaign_property_filter,
    not_unsubscribed, trigger_filter, not_already_sent.
  cbn [j_v j_p j_f j_c j_u Sql.col]. destruct Ht as [-> | ->]; reflexivity.
Qed.

(** X19: the result has a row for each pair of a visitor and one of their
    feedback forms.  Under the triggers [all] and [manual], with visitor ids
    unique, a visitor who is in the result at all is in it once for each
    property row and each feedback row that joins (counting a table with
    no joining row as one): a visitor of one property with two feedback
    forms has two rows. *)
Theorem X19_one_row_per_feedback_form (db : Database) (cid : uuid) (pid : option uuid)
    (c : Campaign) (v : Visitor) :
  campaign_of db cid c ->
  c_trigger_condition c = "all" \/ c_trigger_condition c = "manual" ->
  NoDup (map v_id (visitors db)) ->
  In v (visitors db) ->
  In (v_id v) (ids (get_eligible_visitors db cid pid)) ->
  rows_of (v_id v) (get_eligible_visitors db cid pid)
  = Nat.max 1 (matches (on_property v) (properties db))
    * Nat.max 1 (matches (on_feedback v) (feedback db)).
Proof.
  intros Hc Ht Hnd Hv Hin.
  assert (Hpos : 1 <= rows_of (v_id v) (get_eligible_visitors db cid pid)).
  { unfold ids in Hin. apply in_map_iff in Hin as (row & Hid & Hrow).
    unfold rows_of.
    assert (Hf : In row (filter (fun r => String.eqb (visitor_id r) (v_id v))
                           (get_eligible_visitors db cid pid)))
      by (apply filter_In; split; [exact Hrow | now apply String.eqb_eq]).
    destruct (filter _ (get_eligible_visitors db cid pid)); [destruct Hf | cbn; lia]. }
  revert Hpos. unfold rows_of, get_eligible_visitors.
  rewrite SqlFacts.filter_map_comm, length_map, filter_filter_and.
  cbn [select visitor_id].
  set (P := fun r : Joined =>
              String.eqb (v_id (j_v r)) (v_id v)
              && Sql.holds (where_clause db cid pid r)).
  unfold joined_rows. rewrite (ResolverFacts.campaign_join db cid c Hc).
  set (block := fun x : Visitor => flat_map _ (Sql.left_join (on_property x) (properties db))).
  rewrite (rows_of_block P block v (visitors db) Hnd Hv).
  2:{ intros x r Hr Hne. subst block. cbn beta in Hr.
      apply in_flat_map in Hr as (p & _ & Hr). apply in_flat_map in Hr as (f & _ & Hr).
      apply in_flat_map in Hr as (c' & _ & Hr). apply in_map_iff in Hr as (u & <- & _).
      subst P. cbn [j_v]. apply andb_false_iff. left. now apply String.eqb_neq. }
  subst block. cbn beta.
  set (k := List.length
              (filter (fun u => P {| j_v := v; j_p := None; j_f := None;
                                    j_c := Some c; j_u := u |})
                 (Sql.left_join (on_unsubscribe v) (unsubscribes db)))).
  rewrite (length_filter_flat_map P _ (List.length (Sql.left_join (on_feedback v)
                                                   (feedback db)) * k)).
  2:{ intros p _. apply length_filter_flat_map. intros f _.
      cbn [flat_map]. rewrite app_nil_r, SqlFacts.filter_map_comm, length_map.
      subst k. f_equal. apply filter_ext. intros u. subst P. cbn [j_v].
      now rewrite (where_clause_all db cid pid c v p f u Ht). }
  rewrite !left_join_length.
  assert (Hk : k <= 1).
  { subst k. unfold Sql.left_join.
    destruct (filter _ (unsubscribes db)) as [|u us].
    - cbn [filter]. destruct (P _); cbn; lia.
    - rewrite filter_none; [cbn; lia|].
      intros u' Hu. apply in_map_iff in Hu as (u0 & <- & _). subst P. cbn [j_v].
      apply andb_false_iff. right. unfold where_clause, not_unsubscribed.
      cbn [j_u Sql.col Sql.is_null]. rewrite !SqlFacts.holds_tand. cbn [Sql.holds].
      now rewrite andb_false_r, ?andb_false_l, ?andb_false_r. }
  intros Hpos. assert (k = 1) by nia. subst k. rewrite H. lia.
Qed.

Lemma X19_one_row_per_feedback_form_witness :
  Terms.rows_of Sample.jane_id
    (Resolver.get_eligible_visitors Terms.twice Sample.campaign_id None) = 2.
Proof.
  apply (X19_one_row_per_feedback_form Terms.twice Sample.campaign_id None
           (Sample.welcome "email" "all") Sample.jane).
  - reflexivity.
  - now left.
  - repeat constructor; cbn; intuition discriminate.
  - now left.
  - now left.
Defined.

End RowsPerVisitor.
